(** * Sawt: conversation orchestration core of a restaurant ordering service

    A shallow embedding of the parts of the Python sources that carry the
    ordering invariants: the finite state machine ([state/machine.py]) and the
    class-based orchestrator that drives it, the graph workflow and its
    hand-off routing ([graph/workflow.py]), the cart, checkout and location
    tools ([tools/*.py]), the promo and coverage repositories and the small
    utilities they use.

    Conventions of the embedding.
    - Python [int] is [Z]; amounts of money (Python [float] or [Decimal]) are
      exact rationals [Q], compared with [==]; binary rounding is outside the
      model.
    - Python [str] is [string] (the UTF-8 bytes of the text).  Functions that
      look at characters ([arabic_utils]) work on the decoded code points.
    - A [dict] used as a map is a [gmap]; a [dict] used as a record is a
      [Record]; a key that may be absent, or a value that may be [None], is an
      [option].
    - Module-level mutable state ([_orders], [_confirmed_orders],
      [_order_type_store], the database) is threaded explicitly.
    - What the language model or the database decides is an input of the
      function that consumes it. *)

From Stdlib Require Import ZArith QArith Qminmax String Ascii List Bool Lia.
From Stdlib Require Import Lqa.
From Stdlib Require Floats.
From stdpp Require Import base option list gmap strings.
Import ListNotations.

Local Open Scope string_scope.
Local Open Scope list_scope.

(** ** Formatted text

    An f-string is kept as the list of its literal and interpolated pieces, so
    that no rendering of numbers has to be fixed. *)

Inductive Piece : Type :=
| Str (s : string)
| Num (q : Q)
| Int (z : Z).

Definition Text : Type := list Piece.

(** Python truthiness of the rendered string: it is non-empty. *)
Definition piece_nonempty (p : Piece) : bool :=
  match p with
  | Str s => negb (String.eqb s "")
  | Num _ | Int _ => true
  end.

Definition text_truthy (t : Text) : bool := existsb piece_nonempty t.

(** [sep.join(words)] as pieces. *)
Fixpoint text_join (sep : string) (words : list string) : Text :=
  match words with
  | [] => []
  | [w] => [Str w]
  | w :: rest => Str w :: Str sep :: text_join sep rest
  end.

(** Truthiness of a plain [str]. *)
Definition str_truthy (s : string) : bool := negb (String.eqb s "").

(** [needle in hay] on strings. *)
Fixpoint str_contains (needle hay : string) : bool :=
  String.prefix needle hay
  || match hay with
     | EmptyString => false
     | String _ rest => str_contains needle rest
     end.

(** [s[n:]] *)
Fixpoint str_drop (n : nat) (s : string) : string :=
  match n, s with
  | O, _ => s
  | S n', String _ rest => str_drop n' rest
  | S _, EmptyString => EmptyString
  end.

(** The upper case of a text of ASCII characters: the letters a-z are raised,
    every other byte is kept.  On such texts it is what [str.upper] and SQL's
    [UPPER] return; on others they do more (a dotless i becomes I), so
    [CalcTotal.calculate_total] takes its [str.upper] as a parameter, and the
    promo table, whose codes are ASCII, is read through [get_promo_by_code]. *)
Definition upper_ascii (c : ascii) : ascii :=
  let n := nat_of_ascii c in
  if (97 <=? n)%nat && (n <=? 122)%nat then ascii_of_nat (n - 32) else c.

Fixpoint upper (s : string) : string :=
  match s with
  | EmptyString => EmptyString
  | String c rest => String (upper_ascii c) (upper rest)
  end.

Definition newline : string := String "010"%char EmptyString.

(** Comparisons of amounts, and Python's two-argument [min]. *)
Definition Qgt_bool (a b : Q) : bool := negb (Qle_bool a b).
Definition Qge_bool (a b : Q) : bool := Qle_bool b a.
Definition Qlt_bool (a b : Q) : bool := negb (Qle_bool b a).
Definition py_min (a b : Q) : Q := if Qlt_bool b a then b else a.

(** ** [state/machine.py] *)

Module Machine.

Inductive State : Type :=
| S0_INIT | S1_INTENT | S2_GREETING | S3_LOCATION | S4_ORDERING
| S5_CHECKOUT | S6_FINALIZED | S_COMPLAINT | S_FALLBACK.

Inductive Intent : Type := ORDERING | COMPLAINT | INQUIRY | OTHER.

Inductive Trigger : Type :=
| START | RETRY | EXIT
| INTENT_ORDERING | INTENT_COMPLAINT | INTENT_INQUIRY | INTENT_OTHER
| CONFIRM_ORDER | NOT_ORDERING | ADDRESS_VALID | ADDRESS_INVALID
| PICKUP_CHOSEN | RESTAURANT_CLOSED | CHECKOUT | CONTINUE_ORDERING
| ORDER_CONFIRMED | MODIFY_ORDER | CANCEL
| RESOLVED | ESCALATE.

#[global] Instance State_eq_dec : EqDecision State.
Proof. solve_decision. Defined.

#[global] Instance Trigger_eq_dec : EqDecision Trigger.
Proof. solve_decision. Defined.

(** The transition table, one association list per state, in source order. *)
Definition TRANSITIONS (s : State) : list (Trigger * State) :=
  match s with
  | S0_INIT => [(START, S1_INTENT)]
  | S1_INTENT =>
      [(INTENT_ORDERING, S2_GREETING); (INTENT_COMPLAINT, S_COMPLAINT);
       (INTENT_INQUIRY, S_FALLBACK); (INTENT_OTHER, S_FALLBACK)]
  | S2_GREETING =>
      [(CONFIRM_ORDER, S3_LOCATION); (NOT_ORDERING, S_FALLBACK);
       (RESTAURANT_CLOSED, S6_FINALIZED)]
  | S3_LOCATION =>
      [(ADDRESS_VALID, S4_ORDERING); (PICKUP_CHOSEN, S4_ORDERING);
       (RESTAURANT_CLOSED, S6_FINALIZED); (CANCEL, S0_INIT)]
  | S4_ORDERING =>
      [(CHECKOUT, S5_CHECKOUT); (CONTINUE_ORDERING, S4_ORDERING);
       (CANCEL, S0_INIT)]
  | S5_CHECKOUT =>
      [(ORDER_CONFIRMED, S6_FINALIZED); (MODIFY_ORDER, S4_ORDERING);
       (CANCEL, S0_INIT)]
  | S6_FINALIZED => [(START, S1_INTENT)]
  | S_COMPLAINT => [(RESOLVED, S2_GREETING); (ESCALATE, S6_FINALIZED)]
  | S_FALLBACK =>
      [(RETRY, S1_INTENT); (EXIT, S6_FINALIZED); (INTENT_ORDERING, S2_GREETING)]
  end.

Fixpoint dict_get (t : Trigger) (d : list (Trigger * State)) : option State :=
  match d with
  | [] => None
  | (k, v) :: rest => if decide (k = t) then Some v else dict_get t rest
  end.

Definition get_next_state (current_state : State) (trigger : Trigger) : option State :=
  dict_get trigger (TRANSITIONS current_state).

Definition is_valid_transition (current_state : State) (trigger : Trigger) : bool :=
  match get_next_state current_state trigger with
  | Some _ => true
  | None => false
  end.

Definition get_available_triggers (s : State) : list Trigger :=
  map fst (TRANSITIONS s).

Definition intent_to_trigger (i : Intent) : Trigger :=
  match i with
  | ORDERING => INTENT_ORDERING
  | COMPLAINT => INTENT_COMPLAINT
  | INQUIRY => INTENT_INQUIRY
  | OTHER => INTENT_OTHER
  end.

Definition get_agent_for_state (s : State) : string :=
  match s with
  | S0_INIT => "intent"
  | S1_INTENT => "intent"
  | S2_GREETING => "greeter"
  | S3_LOCATION => "location"
  | S4_ORDERING => "order"
  | S5_CHECKOUT => "checkout"
  | S6_FINALIZED => "summarizer"
  | S_COMPLAINT => "complaint"
  | S_FALLBACK => "fallback"
  end.

End Machine.

(** ** [state/session_state.py] *)

Module SessionModel.

Record CartItemModifier : Type := {
  modifier_id : Z;
  name_ar : string;
  price_adjustment : Q
}.

Record CartItem : Type := {
  menu_item_id : Z;
  item_name_ar : string;
  quantity : Z;
  unit_price : Q;
  total_price : Q;
  modifiers : list CartItemModifier;
  special_instructions : option string
}.

Record LocationInfo : Type := {
  area_id : option Z;
  area_name_ar : option string;
  street : option string;
  building : option string;
  delivery_notes : option string
}.

(** The session; its metadata and time stamps are left out. *)
Record SessionState : Type := {
  session_id : string;
  state : Machine.State;
  customer_name : option string;
  customer_phone : option string;
  location : LocationInfo;
  order_type : string;
  cart : list CartItem;
  applied_promo_code : option string;
  conversation_history : list (string * string);
  conversation_summary_ar : option string
}.

Definition get_cart_subtotal (s : SessionState) : Q :=
  fold_left (fun acc it => (acc + total_price it)%Q) (cart s) 0%Q.

Definition get_cart_item_count (s : SessionState) : Z :=
  fold_left (fun acc it => (acc + quantity it)%Z) (cart s) 0%Z.

Definition add_message (role content : string) (s : SessionState) : SessionState :=
  {| session_id := session_id s; state := state s;
     customer_name := customer_name s; customer_phone := customer_phone s;
     location := location s; order_type := order_type s; cart := cart s;
     applied_promo_code := applied_promo_code s;
     conversation_history := (conversation_history s ++ [(role, content)])%list;
     conversation_summary_ar := conversation_summary_ar s |}.

Definition clear_cart (s : SessionState) : SessionState :=
  {| session_id := session_id s; state := state s;
     customer_name := customer_name s; customer_phone := customer_phone s;
     location := location s; order_type := order_type s; cart := [];
     applied_promo_code := applied_promo_code s;
     conversation_history := conversation_history s;
     conversation_summary_ar := conversation_summary_ar s |}.

End SessionModel.

(** ** [agents/base_agent.py] and [agents/orchestrator.py] *)

Module Orchestrator.
Import Machine SessionModel.

(** [session_updates]: one field per key the orchestrator understands; [None]
    is an absent key.  [upd_applied_promo_code] may be present with the value
    [None]. *)
Record SessionUpdates : Type := {
  upd_cart : option (list CartItem);
  upd_location : option LocationInfo;
  upd_customer_name : option string;
  upd_customer_phone : option string;
  upd_order_type : option string;
  upd_applied_promo_code : option (option string);
  upd_conversation_summary_ar : option string
}.

Definition no_updates : SessionUpdates :=
  {| upd_cart := None; upd_location := None; upd_customer_name := None;
     upd_customer_phone := None; upd_order_type := None;
     upd_applied_promo_code := None; upd_conversation_summary_ar := None |}.

Record AgentResult : Type := {
  response_ar : string;
  session_updates : SessionUpdates;
  trigger : option Trigger
}.

(** [if key == k and value:] for a string value. *)
Definition truthy_or (new : option string) (old : option string) : option string :=
  match new with
  | Some v => if str_truthy v then Some v else old
  | None => old
  end.

Definition _apply_session_updates (s : SessionState) (u : SessionUpdates) : SessionState :=
  {| session_id := session_id s;
     state := state s;
     customer_name := truthy_or (upd_customer_name u) (customer_name s);
     customer_phone := truthy_or (upd_customer_phone u) (customer_phone s);
     location := match upd_location u with Some l => l | None => location s end;
     order_type :=
       match upd_order_type u with
       | Some v => if str_truthy v then v else order_type s
       | None => order_type s
       end;
     cart := match upd_cart u with Some c => c | None => cart s end;
     applied_promo_code :=
       match upd_applied_promo_code u with
       | Some v => v
       | None => applied_promo_code s
       end;
     conversation_history := conversation_history s;
     conversation_summary_ar :=
       truthy_or (upd_conversation_summary_ar u) (conversation_summary_ar s) |}.

Definition set_state (st : State) (s : SessionState) : SessionState :=
  {| session_id := session_id s; state := st;
     customer_name := customer_name s; customer_phone := customer_phone s;
     location := location s; order_type := order_type s; cart := cart s;
     applied_promo_code := applied_promo_code s;
     conversation_history := conversation_history s;
     conversation_summary_ar := conversation_summary_ar s |}.

Definition set_summary (sm : string) (s : SessionState) : SessionState :=
  {| session_id := session_id s; state := state s;
     customer_name := customer_name s; customer_phone := customer_phone s;
     location := location s; order_type := order_type s; cart := cart s;
     applied_promo_code := applied_promo_code s;
     conversation_history := conversation_history s;
     conversation_summary_ar := Some sm |}.

(** [_should_summarize]: it counts the call and answers. *)
Definition significant_transition (a b : State) : bool :=
  match a, b with
  | S2_GREETING, S3_LOCATION => true
  | S3_LOCATION, S4_ORDERING => true
  | S4_ORDERING, S5_CHECKOUT => true
  | _, _ => false
  end.

Definition _should_summarize (count : Z) (a b : State) : Z * bool :=
  let count' := (count + 1)%Z in
  (count', significant_transition a b || (count' mod 5 =? 0)%Z).

(** One turn of [handle_message].  The two agent calls and the summarizer are
    the language model's; their results are inputs: [intent_result] is used
    when the turn starts in (or enters) [S1_INTENT], [agent_result] is what the
    agent of the state returns, [summary] what the summarizer would write.
    The result is the session that is saved, the new message counter and the
    reply. *)
Definition handle_message (s0 : SessionState) (count : Z) (user_message : string)
    (intent_result : AgentResult) (agent_result : State -> AgentResult)
    (summary : string) : SessionState * Z * string :=
  let s1 := add_message "user" user_message s0 in
  let s2 := if decide (state s1 = S0_INIT) then set_state S1_INTENT s1 else s1 in
  let current0 := state s2 in
  let '(s3, current) :=
    if decide (current0 = S1_INTENT) then
      let sa :=
        match trigger intent_result with
        | Some t =>
            match get_next_state current0 t with
            | Some nxt => (set_state nxt s2, nxt)
            | None => (s2, current0)
            end
        | None => (s2, current0)
        end in
      (_apply_session_updates (fst sa) (session_updates intent_result), snd sa)
    else (s2, current0) in
  let result := agent_result current in
  let s4 := _apply_session_updates s3 (session_updates result) in
  let '(s5, count') :=
    match trigger result with
    | Some t =>
        match get_next_state current t with
        | Some nxt =>
            let s := set_state nxt s4 in
            let '(c, b) := _should_summarize count current nxt in
            (if b then set_summary summary s else s, c)
        | None => (s4, count)
        end
    | None => (s4, count)
    end in
  let s6 := if str_truthy (response_ar result)
            then add_message "assistant" (response_ar result) s5 else s5 in
  (s6, count', response_ar result).

End Orchestrator.

(** ** [config.py] *)

Module Config.

Record Settings : Type := {
  delivery_fee : Q;
  opening_hour : Z;
  closing_hour : Z;
  session_expiry_hours : Z;
  tax_included : bool
}.

(** The defaults of [Settings]. *)
Definition default_settings : Settings :=
  {| delivery_fee := 15; opening_hour := 9; closing_hour := 3;
     session_expiry_hours := 2; tax_included := true |}.

End Config.

(** ** [utils/time_utils.py] *)

Module TimeUtils.
Import Config.

(** A wall-clock reading in the restaurant's time zone. *)
Record Clock : Type := { hour : Z; minute : Z }.

Definition is_restaurant_open (settings : Settings) (now : Clock) : bool :=
  let h := hour now in
  let opening := opening_hour settings in
  let closing := closing_hour settings in
  if (closing <? opening)%Z
  then (opening <=? h)%Z || (h <? closing)%Z
  else (opening <=? h)%Z && (h <? closing)%Z.

End TimeUtils.

(** ** [utils/validators.py] *)

Module Validators.

Definition validate_quantity (quantity : Z) : bool * string :=
  if (quantity <? 1)%Z then (false, "الكمية يجب أن تكون 1 على الأقل")
  else if (quantity >? 99)%Z then (false, "الحد الأقصى للكمية هو 99")
  else (true, "").

End Validators.

(** ** Module-level state of the graph tools and the database *)

Module Store.

(** An entry of [_menu_cache]. [name_en] and [available] are read with
    [.get(key, default)]. *)
Record MenuItem : Type := {
  menu_name_ar : string;
  menu_name_en : option string;
  menu_price : Q;
  menu_available : option bool
}.

(** A cart line: the dictionary built by [add_to_order]. *)
Record OrderLine : Type := {
  item_id : string;
  name_ar : string;
  name_en : string;
  quantity : Z;
  price : Q;
  notes : string;
  line_total : Q
}.

(** A value of [_confirmed_orders]. *)
Record OrderRecord : Type := {
  rec_order_id : string;
  rec_customer_name : string;
  rec_customer_phone : string;
  rec_district : string;
  rec_order_type : string;
  rec_items : list OrderLine;
  rec_subtotal : Q;
  rec_delivery_fee : Q;
  rec_discount : Q;
  rec_total : Q;
  rec_notes : string;
  rec_status : string;
  rec_created_at : string
}.

(** A value of [_order_type_store]. *)
Record OrderTypeInfo : Type := {
  info_order_type : string;
  info_district : string;
  info_delivery_fee : Q
}.

(** Rows of the tables [orders], [order_items] and [promo_codes].  The
    amounts of an order row or an item row are the values passed to the
    INSERT statement; the columns are NUMERIC(10,2) and keep them rounded to
    two decimals, so no statement below reads an amount back from a row. *)
Record OrderRow : Type := {
  row_id : Z;
  row_session_id : string;
  row_customer_name : string;
  row_customer_phone : string;
  row_delivery_address : string;
  row_order_type : string;
  row_subtotal : Q;
  row_delivery_fee : Q;
  row_discount_amount : Q;
  row_total : Q;
  row_status : string;
  row_notes : string
}.

Record OrderItemRow : Type := {
  oi_order_id : Z;
  oi_menu_item_id : Z;
  oi_item_name_ar : string;
  oi_quantity : Z;
  oi_unit_price : Q;
  oi_total_price : Q;
  oi_special_instructions : string
}.

Record PromoRow : Type := {
  promo_id : Z;
  promo_code : string;
  discount_type : string;
  discount_value : Q;
  min_order_amount : Q;
  max_discount : option Q;
  usage_limit : option Z;
  usage_count : Z;
  valid_from : option Z;
  valid_until : option Z;
  is_active : bool
}.

Record Database : Type := {
  tbl_orders : list OrderRow;
  tbl_order_items : list OrderItemRow;
  tbl_promo_codes : list PromoRow
}.

Record World : Type := {
  menu_cache : gmap string MenuItem;
  orders : gmap string (list OrderLine);
  confirmed_orders : gmap string OrderRecord;
  order_type_store : gmap string OrderTypeInfo;
  database : Database
}.

Definition with_orders (o : gmap string (list OrderLine)) (w : World) : World :=
  {| menu_cache := menu_cache w; orders := o;
     confirmed_orders := confirmed_orders w;
     order_type_store := order_type_store w; database := database w |}.

Definition with_confirmed (c : gmap string OrderRecord) (w : World) : World :=
  {| menu_cache := menu_cache w; orders := orders w; confirmed_orders := c;
     order_type_store := order_type_store w; database := database w |}.

Definition with_order_type_store (t : gmap string OrderTypeInfo) (w : World) : World :=
  {| menu_cache := menu_cache w; orders := orders w;
     confirmed_orders := confirmed_orders w;
     order_type_store := t; database := database w |}.

Definition with_database (d : Database) (w : World) : World :=
  {| menu_cache := menu_cache w; orders := orders w;
     confirmed_orders := confirmed_orders w;
     order_type_store := order_type_store w; database := d |}.

(** What a tool call ends in: a returned value or a raised exception. *)
Inductive PyError : Type := IndexError | UnboundLocalError.

Inductive Outcome (A : Type) : Type :=
| Returned (a : A)
| Raised (e : PyError).

Arguments Returned {A} a.
Arguments Raised {A} e.

End Store.

(** ** [tools/order_tools.py] *)

Module OrderTools.
Import Store.

Definition get_session_order (w : World) (session_id : string) : list OrderLine :=
  default [] (orders w !! session_id).

Definition set_session_order (session_id : string) (items : list OrderLine)
    (w : World) : World :=
  with_orders (<[session_id := items]> (orders w)) w.

Definition clear_session_order (session_id : string) (w : World) : World :=
  with_orders (delete session_id (orders w)) w.

(** [sum(item["line_total"] for item in order)] and the same for quantities. *)
Definition sum_line_total (order : list OrderLine) : Q :=
  fold_left (fun acc l => (acc + line_total l)%Q) order 0%Q.

Definition sum_quantity (order : list OrderLine) : Z :=
  fold_left (fun acc l => (acc + quantity l)%Z) order 0%Z.

(** The index the [for idx, x in enumerate(order): if p(x): ...; break] loops
    leave behind. *)
Fixpoint find_idx {A : Type} (p : A -> bool) (l : list A) : option nat :=
  match l with
  | [] => None
  | x :: rest => if p x then Some O else S <$> find_idx p rest
  end.

Definition same_line (id nts : string) (l : OrderLine) : bool :=
  String.eqb (item_id l) id && String.eqb (notes l) nts.

Definition same_item (id : string) (l : OrderLine) : bool :=
  String.eqb (item_id l) id.

(** [line["quantity"] += q; line["line_total"] = line["price"] * line["quantity"]] *)
Definition merge_quantity (q : Z) (l : OrderLine) : OrderLine :=
  let q' := (quantity l + q)%Z in
  {| item_id := item_id l; name_ar := name_ar l; name_en := name_en l;
     quantity := q'; price := price l; notes := notes l;
     line_total := (price l * inject_Z q')%Q |}.

(** [line["quantity"] = q; line["line_total"] = line["price"] * q] *)
Definition set_quantity (q : Z) (l : OrderLine) : OrderLine :=
  {| item_id := item_id l; name_ar := name_ar l; name_en := name_en l;
     quantity := q; price := price l; notes := notes l;
     line_total := (price l * inject_Z q)%Q |}.

Definition set_notes (n : string) (l : OrderLine) : OrderLine :=
  {| item_id := item_id l; name_ar := name_ar l; name_en := name_en l;
     quantity := quantity l; price := price l; notes := n;
     line_total := line_total l |}.

Inductive AddResult : Type :=
| AddFailure (message_ar : Text)
| AddSuccess (order_item : OrderLine) (current_total : Q) (item_count : Z)
    (message_ar : Text).

Definition add_success (r : AddResult) : bool :=
  match r with AddSuccess _ _ _ _ => true | AddFailure _ => false end.

Definition add_to_order (w : World) (id : string) (qty : Z) (nts : string)
    (session_id : string) : AddResult * World :=
  match menu_cache w !! id with
  | None => (AddFailure [Str "الصنف غير موجود: "; Str id], w)
  | Some item =>
      if negb (default true (menu_available item)) then
        (AddFailure [Str "للأسف "; Str (menu_name_ar item); Str " غير متوفر حالياً"], w)
      else
        let order_item :=
          {| item_id := id; name_ar := menu_name_ar item;
             name_en := default "" (menu_name_en item);
             quantity := qty; price := menu_price item; notes := nts;
             line_total := (menu_price item * inject_Z qty)%Q |} in
        let order := get_session_order w session_id in
        let order' :=
          match find_idx (same_line id nts) order with
          | Some idx => alter (merge_quantity qty) idx order
          | None => (order ++ [order_item])%list
          end in
        let subtotal := sum_line_total order' in
        (AddSuccess order_item subtotal (sum_quantity order')
           ([Str "تمام! أضفت "; Int qty; Str "× "; Str (menu_name_ar item)]
            ++ (if str_truthy nts then [Str " ("; Str nts; Str ")"] else [])
            ++ [Str ". المجموع: "; Num subtotal; Str " ريال"])%list,
         set_session_order session_id order' w)
  end.

(** The cart an accepted [add_to_order] leaves behind, on its own: the
    [order'] of [add_to_order]. *)
Definition cart_after_add (order : list OrderLine) (id : string) (item : MenuItem)
    (qty : Z) (nts : string) : list OrderLine :=
  match find_idx (same_line id nts) order with
  | Some idx => alter (merge_quantity qty) idx order
  | None =>
      order ++ [{| item_id := id; name_ar := menu_name_ar item;
                   name_en := default "" (menu_name_en item);
                   quantity := qty; price := menu_price item; notes := nts;
                   line_total := (menu_price item * inject_Z qty)%Q |}]
  end.

Record UpdateResult : Type := {
  upd_success : bool;
  upd_action : option string;
  upd_message_ar : Text
}.

(** [update_order_item].  The local [result] is unbound until one of the two
    branches assigns it; [order[item_idx]] after the [pop] is a fresh index
    into the shortened list. *)
Definition update_order_item (w : World) (id : string) (qty : option Z)
    (nts : option string) (session_id : string) : Outcome UpdateResult * World :=
  let order := get_session_order w session_id in
  match find_idx (same_item id) order with
  | None =>
      (Returned {| upd_success := false; upd_action := None;
                   upd_message_ar := [Str "الصنف مو موجود في السلة"] |}, w)
  | Some item_idx =>
      (* if quantity is not None *)
      let '(result1, order1, w1) :=
        match qty with
        | None => (None, order, w)
        | Some q =>
            if (q <=? 0)%Z then
              let removed_name :=
                match order !! item_idx with
                | Some l => name_ar l
                | None => ""
                end in
              let o := delete item_idx order in
              (Some {| upd_success := true; upd_action := Some "removed";
                       upd_message_ar := [Str "شلت "; Str removed_name; Str " من السلة"] |},
               o, set_session_order session_id o w)
            else
              let o := alter (set_quantity q) item_idx order in
              let shown :=
                match o !! item_idx with
                | Some l => name_ar l
                | None => ""
                end in
              (Some {| upd_success := true; upd_action := Some "updated";
                       upd_message_ar := [Str "تمام، صارت "; Int q; Str "× "; Str shown] |},
               o, set_session_order session_id o w)
        end in
      (* if notes is not None *)
      match nts with
      | None =>
          match result1 with
          | Some r => (Returned r, w1)
          | None => (Raised UnboundLocalError, w1)
          end
      | Some n =>
          match order1 !! item_idx with
          | None => (Raised IndexError, w1)
          | Some _ =>
              let o := alter (set_notes n) item_idx order1 in
              (Returned {| upd_success := true; upd_action := Some "updated";
                           upd_message_ar := [Str "تمام، حدثت الملاحظات"] |},
               set_session_order session_id o w1)
          end
      end
  end.

Inductive RemoveResult : Type :=
| RemoveFailure (message_ar : string)
| RemoveSuccess (new_subtotal : Q) (message_ar : string).

Definition remove_from_order (w : World) (id : string) (session_id : string)
    : RemoveResult * World :=
  let order := get_session_order w session_id in
  let new_order := List.filter (fun l => negb (same_item id l)) order in
  if (List.length new_order =? List.length order)%nat
  then (RemoveFailure "الصنف مو موجود في السلة", w)
  else (RemoveSuccess (sum_line_total new_order) "تم حذف الصنف من السلة",
        set_session_order session_id new_order w).

End OrderTools.

(** ** [db/repositories/promo_repo.py] *)

Module PromoRepository.
Import Store.

(** [SELECT ... WHERE UPPER(code) = UPPER($1)], first row. *)
Definition get_promo_by_code (db : Database) (code : string) : option PromoRow :=
  List.find (fun r => String.eqb (upper (promo_code r)) (upper code))
    (tbl_promo_codes db).

(** Truthiness of a nullable number: present and not zero. *)
Definition truthy_Z (o : option Z) : option Z :=
  match o with
  | Some z => if (z =? 0)%Z then None else Some z
  | None => None
  end.

Definition truthy_Q (o : option Q) : option Q :=
  match o with
  | Some q => if Qeq_bool q 0 then None else Some q
  | None => None
  end.

(** [validate_promo(code, subtotal)] at the instant [now]:
    [(is_valid, discount_amount, message_ar)]. *)
Definition validate_promo (db : Database) (now : Z) (code : string) (subtotal : Q)
    : bool * Q * Text :=
  match get_promo_by_code db code with
  | None => (false, 0%Q, [Str "كود الخصم غير صحيح"])
  | Some promo =>
      if negb (is_active promo) then (false, 0%Q, [Str "كود الخصم غير فعال"])
      else if match truthy_Z (usage_limit promo) with
              | Some lim => (lim <=? usage_count promo)%Z
              | None => false
              end
      then (false, 0%Q, [Str "تم استنفاد عدد استخدامات هذا الكود"])
      else if match valid_from promo with
              | Some t => (now <? t)%Z
              | None => false
              end
      then (false, 0%Q, [Str "كود الخصم لم يبدأ بعد"])
      else if match valid_until promo with
              | Some t => (t <? now)%Z
              | None => false
              end
      then (false, 0%Q, [Str "انتهت صلاحية كود الخصم"])
      else if Qlt_bool subtotal (min_order_amount promo)
      then (false, 0%Q,
            [Str "الحد الأدنى للطلب "; Num (min_order_amount promo); Str " ريال"])
      else
        let discount :=
          if String.eqb (discount_type promo) "percentage" then
            let d := (subtotal * discount_value promo / 100)%Q in
            match truthy_Q (max_discount promo) with
            | Some m => py_min d m
            | None => d
            end
          else discount_value promo in
        let discount := py_min discount subtotal in
        (true, discount, [Str "تم تطبيق خصم "; Num discount; Str " ريال"])
  end.


(** A code the promo table does not let through, whatever the order: it is
    unknown, inactive, over its usage limit, not yet valid or expired. *)
Definition code_unusable (db : Database) (now : Z) (code : string) : bool :=
  match get_promo_by_code db code with
  | None => true
  | Some promo =>
      negb (is_active promo)
      || match truthy_Z (usage_limit promo) with
         | Some lim => (lim <=? usage_count promo)%Z
         | None => false
         end
      || match valid_from promo with
         | Some t => (now <? t)%Z
         | None => false
         end
      || match valid_until promo with
         | Some t => (t <? now)%Z
         | None => false
         end
  end.

End PromoRepository.

(** ** [mcp_server/tools/order.py]: [compute_totals] *)

Module McpOrder.
Import Store.



End McpOrder.

(** ** [tools/checkout_tools.py] *)

Module CheckoutTools.
Import Store OrderTools.

Record Totals : Type := {
  tot_subtotal : Q;
  tot_delivery_fee : Q;
  tot_discount : Q;
  tot_total : Q;
  tot_breakdown_ar : list Text;
  tot_promo_applied : bool
}.

Inductive CalcResult : Type :=
| CalcFailure (message_ar : string)
| CalcSuccess (t : Totals).

(** [calculate_total] over exact amounts and the upper case of ASCII, reading
    the cart of the session: the instance of [CalcTotal.calculate_total] at
    [Amounts.exact] and [upper] (lemma [calculate_total_exact]).  It serves
    the statements that no rounding and no other letter can touch; the
    statements on which codes are applied, and from which subtotal, are made
    on [CalcTotal.calculate_total].  [breakdown_ar] is kept as the list of its
    lines. *)
Definition calculate_total (w : World) (session_id : string) (delivery_fee : Q)
    (promo : option string) : CalcResult :=
  let order := get_session_order w session_id in
  match order with
  | [] => CalcFailure "السلة فارغة"
  | _ =>
      let subtotal := sum_line_total order in
      let '(discount, promo_message) :=
        match promo with
        | None => (0%Q, [])
        | Some code =>
            if negb (str_truthy code) then (0%Q, [])
            else
              let promo_code_upper := upper code in
              if String.eqb promo_code_upper "WELCOME10" then
                let d := (subtotal * 0.10)%Q in
                let d := if Qgt_bool d 30 then 30%Q else d in
                (d, [Str "خصم 10% (حد أقصى 30 ريال): -"; Num d; Str " ريال"])
              else if String.eqb promo_code_upper "FIRST20" then
                if Qge_bool subtotal 100 then
                  let d := (subtotal * 0.20)%Q in
                  let d := if Qgt_bool d 50 then 50%Q else d in
                  (d, [Str "خصم 20% (حد أقصى 50 ريال): -"; Num d; Str " ريال"])
                else (0%Q, [Str "الحد الأدنى للطلب 100 ريال لاستخدام هذا الكود"])
              else if String.eqb promo_code_upper "FREE15" then
                if Qge_bool subtotal 75 then (15%Q, [Str "خصم 15 ريال"])
                else (0%Q, [Str "الحد الأدنى للطلب 75 ريال لاستخدام هذا الكود"])
              else (0%Q, [Str "كود الخصم غير صحيح"])
        end in
      let total := (subtotal + delivery_fee - discount)%Q in
      let breakdown_lines :=
        [[Str "المجموع الفرعي: "; Num subtotal; Str " ريال"]]
        ++ (if Qgt_bool delivery_fee 0
            then [[Str "رسوم التوصيل: "; Num delivery_fee; Str " ريال"]] else [])
        ++ (if Qgt_bool discount 0
            then [[Str "الخصم: -"; Num discount; Str " ريال"]] else [])
        ++ [[Str "الإجمالي: "; Num total; Str " ريال"]]
        ++ (if text_truthy promo_message
            then [Str newline :: promo_message] else []) in
      CalcSuccess
        {| tot_subtotal := subtotal; tot_delivery_fee := delivery_fee;
           tot_discount := discount; tot_total := total;
           tot_breakdown_ar := breakdown_lines;
           tot_promo_applied := Qgt_bool discount 0 |}
  end.

(** [int(s)] for a cart line's item id: an unsigned decimal numeral (menu ids
    are [str(row["id"])]). *)
Definition digit_value (c : ascii) : option Z :=
  let n := nat_of_ascii c in
  if (48 <=? n)%nat && (n <=? 57)%nat then Some (Z.of_nat (n - 48)) else None.

Fixpoint int_digits (acc : Z) (s : string) : option Z :=
  match s with
  | EmptyString => Some acc
  | String c rest =>
      match digit_value c with
      | Some d => int_digits (acc * 10 + d)%Z rest
      | None => None
      end
  end.

Definition int_of_str (s : string) : option Z :=
  match s with
  | EmptyString => None
  | _ => int_digits 0 s
  end.

(** Where the database lets a transaction down: the connection, the n-th
    [cursor.execute] (0 is the order header, k+1 the k-th line), or the
    commit. *)
Inductive Fault : Type :=
| NoFault
| ConnectFault
| ExecuteFault (n : nat)
| CommitFault.

Definition execute_fails (f : Fault) (n : nat) : bool :=
  match f with
  | ExecuteFault k => (k =? n)%nat
  | _ => false
  end.

(** The line inserts of the transaction: [None] when an exception is raised
    (by [int] or by the database), else the rows to be written. *)
Fixpoint insert_items (f : Fault) (order_db_id : Z) (k : nat)
    (items : list OrderLine) : option (list OrderItemRow) :=
  match items with
  | [] => Some []
  | item :: rest =>
      mid ← int_of_str (item_id item);
      if execute_fails f k then None
      else
        rows ← insert_items f order_db_id (S k) rest;
        Some ({| oi_order_id := order_db_id; oi_menu_item_id := mid;
                 oi_item_name_ar := name_ar item; oi_quantity := quantity item;
                 oi_unit_price := price item; oi_total_price := line_total item;
                 oi_special_instructions := notes item |} :: rows)
  end.

(** [save_order_to_database_sync].  [order_db_id] is the id the database
    returns for the header.  Every exception ends in [rollback] (or in no
    connection at all) and the answer [False]. *)
Definition save_order_to_database_sync (db : Database) (f : Fault) (order_db_id : Z)
    (session_id customer_name customer_phone district order_type : string)
    (order_items : list OrderLine) (subtotal delivery_fee discount total : Q)
    (nts : string) : bool * Database :=
  match f with
  | ConnectFault => (false, db)
  | _ =>
      if execute_fails f 0 then (false, db)
      else
        match insert_items f order_db_id 1 order_items with
        | None => (false, db)
        | Some rows =>
            match f with
            | CommitFault => (false, db)
            | _ =>
                (true,
                 {| tbl_orders :=
                      tbl_orders db ++
                      [{| row_id := order_db_id; row_session_id := session_id;
                          row_customer_name := customer_name;
                          row_customer_phone := customer_phone;
                          row_delivery_address := district;
                          row_order_type := order_type;
                          row_subtotal := subtotal;
                          row_delivery_fee := delivery_fee;
                          row_discount_amount := discount; row_total := total;
                          row_status := "confirmed"; row_notes := nts |}];
                    tbl_order_items := tbl_order_items db ++ rows;
                    tbl_promo_codes := tbl_promo_codes db |})
            end
        end
  end.

(** What the surroundings decide during one [confirm_order]: the generated
    order id, the clock, the id the database hands out and where (if at all)
    the database fails. *)
Record Env : Type := {
  env_order_id : string;
  env_now_iso : string;
  env_order_db_id : Z;
  env_fault : Fault
}.

(** The result dictionary; [confirmation_ar], a rendering of the same fields,
    is left out. *)
Inductive ConfirmResult : Type :=
| ConfirmFailure (message_ar : string)
| ConfirmSuccess (order_id : string) (total : Q).

Definition confirm_success (r : ConfirmResult) : bool :=
  match r with ConfirmSuccess _ _ => true | ConfirmFailure _ => false end.

Definition confirm_order (w : World) (env : Env) (session_id customer_name
    customer_phone district : string) (delivery_fee discount : Q)
    (order_type nts : string) : ConfirmResult * World :=
  let order_items := get_session_order w session_id in
  match order_items with
  | [] => (ConfirmFailure "السلة فارغة", w)
  | _ =>
      if negb (str_truthy customer_name) then (ConfirmFailure "يرجى إدخال الاسم", w)
      else if negb (str_truthy customer_phone)
      then (ConfirmFailure "يرجى إدخال رقم الجوال", w)
      else
        let subtotal := sum_line_total order_items in
        let actual_delivery_fee :=
          if String.eqb order_type "delivery" then delivery_fee else 0%Q in
        let total := (subtotal + actual_delivery_fee - discount)%Q in
        let order_id := env_order_id env in
        let order_record :=
          {| rec_order_id := order_id; rec_customer_name := customer_name;
             rec_customer_phone := customer_phone; rec_district := district;
             rec_order_type := order_type; rec_items := order_items;
             rec_subtotal := subtotal; rec_delivery_fee := actual_delivery_fee;
             rec_discount := discount; rec_total := total; rec_notes := nts;
             rec_status := "confirmed"; rec_created_at := env_now_iso env |} in
        let w1 := with_confirmed (<[order_id := order_record]> (confirmed_orders w)) w in
        let '(db_saved, db') :=
          save_order_to_database_sync (database w1) (env_fault env)
            (env_order_db_id env) session_id customer_name customer_phone
            district order_type order_items subtotal actual_delivery_fee
            discount total nts in
        let w2 := with_database db' w1 in
        let w3 := clear_session_order session_id w2 in
        (ConfirmSuccess order_id total, w3)
  end.

(** The answer of [save_order_to_database_sync] inside a [confirm_order] that
    passed its checks. *)
Definition db_saved (w : World) (env : Env) (session_id customer_name
    customer_phone district : string) (delivery_fee discount : Q)
    (order_type nts : string) : bool :=
  let order_items := get_session_order w session_id in
  let subtotal := sum_line_total order_items in
  let actual_delivery_fee :=
    if String.eqb order_type "delivery" then delivery_fee else 0%Q in
  (save_order_to_database_sync (database w) (env_fault env)
     (env_order_db_id env) session_id customer_name customer_phone district
     order_type order_items subtotal actual_delivery_fee discount
     (subtotal + actual_delivery_fee - discount)%Q nts).1.

End CheckoutTools.

(** ** The numbers of the graph tools

    The graph tools compute with Python floats: a line total is a float price
    times a quantity, the delivery fee is a float, [0.10] and [0.20] are
    float literals, and an [int] literal enters a sum or a comparison by its
    float.  An [Arith] holds the operations the tools use, so that
    [calculate_total] is written once.  [float_arith] is the arithmetic of
    the program, with the built-in [sum] of its interpreter ([plain_sum]
    before Python 3.12, [compensated_sum] since); [exact] is the arithmetic
    of the rationals, with which it agrees as long as nothing is rounded. *)

Module Amounts.
Import Floats.

Record Arith : Type := {
  amount : Type;
  (* an [int] (a literal such as [30], a quantity) as a number; the float
     literals [0.0] and [15.0] are the numbers of 0 and 15 *)
  of_int : Z -> amount;
  (* the float literals [0.10] and [0.20] *)
  tenth : amount;
  fifth : amount;
  (* [sum(xs)], the built-in *)
  sum_of : list amount -> amount;
  (* [a + b], [a - b], [a * b] *)
  add : amount -> amount -> amount;
  sub : amount -> amount -> amount;
  mul : amount -> amount -> amount;
  (* [a > b] and [a >= b] *)
  gt : amount -> amount -> bool;
  ge : amount -> amount -> bool;
  (* [0 > 0] is false *)
  zero_not_positive : gt (of_int 0) (of_int 0) = false
}.

(** [float(n)]: the float nearest to the integer (ties to even). *)
Definition float_of_int (z : Z) : float :=
  SF2Prim (SpecFloat.binary_normalize FloatOps.prec FloatOps.emax z 0 false).

(** [sum(xs)] on floats before Python 3.12: the additions from the [int] 0,
    left to right. *)
Definition plain_sum (xs : list float) : float :=
  fold_left PrimFloat.add xs (float_of_int 0).

(** [sum(xs)] on floats since Python 3.12: after the first addition to the
    [int] 0, Neumaier's compensated sum, whose correction is added at the end
    when it is finite and not zero. *)
Definition neumaier_step (st : float * float) (x : float) : float * float :=
  let f_result := st.1 in
  let c := st.2 in
  let t := PrimFloat.add f_result x in
  (t,
   if PrimFloat.leb (PrimFloat.abs x) (PrimFloat.abs f_result)
   then PrimFloat.add c (PrimFloat.add (PrimFloat.sub f_result t) x)
   else PrimFloat.add c (PrimFloat.add (PrimFloat.sub x t) f_result)).

Definition compensated_sum (xs : list float) : float :=
  match xs with
  | [] => float_of_int 0
  | x :: rest =>
      let st := fold_left neumaier_step rest
                  (PrimFloat.add (float_of_int 0) x, float_of_int 0) in
      if negb (PrimFloat.eqb st.2 (float_of_int 0)) && PrimFloat.is_finite st.2
      then PrimFloat.add st.1 st.2
      else st.1
  end.

(** The floats of the program, with one or the other [sum]. *)
#[warnings="-inexact-float"] Definition float_arith (sum_impl : list float -> float) : Arith :=
  {| amount := float; of_int := float_of_int;
     tenth := 0.10%float; fifth := 0.20%float;
     sum_of := sum_impl;
     add := PrimFloat.add; sub := PrimFloat.sub; mul := PrimFloat.mul;
     gt := fun a b => PrimFloat.ltb b a;
     ge := fun a b => PrimFloat.leb b a;
     zero_not_positive := eq_refl |}.

(** The two [sum]s, by the version of the interpreter. *)
Definition float_sums : list (list float -> float) := [plain_sum; compensated_sum].

Definition exact : Arith :=
  {| amount := Q; of_int := inject_Z;
     tenth := 0.10%Q; fifth := 0.20%Q;
     sum_of := fun xs => fold_left Qplus xs 0%Q;
     add := Qplus; sub := Qminus; mul := Qmult;
     gt := Qgt_bool; ge := Qge_bool;
     zero_not_positive := eq_refl |}.

(** A piece of an f-string over the numbers of an arithmetic. *)
Inductive APiece (A : Arith) : Type :=
| AStr (s : string)
| ANum (x : amount A).

Arguments AStr {A} s.
Arguments ANum {A} x.

Definition AText (A : Arith) : Type := list (APiece A).

Definition apiece_nonempty {A : Arith} (p : APiece A) : bool :=
  match p with
  | AStr s => negb (String.eqb s "")
  | ANum _ => true
  end.

Definition atext_truthy {A : Arith} (t : AText A) : bool :=
  existsb apiece_nonempty t.

(** [line_total = price * quantity] of [add_to_order], line by line. *)
Definition line_totals (A : Arith) (lines : list (amount A * Z)) : list (amount A) :=
  map (fun l => mul A l.1 (of_int A l.2)) lines.

(** Prices of the examples. *)
#[warnings="-inexact-float"] Definition price_5_15 : float := 5.15%float.

#[warnings="-inexact-float"] Definition price_29_90 : float := 29.90%float.

(** 99.99999999999999, the float before 100. *)
Definition just_below_100 : float := 0x1.8ffffffffffffp+6%float.

End Amounts.

(** ** [tools/checkout_tools.py]: [calculate_total] on the numbers of the program *)

Module CalcTotal.
Import Amounts.

Section WithArith.

Variable A : Arith.

(** [str.upper] *)
Variable str_upper : string -> string.

Record Totals : Type := {
  subtotal : amount A;
  delivery_fee : amount A;
  discount : amount A;
  total : amount A;
  breakdown_ar : list (AText A);
  promo_applied : bool
}.

Inductive Answer : Type :=
| Failure (message_ar : string)
| Success (t : Totals).

(** [min(x, y)] of Python: [y] when [y < x], else [x]. *)
Definition py_min (x y : amount A) : amount A := if gt A x y then y else x.

(** [calculate_total].  [order] holds the [line_total] of each line of
    [get_session_order(session_id)], the only key the tool reads;
    [breakdown_ar] is kept as the list of its lines. *)
Definition calculate_total (order : list (amount A)) (delivery_fee : amount A)
    (promo_code : option string) : Answer :=
  match order with
  | [] => Failure "السلة فارغة"
  | _ =>
      let subtotal := sum_of A order in
      let '(discount, promo_message) :=
        match promo_code with
        | None => (of_int A 0, [])
        | Some code =>
            if negb (str_truthy code) then (of_int A 0, [])
            else
              let promo_code_upper := str_upper code in
              if String.eqb promo_code_upper "WELCOME10" then
                let d := mul A subtotal (tenth A) in
                let d := if gt A d (of_int A 30) then of_int A 30 else d in
                (d, [AStr "خصم 10% (حد أقصى 30 ريال): -"; ANum d; AStr " ريال"])
              else if String.eqb promo_code_upper "FIRST20" then
                if ge A subtotal (of_int A 100) then
                  let d := mul A subtotal (fifth A) in
                  let d := if gt A d (of_int A 50) then of_int A 50 else d in
                  (d, [AStr "خصم 20% (حد أقصى 50 ريال): -"; ANum d; AStr " ريال"])
                else (of_int A 0, [AStr "الحد الأدنى للطلب 100 ريال لاستخدام هذا الكود"])
              else if String.eqb promo_code_upper "FREE15" then
                if ge A subtotal (of_int A 75) then (of_int A 15, [AStr "خصم 15 ريال"])
                else (of_int A 0, [AStr "الحد الأدنى للطلب 75 ريال لاستخدام هذا الكود"])
              else (of_int A 0, [AStr "كود الخصم غير صحيح"])
        end in
      let total := sub A (add A subtotal delivery_fee) discount in
      let breakdown_lines :=
        [[AStr "المجموع الفرعي: "; ANum subtotal; AStr " ريال"]]
        ++ (if gt A delivery_fee (of_int A 0)
            then [[AStr "رسوم التوصيل: "; ANum delivery_fee; AStr " ريال"]] else [])
        ++ (if gt A discount (of_int A 0)
            then [[AStr "الخصم: -"; ANum discount; AStr " ريال"]] else [])
        ++ [[AStr "الإجمالي: "; ANum total; AStr " ريال"]]
        ++ (if atext_truthy promo_message
            then [AStr newline :: promo_message] else []) in
      Success
        {| subtotal := subtotal; delivery_fee := delivery_fee;
           discount := discount; total := total;
           breakdown_ar := breakdown_lines;
           promo_applied := gt A discount (of_int A 0) |}
  end.

(** The percentage codes of [calculate_total]: code, factor, maximum
    discount, minimum order (if any). *)
Definition percentage_codes : list (string * amount A * amount A * option (amount A)) :=
  [("WELCOME10", tenth A, of_int A 30, None);
   ("FIRST20", fifth A, of_int A 50, Some (of_int A 100))].

End WithArith.

Arguments subtotal {A} t.
Arguments delivery_fee {A} t.
Arguments discount {A} t.
Arguments total {A} t.
Arguments breakdown_ar {A} t.
Arguments promo_applied {A} t.
Arguments Failure {A} message_ar.
Arguments Success {A} t.

(** The pieces and the answer over the rationals, as [CheckoutTools] has them. *)
Definition exact_piece (p : APiece exact) : Piece :=
  match p with
  | AStr s => Str s
  | ANum x => Num x
  end.

Definition exact_answer (r : Answer exact) : CheckoutTools.CalcResult :=
  match r with
  | Failure m => CheckoutTools.CalcFailure m
  | Success t =>
      CheckoutTools.CalcSuccess
        {| CheckoutTools.tot_subtotal := subtotal t;
           CheckoutTools.tot_delivery_fee := delivery_fee t;
           CheckoutTools.tot_discount := discount t;
           CheckoutTools.tot_total := total t;
           CheckoutTools.tot_breakdown_ar := map (map exact_piece) (breakdown_ar t);
           CheckoutTools.tot_promo_applied := promo_applied t |}
  end.

End CalcTotal.

(** ** [graph/state.py] and [graph/workflow.py] *)

Module Workflow.
Import Store.

Inductive Agent : Type := greeting | location | order | checkout | end_.

#[global] Instance Agent_eq_dec : EqDecision Agent.
Proof. solve_decision. Defined.

Inductive MsgKind : Type := SystemMessage | HumanMessage | AIMessage | ToolMessage.

(** The keys the nodes read from a tool result.  [j_success] and [j_covered]
    are the truthiness of [data.get(...)]; an [option] is an absent key. *)
Record JsonDict : Type := {
  j_success : bool;
  j_order_type : option string;
  j_district : option string;
  j_delivery_fee : option Q;
  j_covered : bool;
  j_estimated_time : option string;
  j_current_total : option Q;
  j_order_id : option string
}.

(** A message of the thread.  [parsed] is what [json.loads(content)] yields
    when it yields a dictionary, and [None] when it raises or yields
    something else. *)
Record Message : Type := {
  kind : MsgKind;
  content : string;
  parsed : option JsonDict
}.

(** The channels of [AgentState] that the nodes read or write.  The messages
    channel only feeds the language model, whose answer is an input of each
    node here. *)
Record AgentState : Type := {
  current_agent : Agent;
  district : option string;
  district_validated : bool;
  delivery_fee : Q;
  estimated_time : option string;
  order_type : string;
  subtotal : Q;
  order_confirmed : bool;
  order_id : option string;
  handoff_summary_ar : Text;
  came_from_checkout : bool;
  came_from_order : bool
}.

Definition create_initial_state : AgentState :=
  {| current_agent := greeting; district := None; district_validated := false;
     delivery_fee := 0; estimated_time := None; order_type := "delivery";
     subtotal := 0; order_confirmed := false; order_id := None;
     handoff_summary_ar := []; came_from_checkout := false;
     came_from_order := false |}.

(** The dictionary a node returns: [None] is an absent key. *)
Record Updates : Type := {
  u_current_agent : option Agent;
  u_district : option string;
  u_district_validated : option bool;
  u_delivery_fee : option Q;
  u_estimated_time : option string;
  u_order_type : option string;
  u_subtotal : option Q;
  u_order_confirmed : option bool;
  u_order_id : option string;
  u_handoff_summary_ar : option Text;
  u_came_from_checkout : option bool;
  u_came_from_order : option bool
}.

Definition empty_updates : Updates :=
  {| u_current_agent := None; u_district := None; u_district_validated := None;
     u_delivery_fee := None; u_estimated_time := None; u_order_type := None;
     u_subtotal := None; u_order_confirmed := None; u_order_id := None;
     u_handoff_summary_ar := None; u_came_from_checkout := None;
     u_came_from_order := None |}.

(** The graph writes every returned key over the channel of that name. *)
Definition apply_updates (s : AgentState) (u : Updates) : AgentState :=
  {| current_agent := default (current_agent s) (u_current_agent u);
     district := match u_district u with Some d => Some d | None => district s end;
     district_validated := default (district_validated s) (u_district_validated u);
     delivery_fee := default (delivery_fee s) (u_delivery_fee u);
     estimated_time :=
       match u_estimated_time u with Some t => Some t | None => estimated_time s end;
     order_type := default (order_type s) (u_order_type u);
     subtotal := default (subtotal s) (u_subtotal u);
     order_confirmed := default (order_confirmed s) (u_order_confirmed u);
     order_id := match u_order_id u with Some i => Some i | None => order_id s end;
     handoff_summary_ar := default (handoff_summary_ar s) (u_handoff_summary_ar u);
     came_from_checkout := default (came_from_checkout s) (u_came_from_checkout u);
     came_from_order := default (came_from_order s) (u_came_from_order u) |}.

Definition extract_handoff (c : string) : option Agent :=
  if str_contains "[HANDOFF:location]" c then Some location
  else if str_contains "[HANDOFF:order]" c then Some order
  else if str_contains "[HANDOFF:checkout]" c then Some checkout
  else if str_contains "[HANDOFF:end]" c then Some end_
  else None.

(** [m for m in messages if not (isinstance(m, SystemMessage) and "[معلومات:" in m.content)] *)
Definition is_context_message (m : Message) : bool :=
  match kind m with
  | SystemMessage => str_contains "[معلومات:" (content m)
  | _ => false
  end.

Definition drop_context (messages : list Message) : list Message :=
  List.filter (fun m => negb (is_context_message m)) messages.

(** [str(x)] of a channel that may hold [None]. *)
Definition show_opt (o : option string) : string := default "None" o.

(** Writing one key of the dictionary a node is building. *)
Definition set_order_info (ot d : string) (fee : Q) (u : Updates) : Updates :=
  {| u_current_agent := u_current_agent u; u_district := Some d;
     u_district_validated :=
       if String.eqb ot "delivery" then Some true else u_district_validated u;
     u_delivery_fee := Some fee; u_estimated_time := u_estimated_time u;
     u_order_type := Some ot; u_subtotal := u_subtotal u;
     u_order_confirmed := u_order_confirmed u; u_order_id := u_order_id u;
     u_handoff_summary_ar := u_handoff_summary_ar u;
     u_came_from_checkout := u_came_from_checkout u;
     u_came_from_order := u_came_from_order u |}.

Definition set_stored_info (ot d : string) (fee : Q) (u : Updates) : Updates :=
  {| u_current_agent := u_current_agent u; u_district := Some d;
     u_district_validated := u_district_validated u;
     u_delivery_fee := Some fee; u_estimated_time := u_estimated_time u;
     u_order_type := Some ot; u_subtotal := u_subtotal u;
     u_order_confirmed := u_order_confirmed u; u_order_id := u_order_id u;
     u_handoff_summary_ar := u_handoff_summary_ar u;
     u_came_from_checkout := u_came_from_checkout u;
     u_came_from_order := u_came_from_order u |}.

Definition set_estimated_time (t : string) (u : Updates) : Updates :=
  {| u_current_agent := u_current_agent u; u_district := u_district u;
     u_district_validated := u_district_validated u;
     u_delivery_fee := u_delivery_fee u; u_estimated_time := Some t;
     u_order_type := u_order_type u; u_subtotal := u_subtotal u;
     u_order_confirmed := u_order_confirmed u; u_order_id := u_order_id u;
     u_handoff_summary_ar := u_handoff_summary_ar u;
     u_came_from_checkout := u_came_from_checkout u;
     u_came_from_order := u_came_from_order u |}.

Definition set_subtotal (t : Q) (u : Updates) : Updates :=
  {| u_current_agent := u_current_agent u; u_district := u_district u;
     u_district_validated := u_district_validated u;
     u_delivery_fee := u_delivery_fee u;
     u_estimated_time := u_estimated_time u;
     u_order_type := u_order_type u; u_subtotal := Some t;
     u_order_confirmed := u_order_confirmed u; u_order_id := u_order_id u;
     u_handoff_summary_ar := u_handoff_summary_ar u;
     u_came_from_checkout := u_came_from_checkout u;
     u_came_from_order := u_came_from_order u |}.

Definition set_order_confirmed (oid : string) (u : Updates) : Updates :=
  {| u_current_agent := u_current_agent u; u_district := u_district u;
     u_district_validated := u_district_validated u;
     u_delivery_fee := u_delivery_fee u;
     u_estimated_time := u_estimated_time u;
     u_order_type := u_order_type u; u_subtotal := u_subtotal u;
     u_order_confirmed := Some true; u_order_id := Some oid;
     u_handoff_summary_ar := u_handoff_summary_ar u;
     u_came_from_checkout := u_came_from_checkout u;
     u_came_from_order := u_came_from_order u |}.

(** [updates["current_agent"] = handoff], with the summary and the
    breadcrumbs the node sets along with it ([None]: the key is not
    written). *)
Definition with_handoff (u : Updates) (a : Agent) (summary : option Text)
    (from_checkout from_order : option bool) : Updates :=
  {| u_current_agent := Some a; u_district := u_district u;
     u_district_validated := u_district_validated u;
     u_delivery_fee := u_delivery_fee u;
     u_estimated_time := u_estimated_time u;
     u_order_type := u_order_type u; u_subtotal := u_subtotal u;
     u_order_confirmed := u_order_confirmed u; u_order_id := u_order_id u;
     u_handoff_summary_ar :=
       match summary with Some t => Some t | None => u_handoff_summary_ar u end;
     u_came_from_checkout :=
       match from_checkout with Some b => Some b | None => u_came_from_checkout u end;
     u_came_from_order :=
       match from_order with Some b => Some b | None => u_came_from_order u end |}.

(** *** The location node *)

(** The scan of the tool results: a [set_order_type] result first, else a
    [check_delivery_district] result. *)
Definition scan_location_message (u : Updates) (m : Message) : Updates :=
  match parsed m with
  | None => u
  | Some data =>
      match j_order_type data with
      | Some ot =>
          if j_success data then
            set_order_info ot (default "" (j_district data))
              (default 0%Q (j_delivery_fee data)) u
          else if j_covered data then
            set_estimated_time (default "" (j_estimated_time data)) u
          else u
      | None =>
          if j_covered data then
            set_estimated_time (default "" (j_estimated_time data)) u
          else u
      end
  end.

(** [get_order_type_info()], read with the default session id. *)
Definition get_order_type_info (w : World) : OrderTypeInfo :=
  default {| info_order_type := "delivery"; info_district := "";
             info_delivery_fee := 0 |}
          (order_type_store w !! "default").

(** The fallback when no tool result set the order type. *)
Definition stored_fallback (w : World) (u : Updates) : Updates :=
  match u_order_type u with
  | Some _ => u
  | None =>
      let stored := get_order_type_info w in
      if negb (String.eqb (info_order_type stored) "delivery")
         || str_truthy (info_district stored)
      then set_stored_info (info_order_type stored) (info_district stored)
             (info_delivery_fee stored) u
      else u
  end.

(** The hand-off target the location node settles on. *)
Definition redirect_location_handoff (handoff : Agent) (came_from_checkout : bool)
    : Agent :=
  match handoff with
  | order => if came_from_checkout then checkout else order
  | checkout => if came_from_checkout then checkout else order
  | other => other
  end.

Definition call_location_agent (w : World) (s : AgentState)
    (result_messages : list Message) : Updates :=
  let messages := drop_context result_messages in
  let u := fold_left scan_location_message messages empty_updates in
  let u := stored_fallback w u in
  match last messages with
  | None => u
  | Some m =>
      match extract_handoff (content m) with
      | None => u
      | Some handoff0 =>
          let handoff := redirect_location_handoff handoff0 (came_from_checkout s) in
          let ot := default (order_type s) (u_order_type u) in
          let shown_district :=
            match u_district u with
            | Some d => d
            | None => show_opt (district s)
            end in
          let shown_fee := default (delivery_fee s) (u_delivery_fee u) in
          let summary :=
            match handoff with
            | order =>
                if String.eqb ot "pickup"
                then Some [Str "العميل يبي استلام من الفرع، جاهز يختار أكله"]
                else Some [Str "العميل من "; Str shown_district;
                           Str "، رسوم التوصيل "; Num shown_fee; Str " ريال"]
            | checkout =>
                if String.eqb ot "pickup"
                then Some [Str "العميل غيّر لاستلام من الفرع"]
                else Some [Str "العميل غيّر الموقع إلى "; Str shown_district]
            | _ => u_handoff_summary_ar u
            end in
          {| u_current_agent := Some handoff;
             u_district := u_district u;
             u_district_validated := u_district_validated u;
             u_delivery_fee := u_delivery_fee u;
             u_estimated_time := u_estimated_time u;
             u_order_type := u_order_type u;
             u_subtotal := u_subtotal u;
             u_order_confirmed := u_order_confirmed u;
             u_order_id := u_order_id u;
             u_handoff_summary_ar := summary;
             u_came_from_checkout := Some false;
             u_came_from_order := Some false |}
      end
  end.

(** *** The greeting, order and checkout nodes *)

Definition call_greeting_agent (s : AgentState) (result_messages : list Message)
    : Updates :=
  match last result_messages with
  | None => empty_updates
  | Some m =>
      match extract_handoff (content m) with
      | None => empty_updates
      | Some handoff =>
          with_handoff empty_updates handoff
            (match handoff with
             | location => Some [Str "عميل جديد يبي يطلب أكل"]
             | _ => None
             end) None None
      end
  end.

Definition scan_order_message (u : Updates) (m : Message) : Updates :=
  match parsed m with
  | Some data =>
      match j_current_total data with
      | Some t => set_subtotal t u
      | None => u
      end
  | None => u
  end.

Definition call_order_agent (s : AgentState) (result_messages : list Message)
    : Updates :=
  let messages := drop_context result_messages in
  let u := fold_left scan_order_message messages empty_updates in
  match last messages with
  | None => u
  | Some m =>
      match extract_handoff (content m) with
      | None => u
      | Some handoff =>
          match handoff with
          | checkout =>
              with_handoff u handoff
                (Some (if String.eqb (order_type s) "pickup"
                       then [Str "العميل خلص الطلب، استلام من الفرع"]
                       else [Str "العميل خلص الطلب، توصيل إلى ";
                             Str (show_opt (district s))]))
                None None
          | location =>
              with_handoff u handoff
                (Some [Str "العميل يبي يغير الموقع (راجع من الطلبات)"])
                None (Some true)
          | _ => with_handoff u handoff None None None
          end
      end
  end.

Definition scan_checkout_message (u : Updates) (m : Message) : Updates :=
  match parsed m with
  | Some data =>
      match j_order_id data with
      | Some oid => if str_truthy oid then set_order_confirmed oid u else u
      | None => u
      end
  | None => u
  end.

Definition call_checkout_agent (s : AgentState) (result_messages : list Message)
    : Updates :=
  let messages := drop_context result_messages in
  let u := fold_left scan_checkout_message messages empty_updates in
  match last messages with
  | None => u
  | Some m =>
      match extract_handoff (content m) with
      | None => u
      | Some handoff =>
          match handoff with
          | location =>
              with_handoff u handoff
                (Some [Str "العميل يبي يغير الموقع (راجع من المحاسبة)"])
                (Some true) None
          | order =>
              with_handoff u handoff (Some [Str "العميل يبي يعدل الطلب"]) None None
          | _ => with_handoff u handoff None None None
          end
      end
  end.

(** *** Routing *)

Inductive Node : Type := greeting_node | location_node | order_node | checkout_node.

(** [None] is [END]. *)
Definition route_after_greeting (s : AgentState) : option Node :=
  match current_agent s with
  | location => Some location_node
  | _ => None
  end.

Definition route_after_location (s : AgentState) : option Node :=
  match current_agent s with
  | order => Some order_node
  | checkout => Some checkout_node
  | _ => None
  end.

Definition route_after_order (s : AgentState) : option Node :=
  match current_agent s with
  | checkout => Some checkout_node
  | location => Some location_node
  | _ => None
  end.

Definition route_after_checkout (s : AgentState) : option Node :=
  match current_agent s with
  | location => Some location_node
  | order => Some order_node
  | _ => None
  end.

Definition route_by_current_agent (s : AgentState) : option Node :=
  match current_agent s with
  | end_ => None
  | location => Some location_node
  | order => Some order_node
  | checkout => Some checkout_node
  | greeting => Some greeting_node
  end.

(** The last message of an answer carries no hand-off marker. *)
Definition no_handoff (result_messages : list Message) : Prop :=
  match last (drop_context result_messages) with
  | Some m => extract_handoff (content m) = None
  | None => True
  end.

(** One node of the graph: the node function, the merge of its updates, and
    the conditional edge that follows.  [w] holds the stores as the agent's
    tool calls left them. *)
Definition run_node (n : Node) (w : World) (s : AgentState)
    (result_messages : list Message) : AgentState * option Node :=
  match n with
  | greeting_node =>
      let s' := apply_updates s (call_greeting_agent s result_messages) in
      (s', route_after_greeting s')
  | location_node =>
      let s' := apply_updates s (call_location_agent w s result_messages) in
      (s', route_after_location s')
  | order_node =>
      let s' := apply_updates s (call_order_agent s result_messages) in
      (s', route_after_order s')
  | checkout_node =>
      let s' := apply_updates s (call_checkout_agent s result_messages) in
      (s', route_after_checkout s')
  end.

(** [graph.invoke(state)]: nodes run until an edge leads to [END].  Each node
    consumes one answer of the language model (its messages and the stores
    after its tool calls).  [None] is the recursion limit being hit, or the
    answers running out. *)
Fixpoint run_from (limit : nat) (n : Node) (s : AgentState)
    (answers : list (World * list Message)) : option AgentState :=
  match limit, answers with
  | S limit', (w, msgs) :: rest =>
      match run_node n w s msgs with
      | (s', Some n') => run_from limit' n' s' rest
      | (s', None) => Some s'
      end
  | _, _ => None
  end.

(** Successive user turns during which only the location node runs. *)
Definition location_turns (s : AgentState) (answers : list (World * list Message))
    : AgentState :=
  fold_left (fun st a => (run_node location_node a.1 st a.2).1) answers s.

Definition invoke (limit : nat) (s : AgentState)
    (answers : list (World * list Message)) : option AgentState :=
  match route_by_current_agent s with
  | None => Some s
  | Some n => run_from limit n s answers
  end.

End Workflow.

(** ** Code points

    [str.strip], [str.split] and the regular expressions of [arabic_utils]
    look at characters, so they run on the code points of the text.
    [utf8_decode] reads a well-formed UTF-8 string (a stray byte is kept as a
    code point of its own) and [utf8_encode] writes it back. *)

Module Unicode.

Definition byte_of (c : ascii) : N := N_of_ascii c.
Definition ascii_of (n : N) : ascii := ascii_of_N n.

Definition is_cont (c : ascii) : bool :=
  (128 <=? byte_of c)%N && (byte_of c <? 192)%N.

Definition low6 (c : ascii) : N := N.land (byte_of c) 63.

Fixpoint utf8_decode (s : string) : list N :=
  match s with
  | EmptyString => []
  | String b0 rest0 =>
      let n0 := byte_of b0 in
      if (n0 <? 128)%N then n0 :: utf8_decode rest0
      else
        match rest0 with
        | String b1 rest1 =>
            if (192 <=? n0)%N && (n0 <? 224)%N && is_cont b1 then
              N.lor (N.shiftl (N.land n0 31) 6) (low6 b1) :: utf8_decode rest1
            else
              match rest1 with
              | String b2 rest2 =>
                  if (224 <=? n0)%N && (n0 <? 240)%N && is_cont b1 && is_cont b2 then
                    N.lor (N.shiftl (N.land n0 15) 12)
                      (N.lor (N.shiftl (low6 b1) 6) (low6 b2))
                    :: utf8_decode rest2
                  else
                    match rest2 with
                    | String b3 rest3 =>
                        if (240 <=? n0)%N && (n0 <? 248)%N && is_cont b1
                           && is_cont b2 && is_cont b3 then
                          N.lor (N.shiftl (N.land n0 7) 18)
                            (N.lor (N.shiftl (low6 b1) 12)
                               (N.lor (N.shiftl (low6 b2) 6) (low6 b3)))
                          :: utf8_decode rest3
                        else n0 :: utf8_decode rest0
                    | EmptyString => n0 :: utf8_decode rest0
                    end
              | EmptyString => n0 :: utf8_decode rest0
              end
        | EmptyString => [n0]
        end
  end.

Definition cont_byte (n : N) : ascii := ascii_of (N.lor 128 (N.land n 63)).

Definition encode_cp (cp : N) : string :=
  if (cp <? 128)%N then String (ascii_of cp) EmptyString
  else if (cp <? 2048)%N then
    String (ascii_of (N.lor 192 (N.shiftr cp 6)))
      (String (cont_byte cp) EmptyString)
  else if (cp <? 65536)%N then
    String (ascii_of (N.lor 224 (N.shiftr cp 12)))
      (String (cont_byte (N.shiftr cp 6)) (String (cont_byte cp) EmptyString))
  else
    String (ascii_of (N.lor 240 (N.shiftr cp 18)))
      (String (cont_byte (N.shiftr cp 12))
         (String (cont_byte (N.shiftr cp 6)) (String (cont_byte cp) EmptyString))).

Fixpoint utf8_encode (l : list N) : string :=
  match l with
  | [] => EmptyString
  | cp :: rest => String.append (encode_cp cp) (utf8_encode rest)
  end.

(** [c.isspace()]: the characters [str.strip()] and [str.split()] treat as
    white space. *)
Definition is_space (cp : N) : bool :=
  ((9 <=? cp) && (cp <=? 13) || (28 <=? cp) && (cp <=? 32)
   || (cp =? 133) || (cp =? 160) || (cp =? 5760)
   || (8192 <=? cp) && (cp <=? 8202)
   || (cp =? 8232) || (cp =? 8233) || (cp =? 8239) || (cp =? 8287)
   || (cp =? 12288))%N.

Fixpoint lstrip_cp (l : list N) : list N :=
  match l with
  | c :: rest => if is_space c then lstrip_cp rest else l
  | [] => []
  end.

Definition strip_cp (l : list N) : list N :=
  rev (lstrip_cp (rev (lstrip_cp l))).

(** [s.strip()] *)
Definition py_strip (s : string) : string :=
  utf8_encode (strip_cp (utf8_decode s)).

(** [s.split()]: the maximal runs of characters that are not white space. *)
Fixpoint split_cp (cur : list N) (l : list N) : list (list N) :=
  match l with
  | [] => match cur with [] => [] | _ => [rev cur] end
  | c :: rest =>
      if is_space c then
        match cur with
        | [] => split_cp [] rest
        | _ => rev cur :: split_cp [] rest
        end
      else split_cp (c :: cur) rest
  end.

(** [" ".join(words)] *)
Fixpoint join_cp (words : list (list N)) : list N :=
  match words with
  | [] => []
  | [w] => w
  | w :: rest => w ++ 32%N :: join_cp rest
  end.

End Unicode.

(** ** [utils/arabic_utils.py] *)

Module ArabicUtils.
Import Unicode.

(** The character class of the diacritics: U+064B to U+065F, and U+0670. *)
Definition is_diacritic (cp : N) : bool :=
  ((1611 <=? cp) && (cp <=? 1631) || (cp =? 1648))%N.

(** [[أإآا]]: U+0623, U+0625, U+0622, U+0627. *)
Definition is_alef_variant (cp : N) : bool :=
  ((cp =? 1571) || (cp =? 1573) || (cp =? 1570) || (cp =? 1575))%N.

Definition clean_arabic_cp (l : list N) : list N :=
  (* diacritics.sub("", text) *)
  let l := List.filter (fun c => negb (is_diacritic c)) l in
  (* re.sub(r"[أإآا]", "ا", text) *)
  let l := map (fun c => if is_alef_variant c then 1575%N else c) l in
  (* text.replace("ة", "ه") *)
  let l := map (fun c => if (c =? 1577)%N then 1607%N else c) l in
  (* text.replace("ـ", "") *)
  let l := List.filter (fun c => negb (c =? 1600)%N) l in
  (* " ".join(text.split()), then strip() *)
  strip_cp (join_cp (split_cp [] l)).

Definition clean_arabic_text (text : string) : string :=
  match text with
  | EmptyString => EmptyString
  | _ => utf8_encode (clean_arabic_cp (utf8_decode text))
  end.

Definition prefixes : list string := ["حي "; "منطقة "; "شارع "; "طريق "].

(** [for prefix in prefixes: if name.startswith(prefix): name = name[len(prefix):]] *)
Definition drop_prefix (name pre : string) : string :=
  if String.prefix pre name then str_drop (String.length pre) name else name.

Definition normalize_area_name (name : string) : string :=
  py_strip (fold_left drop_prefix prefixes (clean_arabic_text name)).

End ArabicUtils.

(** ** [tools/location_tools.py] *)

Module LocationTools.
Import Unicode.

Record DistrictInfo : Type := {
  delivery_fee : Q;
  estimated_time : string
}.

Definition info (fee : Q) (time : string) : DistrictInfo :=
  {| delivery_fee := fee; estimated_time := time |}.

(** The dictionary, in source order (the order of its keys is the order of
    the suggestions). *)
Definition COVERED_DISTRICTS : list (string * DistrictInfo) :=
  [("حي النرجس", info 15 "30-45 دقيقة");
   ("النرجس", info 15 "30-45 دقيقة");
   ("حي الياسمين", info 15 "30-45 دقيقة");
   ("الياسمين", info 15 "30-45 دقيقة");
   ("حي الملقا", info 15 "35-50 دقيقة");
   ("الملقا", info 15 "35-50 دقيقة");
   ("حي الصحافة", info 12 "25-40 دقيقة");
   ("الصحافة", info 12 "25-40 دقيقة");
   ("حي العقيق", info 15 "30-45 دقيقة");
   ("العقيق", info 15 "30-45 دقيقة");
   ("حي الورود", info 10 "20-35 دقيقة");
   ("الورود", info 10 "20-35 دقيقة");
   ("حي الروضة", info 12 "25-40 دقيقة");
   ("الروضة", info 12 "25-40 دقيقة");
   ("حي الربوة", info 12 "25-40 دقيقة");
   ("الربوة", info 12 "25-40 دقيقة");
   ("حي السليمانية", info 10 "20-30 دقيقة");
   ("السليمانية", info 10 "20-30 دقيقة");
   ("حي العليا", info 10 "15-25 دقيقة");
   ("العليا", info 10 "15-25 دقيقة");
   ("حي النخيل", info 15 "30-45 دقيقة");
   ("النخيل", info 15 "30-45 دقيقة");
   ("حي الغدير", info 15 "35-50 دقيقة");
   ("الغدير", info 15 "35-50 دقيقة");
   ("حي القيروان", info 18 "40-55 دقيقة");
   ("القيروان", info 18 "40-55 دقيقة");
   ("حي الرمال", info 18 "40-55 دقيقة");
   ("الرمال", info 18 "40-55 دقيقة")].

Fixpoint districts_get (k : string) (d : list (string * DistrictInfo))
    : option DistrictInfo :=
  match d with
  | [] => None
  | (k', v) :: rest => if String.eqb k' k then Some v else districts_get k rest
  end.

Record DistrictResult : Type := {
  covered : bool;
  res_delivery_fee : Q;
  res_estimated_time : string;
  message_ar : Text;
  suggestions : option (list string)
}.

Definition check_delivery_district (district : string) : DistrictResult :=
  let district_clean := py_strip district in
  match districts_get district_clean COVERED_DISTRICTS with
  | Some i =>
      {| covered := true; res_delivery_fee := delivery_fee i;
         res_estimated_time := estimated_time i;
         message_ar := [Str "تمام! نوصل لـ"; Str district_clean;
                        Str ". رسوم التوصيل "; Num (delivery_fee i);
                        Str " ريال، والوقت المتوقع "; Str (estimated_time i);
                        Str "."];
         suggestions := None |}
  | None =>
      let found :=
        List.filter
          (fun d => str_contains district_clean d || str_contains d district_clean)
          (map fst COVERED_DISTRICTS) in
      match found with
      | _ :: _ =>
          {| covered := false; res_delivery_fee := 0; res_estimated_time := "";
             message_ar := [Str "ما لقيت '"; Str district_clean;
                            Str "'. هل تقصد: "]
                           ++ text_join ", " (take 3 found) ++ [Str "؟"];
             suggestions := Some (take 3 found) |}
      | [] =>
          {| covered := false; res_delivery_fee := 0; res_estimated_time := "";
             message_ar := [Str "للأسف ما نغطي منطقة '"; Str district_clean;
                            Str "' حالياً. تبي تستلم من الفرع أو تختار منطقة ثانية؟"];
             suggestions := None |}
      end
  end.

(** An entry of the dictionary is answered for its name with and without
    the prefix, with the entry's fee and time. *)
Definition both_spellings_covered (e : string * DistrictInfo) : Prop :=
  let base := ArabicUtils.drop_prefix e.1 "حي " in
  let r1 := check_delivery_district base in
  let r2 := check_delivery_district (String.append "حي " base) in
  (e.1 = base \/ e.1 = String.append "حي " base) /\
  covered r1 = true /\ covered r2 = true /\
  res_delivery_fee r1 = delivery_fee e.2 /\
  res_delivery_fee r2 = delivery_fee e.2 /\
  res_estimated_time r1 = estimated_time e.2 /\
  res_estimated_time r2 = estimated_time e.2.

End LocationTools.

(** ** [db/repositories/coverage_repo.py] and [mcp_server/tools/coverage.py] *)

Module Coverage.

(** A row of [covered_areas]. *)
Record AreaRow : Type := {
  area_id : Z;
  name_ar : string;
  name_en : option string;
  city : string;
  aliases_ar : list string;
  is_active : bool
}.

(** [find_area_by_name]: an active row whose Arabic or English name is the
    argument, else an active row that lists it as an alias. *)
Definition find_area_by_name (areas : list AreaRow) (name : string) : option AreaRow :=
  match List.find
          (fun r => is_active r
                    && (String.eqb (name_ar r) name
                        || match name_en r with
                           | Some e => String.eqb e name
                           | None => false
                           end))
          areas with
  | Some r => Some r
  | None =>
      List.find
        (fun r => is_active r && existsb (fun a => String.eqb a name) (aliases_ar r))
        areas
  end.

(** [check_coverage].  [search_area] is the ILIKE search of the database; it
    is consulted only when no name or alias matches. *)
Definition check_coverage (areas : list AreaRow)
    (search_area : string -> list AreaRow) (area_name : string)
    : bool * option AreaRow * list AreaRow :=
  let area_name := Unicode.py_strip area_name in
  match find_area_by_name areas area_name with
  | Some area => (true, Some area, [])
  | None => (false, None, search_area area_name)
  end.

Inductive CoverageResult : Type :=
| IsCovered (id : Z) (area_name_ar : string) (area_name_en : option string)
    (message_ar : Text)
| NotCovered (suggestions : list AreaRow) (message_ar : Text).

Definition is_covered (r : CoverageResult) : bool :=
  match r with IsCovered _ _ _ _ => true | NotCovered _ _ => false end.

Definition covered_area_id (r : CoverageResult) : option Z :=
  match r with IsCovered i _ _ _ => Some i | NotCovered _ _ => None end.

(** The MCP tool [coverage_check]. *)
Definition coverage_check (areas : list AreaRow)
    (search_area : string -> list AreaRow) (area_name : string) : CoverageResult :=
  let normalized := ArabicUtils.normalize_area_name area_name in
  match check_coverage areas search_area normalized with
  | (true, Some result, _) =>
      IsCovered (area_id result) (name_ar result) (name_en result)
        [Str "نعم، نوصل لمنطقة "; Str (name_ar result)]
  | (_, _, (_ :: _) as found) =>
      NotCovered (take 3 found)
        ([Str "لم نجد '"; Str area_name; Str "'. هل تقصد: "]
         ++ text_join ", " (map name_ar (take 3 found)) ++ [Str "؟"])
  | (_, _, []) =>
      NotCovered []
        [Str "للأسف لا نغطي منطقة '"; Str area_name;
         Str "' حالياً. يمكنك الاستلام من الفرع."]
  end.

End Coverage.

(** ** What the cart tools keep *)

Module CartInvariant.
Import Store.

(** A cart line whose total is its unit price times its quantity. *)
Definition line_consistent (l : OrderLine) : Prop :=
  (line_total l == price l * inject_Z (quantity l))%Q.

Definition cart_consistent (c : list OrderLine) : Prop :=
  Forall line_consistent c.

(** Everything a cart tool called for [sid] must leave alone: the carts of
    the other sessions and the other stores. *)
Definition same_outside (sid : string) (w w' : World) : Prop :=
  (forall other : string, other <> sid ->
     orders w' !! other = orders w !! other) /\
  menu_cache w' = menu_cache w /\
  confirmed_orders w' = confirmed_orders w /\
  order_type_store w' = order_type_store w /\
  database w' = database w.

End CartInvariant.

(** ** [tools/checkout_tools.py]: the confirmed orders *)

Module ConfirmedOrders.
Import Store.

(** [get_confirmed_order] *)
Definition get_confirmed_order (w : World) (order_id : string) : option OrderRecord :=
  confirmed_orders w !! order_id.

(** A row of [order_items] that stands for a cart line under the order
    [oid].  The amounts are left out: the columns are NUMERIC(10,2) and keep
    what the statement passes rounded to two decimals. *)
Definition row_of_line (oid : Z) (l : OrderLine) (r : OrderItemRow) : Prop :=
  oi_order_id r = oid /\
  CheckoutTools.int_of_str (item_id l) = Some (oi_menu_item_id r) /\
  oi_item_name_ar r = name_ar l /\
  oi_quantity r = quantity l /\
  oi_special_instructions r = notes l.

End ConfirmedOrders.

(** ** [db/repositories/promo_repo.py]: one use of a code *)

Module PromoUsage.
Import Store.


End PromoUsage.

(** ** Paths of the transition table *)

Module Paths.
Import Machine.

(** The states a session goes through when the given triggers fire in turn;
    a trigger the table does not list leaves the state as it is, as in
    [handle_message]. *)
Fixpoint trace (s : State) (ts : list Trigger) : list State :=
  match ts with
  | [] => [s]
  | t :: rest => s :: trace (default s (get_next_state s t)) rest
  end.

(** [b] can be reached from [a] by transitions of the table. *)
Inductive reachable : State -> State -> Prop :=
| reach_here (s : State) : reachable s s
| reach_step (a b c : State) (t : Trigger) :
    get_next_state a t = Some b -> reachable b c -> reachable a c.

(** At most [n] transitions of the table lead from [a] to [b]. *)
Fixpoint within (n : nat) (a b : State) : Prop :=
  match n with
  | O => a = b
  | S n' => a = b \/ exists t c, get_next_state a t = Some c /\ within n' c b
  end.

Definition all_states : list State :=
  [S0_INIT; S1_INTENT; S2_GREETING; S3_LOCATION; S4_ORDERING; S5_CHECKOUT;
   S6_FINALIZED; S_COMPLAINT; S_FALLBACK].

(** What has been seen before the current state of a trace. *)
Definition seen_before (seen : list State) (s : State) : Prop :=
  (s = S4_ORDERING -> S3_LOCATION ∈ seen) /\
  (s = S5_CHECKOUT -> S3_LOCATION ∈ seen /\ S4_ORDERING ∈ seen).

(** The state a trigger leads to, when it fires at all. *)
Definition fire (s : State) (t : option Trigger) : State :=
  match t with
  | Some t => default s (get_next_state s t)
  | None => s
  end.

End Paths.

(** ** [app.py] and [main.py]: the turns of a conversation *)

Module Conversation.
Import Store Workflow.

(** One user turn as [app.py] and [main.py] run it: the state kept for the
    session is the result of [graph.invoke], or the state as it was when the
    run raised (the recursion limit). *)
Definition turn (limit : nat) (s : AgentState)
    (answers : list (World * list Message)) : AgentState :=
  default s (invoke limit s answers).

(** The state of a session after the given turns, from [create_initial_state]. *)
Definition conversation (limit : nat)
    (turns : list (list (World * list Message))) : AgentState :=
  fold_left (turn limit) turns create_initial_state.

(** The breadcrumbs are set only while the location agent is the current one,
    and never both. *)
Definition breadcrumbs_ok (s : AgentState) : Prop :=
  (came_from_checkout s = true -> current_agent s = location) /\
  (came_from_order s = true -> current_agent s = location) /\
  (came_from_checkout s = false \/ came_from_order s = false).

End Conversation.

(** ** Matching an area by name or alias *)

Module CoverageSpec.
Import Coverage.

(** The row is matched by name, or by alias. *)
Definition name_matches (r : AreaRow) (n : string) : Prop :=
  name_ar r = n \/ name_en r = Some n.

Definition alias_matches (r : AreaRow) (n : string) : Prop :=
  In n (aliases_ar r).

End CoverageSpec.

(** ** [tools/location_tools.py]: the order type *)

Module OrderTypeTools.
Import Store.

(** [get_order_type_info(session_id)] *)
Definition get_order_type_info (w : World) (session_id : string) : OrderTypeInfo :=
  default {| info_order_type := "delivery"; info_district := "";
             info_delivery_fee := 0 |}
          (order_type_store w !! session_id).

(** [clear_order_type_info(session_id)] *)
Definition clear_order_type_info (session_id : string) (w : World) : World :=
  with_order_type_store (delete session_id (order_type_store w)) w.

Definition pickup_words : list string :=
  ["pickup"; "استلام"; "takeaway"; "take away"].

Definition branch_district : string := "استلام من الفرع - حي العليا".

(** The dictionary [set_order_type] returns. *)
Record SetOrderTypeResult : Type := {
  sot_success : bool;
  sot_order_type : string;
  sot_district : string;
  sot_delivery_fee : Q;
  sot_message_ar : Text
}.

Section WithLower.

(** [str.lower] *)
Variable str_lower : string -> string.

Definition set_order_type (w : World) (order_type district : string)
    (delivery_fee : Q) (session_id : string) : SetOrderTypeResult * World :=
  let order_type_normalized :=
    if existsb (String.eqb (str_lower order_type)) pickup_words
    then "pickup" else "delivery" in
  let w' :=
    with_order_type_store
      (<[session_id :=
           {| info_order_type := order_type_normalized;
              info_district :=
                if String.eqb order_type_normalized "delivery"
                then district else branch_district;
              info_delivery_fee :=
                if String.eqb order_type_normalized "delivery"
                then delivery_fee else 0%Q |}]> (order_type_store w)) w in
  (if String.eqb order_type_normalized "pickup" then
     {| sot_success := true; sot_order_type := "pickup";
        sot_district := branch_district; sot_delivery_fee := 0;
        sot_message_ar :=
          [Str "تمام، الطلب للاستلام من الفرع في حي العليا. لا توجد رسوم توصيل."] |}
   else
     {| sot_success := true; sot_order_type := "delivery";
        sot_district := district; sot_delivery_fee := delivery_fee;
        sot_message_ar :=
          [Str "تمام، الطلب للتوصيل إلى "; Str district;
           Str ". رسوم التوصيل "; Num delivery_fee; Str " ريال."] |},
   w').

End WithLower.

(** The tool message the agent's thread holds for a [set_order_type] call:
    its content is the JSON text of the result, which the location node
    parses back. *)
Definition tool_message (content : string) (r : SetOrderTypeResult)
    : Workflow.Message :=
  {| Workflow.kind := Workflow.ToolMessage; Workflow.content := content;
     Workflow.parsed :=
       Some {| Workflow.j_success := sot_success r;
               Workflow.j_order_type := Some (sot_order_type r);
               Workflow.j_district := Some (sot_district r);
               Workflow.j_delivery_fee := Some (sot_delivery_fee r);
               Workflow.j_covered := false;
               Workflow.j_estimated_time := None;
               Workflow.j_current_total := None;
               Workflow.j_order_id := None |} |}.

(** The message is a tool result that sets the order type: it parses to a
    dictionary with a true [success] and the key [order_type]. *)
Definition sets_order_type (m : Workflow.Message) : bool :=
  match Workflow.parsed m with
  | Some data =>
      Workflow.j_success data
      && match Workflow.j_order_type data with Some _ => true | None => false end
  | None => false
  end.

(** Such a result for a delivery, which marks the district validated. *)
Definition validates_district (m : Workflow.Message) : bool :=
  match Workflow.parsed m with
  | Some data =>
      Workflow.j_success data
      && match Workflow.j_order_type data with
         | Some ot => String.eqb ot "delivery"
         | None => false
         end
  | None => false
  end.

End OrderTypeTools.

(** ** [utils/time_utils.py]: opening and closing times *)

Module Calendar.
Import Config TimeUtils.

(** A [datetime] in the restaurant's time zone. *)
Record DateTime : Type := {
  dt_year : Z;
  dt_month : Z;
  dt_day : Z;
  dt_hour : Z;
  dt_minute : Z;
  dt_second : Z;
  dt_microsecond : Z
}.

Definition is_leap (y : Z) : bool :=
  ((y mod 4 =? 0) && (negb (y mod 100 =? 0) || (y mod 400 =? 0)))%Z.

Definition days_in_month (y m : Z) : Z :=
  if (m =? 2)%Z then (if is_leap y then 29 else 28)
  else if ((m =? 4) || (m =? 6) || (m =? 9) || (m =? 11))%Z then 30
  else 31.

(** The values [datetime] accepts. *)
Definition valid_datetime (dt : DateTime) : Prop :=
  (1 <= dt_month dt <= 12 /\
   1 <= dt_day dt <= days_in_month (dt_year dt) (dt_month dt) /\
   0 <= dt_hour dt <= 23 /\ 0 <= dt_minute dt <= 59 /\
   0 <= dt_second dt <= 59 /\ 0 <= dt_microsecond dt <= 999999)%Z.

(** [dt.replace(hour=h, minute=0, second=0, microsecond=0)]; [None] is the
    [ValueError] of an hour outside 0..23. *)
Definition replace_time (h : Z) (dt : DateTime) : option DateTime :=
  if ((0 <=? h) && (h <=? 23))%Z then
    Some {| dt_year := dt_year dt; dt_month := dt_month dt; dt_day := dt_day dt;
            dt_hour := h; dt_minute := 0; dt_second := 0; dt_microsecond := 0 |}
  else None.

(** [dt.replace(day=d)]; [None] is the [ValueError] of a day the month does
    not have. *)
Definition replace_day (d : Z) (dt : DateTime) : option DateTime :=
  if ((1 <=? d) && (d <=? days_in_month (dt_year dt) (dt_month dt)))%Z then
    Some {| dt_year := dt_year dt; dt_month := dt_month dt; dt_day := d;
            dt_hour := dt_hour dt; dt_minute := dt_minute dt;
            dt_second := dt_second dt; dt_microsecond := dt_microsecond dt |}
  else None.

Definition clock_of (dt : DateTime) : Clock :=
  {| hour := dt_hour dt; minute := dt_minute dt |}.

Definition get_next_opening_time (settings : Settings) (now : DateTime)
    : option DateTime :=
  let opening := opening_hour settings in
  if (dt_hour now <? opening)%Z then replace_time opening now
  else
    next_day ← replace_time opening now;
    replace_day (dt_day now + 1) next_day.

Definition get_closing_time (settings : Settings) (now : DateTime)
    : option DateTime :=
  let closing := closing_hour settings in
  if (opening_hour settings <=? dt_hour now)%Z then
    next_day ← replace_time closing now;
    replace_day (dt_day now + 1) next_day
  else replace_time closing now.

(** [f"{minute:02d}"] *)
Definition two_digits (m : Z) : Text :=
  if ((0 <=? m) && (m <? 10))%Z then [Str "0"; Int m] else [Int m].

Definition format_time_ar (dt : DateTime) : Text :=
  let h := dt_hour dt in
  let '(period, display_hour) :=
    if (h =? 0)%Z then ("صباحاً", 12%Z)
    else if (h <? 12)%Z then ("صباحاً", h)
    else if (h =? 12)%Z then ("مساءً", 12%Z)
    else ("مساءً", (h - 12)%Z) in
  if (dt_minute dt =? 0)%Z then [Int display_hour; Str " "; Str period]
  else [Int display_hour; Str ":"] ++ two_digits (dt_minute dt)
       ++ [Str " "; Str period].

(** [get_restaurant_status_message_ar]; the clock is read once by
    [is_restaurant_open] and once more by the function that follows. *)
Definition get_restaurant_status_message_ar (settings : Settings)
    (now1 now2 : DateTime) : option Text :=
  if is_restaurant_open settings (clock_of now1) then
    closing ← get_closing_time settings now2;
    Some (Str "المطعم مفتوح حتى " :: format_time_ar closing)
  else
    opening ← get_next_opening_time settings now2;
    Some (Str "المطعم مغلق حالياً. يفتح الساعة " :: format_time_ar opening).

Definition last_day_of_month (dt : DateTime) : Prop :=
  dt_day dt = days_in_month (dt_year dt) (dt_month dt).

End Calendar.

(** ** [state/session_state.py]: the cart of a session *)

Module SessionCart.
Import SessionModel.

(** Equality of the dataclasses, field by field ([Decimal]s by value). *)
Definition modifier_eqb (a b : CartItemModifier) : bool :=
  (modifier_id a =? modifier_id b)%Z && String.eqb (name_ar a) (name_ar b)
  && Qeq_bool (price_adjustment a) (price_adjustment b).

Fixpoint modifiers_eqb (l1 l2 : list CartItemModifier) : bool :=
  match l1, l2 with
  | [], [] => true
  | a :: r1, b :: r2 => modifier_eqb a b && modifiers_eqb r1 r2
  | _, _ => false
  end.

Definition instructions_eqb (a b : option string) : bool :=
  match a, b with
  | None, None => true
  | Some x, Some y => String.eqb x y
  | _, _ => false
  end.

(** The test of the loop of [add_to_cart]. *)
Definition same_cart_item (item existing : CartItem) : bool :=
  (menu_item_id existing =? menu_item_id item)%Z
  && modifiers_eqb (modifiers existing) (modifiers item)
  && instructions_eqb (special_instructions existing) (special_instructions item).

(** [existing.quantity += item.quantity; existing.total_price += item.total_price] *)
Definition merge_item (item existing : CartItem) : CartItem :=
  {| menu_item_id := menu_item_id existing;
     item_name_ar := item_name_ar existing;
     quantity := (quantity existing + quantity item)%Z;
     unit_price := unit_price existing;
     total_price := (total_price existing + total_price item)%Q;
     modifiers := modifiers existing;
     special_instructions := special_instructions existing |}.

Definition with_cart (c : list CartItem) (s : SessionState) : SessionState :=
  {| session_id := session_id s; state := state s;
     customer_name := customer_name s; customer_phone := customer_phone s;
     location := location s; order_type := order_type s; cart := c;
     applied_promo_code := applied_promo_code s;
     conversation_history := conversation_history s;
     conversation_summary_ar := conversation_summary_ar s |}.

Definition add_to_cart (item : CartItem) (s : SessionState) : SessionState :=
  with_cart
    match OrderTools.find_idx (same_cart_item item) (cart s) with
    | Some idx => alter (merge_item item) idx (cart s)
    | None => cart s ++ [item]
    end s.

(** [remove_from_cart(index)]: the removed item (or [None]) and the session. *)
Definition remove_from_cart (index : Z) (s : SessionState)
    : option CartItem * SessionState :=
  if ((0 <=? index) && (index <? Z.of_nat (List.length (cart s))))%Z
  then (cart s !! Z.to_nat index, with_cart (delete (Z.to_nat index) (cart s)) s)
  else (None, s).

(** The sums of [get_cart_subtotal] and [get_cart_item_count], on a cart. *)
Definition subtotal_of (c : list CartItem) : Q :=
  fold_left (fun acc it => (acc + total_price it)%Q) c 0%Q.

Definition count_of (c : list CartItem) : Z :=
  fold_left (fun acc it => (acc + quantity it)%Z) c 0%Z.

End SessionCart.

(** ** [utils/numeral_converter.py], on the characters of the text *)

Module NumeralConverter.
Import Unicode.

(** U+0660..U+0669 and U+06F0..U+06F9, each with the digit it stands for. *)
Definition ARABIC_INDIC_TO_WESTERN : list (N * N) :=
  [(1632, 48); (1633, 49); (1634, 50); (1635, 51); (1636, 52);
   (1637, 53); (1638, 54); (1639, 55); (1640, 56); (1641, 57)]%N.

Definition EXTENDED_ARABIC_TO_WESTERN : list (N * N) :=
  [(1776, 48); (1777, 49); (1778, 50); (1779, 51); (1780, 52);
   (1781, 53); (1782, 54); (1783, 55); (1784, 56); (1785, 57)]%N.

(** [text.replace(a, b)] for single characters. *)
Definition replace_char (text : list N) (ab : N * N) : list N :=
  map (fun c => if (c =? ab.1)%N then ab.2 else c) text.

Definition normalize_numerals_cp (text : list N) : list N :=
  let result := fold_left replace_char ARABIC_INDIC_TO_WESTERN text in
  fold_left replace_char EXTENDED_ARABIC_TO_WESTERN result.

Definition normalize_numerals (text : string) : string :=
  utf8_encode (normalize_numerals_cp (utf8_decode text)).

(** The digit a character is turned into, if it is one of the twenty. *)
Definition western_digit (c : N) : N :=
  if ((1632 <=? c) && (c <=? 1641))%N then (c - 1632 + 48)%N
  else if ((1776 <=? c) && (c <=? 1785))%N then (c - 1776 + 48)%N
  else c.

Definition is_ascii_digit (c : N) : bool := ((48 <=? c) && (c <=? 57))%N.

Definition is_arabic_digit (c : N) : bool :=
  ((1632 <=? c) && (c <=? 1641) || (1776 <=? c) && (c <=? 1785))%N.

(** [[0-9]{n}] at the head of the text: the digits and what follows. *)
Fixpoint take_digits (n : nat) (l : list N) : option (list N) :=
  match n with
  | O => Some []
  | S n' =>
      match l with
      | c :: rest =>
          if is_ascii_digit c then (fun ds => c :: ds) <$> take_digits n' rest
          else None
      | [] => None
      end
  end.

(** [s.startswith(p)] *)
Fixpoint starts_with (p l : list N) : bool :=
  match p, l with
  | [], _ => true
  | a :: p', b :: l' => (a =? b)%N && starts_with p' l'
  | _ :: _, [] => false
  end.

(** The pattern [(\+?966[0-9]{9})] anchored at the head of the text. *)
Definition match_international (l : list N) : option (list N) :=
  if starts_with [43; 57; 54; 54]%N l then
    (fun ds => [43; 57; 54; 54]%N ++ ds) <$> take_digits 9 (drop 4 l)
  else if starts_with [57; 54; 54]%N l then
    (fun ds => [57; 54; 54]%N ++ ds) <$> take_digits 9 (drop 3 l)
  else None.

(** The pattern [(0[0-9]{9})] anchored at the head of the text. *)
Definition match_local (l : list N) : option (list N) :=
  if starts_with [48]%N l then
    (fun ds => 48%N :: ds) <$> take_digits 9 (drop 1 l)
  else None.

(** [re.search]: the match at the leftmost position that has one. *)
Fixpoint re_search (m : list N -> option (list N)) (l : list N)
    : option (list N) :=
  match m l with
  | Some found => Some found
  | None =>
      match l with
      | [] => None
      | _ :: rest => re_search m rest
      end
  end.

Definition extract_phone_number_cp (text : list N) : option (list N) :=
  let normalized := normalize_numerals_cp text in
  (* .replace(" ", "").replace("-", "").replace("(", "").replace(")", "") *)
  let normalized :=
    List.filter (fun c => negb ((c =? 32) || (c =? 45) || (c =? 40) || (c =? 41))%N)
      normalized in
  let to_local (phone : list N) : list N :=
    if starts_with [43; 57; 54; 54]%N phone then 48%N :: drop 4 phone
    else if starts_with [57; 54; 54]%N phone then 48%N :: drop 3 phone
    else phone in
  match re_search match_international normalized with
  | Some phone => Some (to_local phone)
  | None =>
      match re_search match_local normalized with
      | Some phone => Some (to_local phone)
      | None => None
      end
  end.

(** One replacement, on one character. *)
Definition replace_one (c : N) (ab : N * N) : N :=
  if (c =? ab.1)%N then ab.2 else c.

End NumeralConverter.

(** ** [utils/validators.py]: the phone number *)

Module PhoneValidator.
Import Unicode NumeralConverter.

Section WithDigitClass.

(** The class [\d] of the regular expression engine: the decimal digits of
    Unicode. *)
Variable is_decimal : N -> bool.

(** [[\s\-\(\)\.]] *)
Definition is_separator (c : N) : bool :=
  (is_space c || (c =? 45) || (c =? 40) || (c =? 41) || (c =? 46))%N.

(** [^05\d{8}$] on a text without white space. *)
Definition is_saudi_mobile (phone : list N) : bool :=
  match phone with
  | a :: b :: rest =>
      (a =? 48)%N && (b =? 53)%N && (List.length rest =? 8)%nat
      && forallb is_decimal rest
  | _ => false
  end.

(** [validate_saudi_phone]: the normalised number, or [None] with the error
    message. *)
Definition validate_saudi_phone (phone : list N) : option (list N) :=
  let phone := normalize_numerals_cp phone in
  let phone := List.filter (fun c => negb (is_separator c)) phone in
  let phone :=
    if starts_with [43; 57; 54; 54]%N phone then 48%N :: drop 4 phone
    else if starts_with [57; 54; 54]%N phone then 48%N :: drop 3 phone
    else phone in
  if is_saudi_mobile phone then Some phone else None.

End WithDigitClass.

(** A text as [validate_saudi_phone] leaves it before the pattern is tried:
    no Arabic digit, no separator. *)
Definition cleaned (l : list N) : Prop :=
  Forall (fun c => is_arabic_digit c = false /\ is_separator c = false) l.

End PhoneValidator.

(** ** [utils/arabic_utils.py]: cleaned text *)

Module CleanText.
Import Unicode ArabicUtils.

(** A character [clean_arabic_text] leaves as it is. *)
Definition settled (c : N) : Prop :=
  is_diacritic c = false /\ (is_alef_variant c = true -> c = 1575%N) /\
  c <> 1577%N /\ c <> 1600%N.

(** A word of [str.split()]: not empty, no white space. *)
Definition is_word (w : list N) : Prop :=
  w <> [] /\ Forall (fun c => is_space c = false) w.

(** The character-wise steps of [clean_arabic_text], before the white space
    is normalised. *)
Definition clean_chars (l : list N) : list N :=
  List.filter (fun c => negb (c =? 1600)%N)
    (map (fun c => if (c =? 1577)%N then 1607%N else c)
       (map (fun c => if is_alef_variant c then 1575%N else c)
          (List.filter (fun c => negb (is_diacritic c)) l))).

End CleanText.

(** ** [db/repositories/menu_repo.py] and [mcp_server/tools/cart_validation.py] *)

Module MenuRepository.

(** Rows of [menu_items], [modifier_groups] and [modifiers]; the table
    [item_modifier_groups] pairs a menu item with a group.  Ids are primary
    keys. *)
Record MenuItemRow : Type := {
  mi_id : Z;
  mi_name_ar : string;
  mi_price : Q;
  mi_is_available : bool
}.

Record ModifierGroupRow : Type := {
  mg_id : Z;
  mg_name_ar : string;
  mg_is_required : bool;
  mg_min_selections : Z;
  mg_max_selections : Z
}.

Record ModifierRow : Type := {
  md_id : Z;
  md_group_id : Z;
  md_name_ar : string;
  md_price_adjustment : Q;
  md_is_available : bool
}.

Record MenuDatabase : Type := {
  tbl_menu_items : list MenuItemRow;
  tbl_modifier_groups : list ModifierGroupRow;
  tbl_item_modifier_groups : list (Z * Z);
  tbl_modifiers : list ModifierRow
}.

(** [id = ANY($1)] *)
Definition any_of (ids : list Z) (i : Z) : bool := existsb (Z.eqb i) ids.

(** [SELECT ... FROM menu_items WHERE id = $1 AND is_available = true] *)
Definition get_item_by_id (db : MenuDatabase) (item_id : Z) : option MenuItemRow :=
  List.find (fun r => (mi_id r =? item_id)%Z && mi_is_available r) (tbl_menu_items db).

(** [SELECT ... FROM modifiers m INNER JOIN modifier_groups mg
     ON m.group_id = mg.id WHERE m.id = ANY($1)] *)
Definition get_modifiers_by_ids (db : MenuDatabase) (modifier_ids : list Z)
    : list ModifierRow :=
  List.filter
    (fun m => any_of modifier_ids (md_id m)
              && existsb (fun g => (mg_id g =? md_group_id m)%Z) (tbl_modifier_groups db))
    (tbl_modifiers db).

(** The groups joined to the item through [item_modifier_groups]. *)
Definition groups_of_item (db : MenuDatabase) (item_id : Z) : list ModifierGroupRow :=
  List.filter
    (fun g => existsb (fun ig => (ig.1 =? item_id)%Z && (ig.2 =? mg_id g)%Z)
                (tbl_item_modifier_groups db))
    (tbl_modifier_groups db).

Definition validate_modifiers_for_item (db : MenuDatabase) (item_id : Z)
    (modifier_ids : list Z) : bool * list Text :=
  match modifier_ids with
  | [] => (true, [])
  | _ =>
      let valid_groups := groups_of_item db item_id in
      let in_valid_groups (gid : Z) : bool :=
        existsb (fun g => (mg_id g =? gid)%Z) valid_groups in
      let modifiers :=
        List.filter (fun m => any_of modifier_ids (md_id m)) (tbl_modifiers db) in
      let errors1 :=
        flat_map
          (fun m =>
             (if negb (in_valid_groups (md_group_id m))
              then [[Str "المعدل '"; Str (md_name_ar m); Str "' غير متاح لهذا الصنف"]]
              else [])
             ++ (if negb (md_is_available m)
                 then [[Str "المعدل '"; Str (md_name_ar m); Str "' غير متوفر حالياً"]]
                 else []))
          modifiers in
      let selected (gid : Z) : Z :=
        Z.of_nat (List.length (List.filter (fun m => (md_group_id m =? gid)%Z) modifiers)) in
      let errors2 :=
        flat_map
          (fun g =>
             let count := selected (mg_id g) in
             (if mg_is_required g && (count <? mg_min_selections g)%Z
              then [[Str "يجب اختيار على الأقل "; Int (mg_min_selections g);
                     Str " من '"; Str (mg_name_ar g); Str "'"]]
              else [])
             ++ (if (count >? mg_max_selections g)%Z
                 then [[Str "لا يمكن اختيار أكثر من "; Int (mg_max_selections g);
                        Str " من '"; Str (mg_name_ar g); Str "'"]]
                 else []))
          valid_groups in
      let errors := errors1 ++ errors2 in
      (match errors with [] => true | _ => false end, errors)
  end.

End MenuRepository.

Module CartValidation.
Import MenuRepository SessionModel.

(** The dictionary [validate_cart_line] returns: the short one of an item
    that is not found, or the full one. *)
Inductive LineValidation : Type :=
| LineNotFound (errors : list Text)
| LineChecked (valid : bool) (errors : list Text) (item_name_ar : string)
    (base_price modifier_total unit_price line_total : Q).

Definition line_valid (v : LineValidation) : bool :=
  match v with
  | LineNotFound _ => false
  | LineChecked valid _ _ _ _ _ _ => valid
  end.

Definition line_errors (v : LineValidation) : list Text :=
  match v with
  | LineNotFound errors => errors
  | LineChecked _ errors _ _ _ _ _ => errors
  end.

Definition validate_cart_line (db : MenuDatabase) (item_id quantity : Z)
    (modifier_ids : list Z) : LineValidation :=
  let '(qty_valid, qty_error) := Validators.validate_quantity quantity in
  let errors := if negb qty_valid then [[Str qty_error]] else [] in
  match get_item_by_id db item_id with
  | None => LineNotFound [[Str "الصنف غير موجود"]]
  | Some item =>
      let errors :=
        errors ++ (if negb (mi_is_available item)
                   then [[Str "الصنف غير متوفر حالياً"]] else []) in
      let errors :=
        match modifier_ids with
        | [] => errors
        | _ =>
            let '(mod_valid, mod_errors) :=
              validate_modifiers_for_item db item_id modifier_ids in
            if negb mod_valid then errors ++ mod_errors else errors
        end in
      let base_price := mi_price item in
      let modifier_total :=
        match modifier_ids with
        | [] => 0%Q
        | _ =>
            fold_left (fun acc m => (acc + md_price_adjustment m)%Q)
              (get_modifiers_by_ids db modifier_ids) 0%Q
        end in
      let unit_price := (base_price + modifier_total)%Q in
      let line_total := (unit_price * inject_Z quantity)%Q in
      LineChecked (match errors with [] => true | _ => false end) errors
        (mi_name_ar item) base_price modifier_total unit_price line_total
  end.

Inductive BuildResult : Type :=
| BuildFailure (errors : list Text)
| BuildSuccess (cart_item : CartItem).

Definition build_cart_item (db : MenuDatabase) (item_id quantity : Z)
    (modifier_ids : list Z) (special_instructions : option string) : BuildResult :=
  match validate_cart_line db item_id quantity modifier_ids with
  | LineNotFound errors => BuildFailure errors
  | LineChecked valid errors _ _ _ unit_price line_total =>
      if negb valid then BuildFailure errors
      else
        match get_item_by_id db item_id with
        | None => BuildFailure [[Str "الصنف غير موجود"]]
        | Some item =>
            let modifiers_info :=
              match modifier_ids with
              | [] => []
              | _ =>
                  map (fun m => {| modifier_id := md_id m; name_ar := md_name_ar m;
                                   price_adjustment := md_price_adjustment m |})
                    (get_modifiers_by_ids db modifier_ids)
              end in
            BuildSuccess
              {| menu_item_id := item_id; item_name_ar := mi_name_ar item;
                 quantity := quantity; unit_price := unit_price;
                 total_price := line_total; modifiers := modifiers_info;
                 special_instructions := special_instructions |}
        end
  end.

(** The sum of the price adjustments of a cart item's modifiers. *)
Definition modifiers_total (ms : list CartItemModifier) : Q :=
  fold_left (fun acc m => (acc + price_adjustment m)%Q) ms 0%Q.

End CartValidation.

(** ** [utils/validators.py]: the customer's name *)

Module NameValidator.
Import Unicode.

(** [[\u0600-\u06FF\u0750-\u077Fa-zA-Z\s]] *)
Definition is_name_char (c : N) : bool :=
  ((1536 <=? c) && (c <=? 1791) || (1872 <=? c) && (c <=? 1919)
   || (97 <=? c) && (c <=? 122) || (65 <=? c) && (c <=? 90))%N
  || is_space c.

(** [re.match(r"^[...]+$", s)]: the class holds the line feed, so the match
    is of the whole text. *)
Definition only_name_chars (s : list N) : bool :=
  match s with
  | [] => false
  | _ => forallb is_name_char s
  end.

(** The tuple [validate_customer_name] returns: [(True, cleaned, "")] or
    [(False, None, error_message_ar)]. *)
Inductive NameCheck : Type :=
| NameValid (cleaned : list N)
| NameInvalid (error_message_ar : string).

Definition validate_customer_name (name : list N) : NameCheck :=
  if match name with [] => true | _ => false end
     || (List.length (strip_cp name) <? 2)%nat
  then NameInvalid "يرجى إدخال اسم صحيح (حرفين على الأقل)"
  else
    let cleaned := strip_cp name in
    let cleaned := join_cp (split_cp [] cleaned) in
    if negb (only_name_chars cleaned)
    then NameInvalid "الاسم يجب أن يحتوي على حروف فقط"
    else NameValid cleaned.

(** The characters of a text that are not white space. *)
Definition nonspace (l : list N) : list N :=
  List.filter (fun c => negb (is_space c)) l.

End NameValidator.

(** ** [tools/order_tools.py]: the summary of the cart *)

Module OrderSummary.
Import Store OrderTools.

(** The dictionary [get_current_order] returns; [summary_ar] is kept as its
    lines, which the tool joins with line feeds. *)
Record CurrentOrder : Type := {
  cur_items : list OrderLine;
  cur_subtotal : Q;
  cur_item_count : Z;
  cur_summary_ar : list Text
}.

Definition summary_line (item : OrderLine) : Text :=
  [Str "• "; Int (quantity item); Str "× "; Str (name_ar item); Str " = ";
   Num (line_total item); Str " ريال"]
  ++ (if str_truthy (notes item) then [Str " ("; Str (notes item); Str ")"] else []).

Definition get_current_order (w : World) (session_id : string) : CurrentOrder :=
  let order := get_session_order w session_id in
  match order with
  | [] =>
      {| cur_items := []; cur_subtotal := 0; cur_item_count := 0;
         cur_summary_ar := [[Str "السلة فارغة"]] |}
  | _ =>
      let subtotal := sum_line_total order in
      let item_count := sum_quantity order in
      {| cur_items := order; cur_subtotal := subtotal;
         cur_item_count := item_count;
         cur_summary_ar :=
           map summary_line order
           ++ [[]; [Str "المجموع: "; Num subtotal; Str " ريال"]] |}
  end.

End OrderSummary.

(** ** Concrete sessions used by the examples *)

Module Scenario.
Import Store.

Definition burger : MenuItem :=
  {| menu_name_ar := "برجر لحم"; menu_name_en := Some "Beef Burger";
     menu_price := 25; menu_available := Some true |}.

Definition fries : MenuItem :=
  {| menu_name_ar := "بطاطس"; menu_name_en := Some "Fries";
     menu_price := 10; menu_available := Some true |}.

Definition empty_database : Database :=
  {| tbl_orders := []; tbl_order_items := []; tbl_promo_codes := [] |}.

(** A freshly started process: the menu is loaded, nothing else is stored. *)
Definition fresh_world : World :=
  {| menu_cache := <["1" := burger]> (<["2" := fries]> ∅);
     orders := ∅; confirmed_orders := ∅; order_type_store := ∅;
     database := empty_database |}.

Definition line (id nm en : string) (q : Z) (p : Q) (nts : string) : OrderLine :=
  {| item_id := id; name_ar := nm; name_en := en; quantity := q; price := p;
     notes := nts; line_total := (p * inject_Z q)%Q |}.

Definition burger_line (q : Z) (nts : string) : OrderLine :=
  line "1" "برجر لحم" "Beef Burger" q 25 nts.

Definition fries_line (q : Z) (nts : string) : OrderLine :=
  line "2" "بطاطس" "Fries" q 10 nts.

(** The session ["default"] holds the given cart. *)
Definition world_with_cart (c : list OrderLine) : World :=
  with_orders (<["default" := c]> ∅) fresh_world.

Definition no_location : SessionModel.LocationInfo :=
  {| SessionModel.area_id := None; SessionModel.area_name_ar := None;
     SessionModel.street := None; SessionModel.building := None;
     SessionModel.delivery_notes := None |}.

Definition shawarma : SessionModel.CartItem :=
  {| SessionModel.menu_item_id := 7; SessionModel.item_name_ar := "شاورما دجاج";
     SessionModel.quantity := 2; SessionModel.unit_price := 18;
     SessionModel.total_price := 36; SessionModel.modifiers := [];
     SessionModel.special_instructions := None |}.

(** A class-based session in the given state, with one line in the cart. *)
Definition session_in (st : Machine.State) : SessionModel.SessionState :=
  {| SessionModel.session_id := "s-1"; SessionModel.state := st;
     SessionModel.customer_name := None; SessionModel.customer_phone := None;
     SessionModel.location := no_location; SessionModel.order_type := "pickup";
     SessionModel.cart := [shawarma]; SessionModel.applied_promo_code := None;
     SessionModel.conversation_history := [];
     SessionModel.conversation_summary_ar := None |}.

(** What an agent returns when the model answers [next_action = "cancel"] and
    changes nothing else. *)
Definition cancel_result : Orchestrator.AgentResult :=
  {| Orchestrator.response_ar := "تم إلغاء الطلب";
     Orchestrator.session_updates := Orchestrator.no_updates;
     Orchestrator.trigger := Some Machine.CANCEL |}.

Definition silent_result : Orchestrator.AgentResult :=
  {| Orchestrator.response_ar := "";
     Orchestrator.session_updates := Orchestrator.no_updates;
     Orchestrator.trigger := None |}.

(** The table [covered_areas] as [scripts/seed_areas.py] fills an empty
    database. *)
Definition area (id : Z) (ar en : string) (aliases : list string) : Coverage.AreaRow :=
  {| Coverage.area_id := id; Coverage.name_ar := ar; Coverage.name_en := Some en;
     Coverage.city := "Riyadh"; Coverage.aliases_ar := aliases;
     Coverage.is_active := true |}.

Definition seeded_areas : list Coverage.AreaRow :=
  [area 1 "حي النرجس" "Al Narjis" ["النرجس"; "نرجس"];
   area 2 "حي الياسمين" "Al Yasmin" ["الياسمين"; "ياسمين"];
   area 3 "حي الملقا" "Al Malqa" ["الملقا"; "ملقا"];
   area 4 "حي الصحافة" "Al Sahafa" ["الصحافة"; "صحافة"];
   area 5 "حي العقيق" "Al Aqiq" ["العقيق"; "عقيق"];
   area 6 "حي الورود" "Al Wurud" ["الورود"; "ورود"];
   area 7 "حي الروضة" "Al Rawdah" ["الروضة"; "روضة"];
   area 8 "حي الربوة" "Al Rabwah" ["الربوة"; "ربوة"];
   area 9 "حي السليمانية" "Al Sulaymaniyah" ["السليمانية"; "سليمانية"];
   area 10 "حي الملك فهد" "King Fahd District" ["الملك فهد"; "ملك فهد"];
   area 11 "حي العليا" "Al Olaya" ["العليا"; "عليا"];
   area 12 "حي النخيل" "Al Nakheel" ["النخيل"; "نخيل"];
   area 13 "حي الغدير" "Al Ghadir" ["الغدير"; "غدير"];
   area 14 "حي القيروان" "Al Qairawan" ["القيروان"; "قيروان"];
   area 15 "حي الرمال" "Al Rimal" ["الرمال"; "رمال"]].

(** A database search that finds nothing. *)
Definition no_search (term : string) : list Coverage.AreaRow := [].

(** Messages of the language model, and a graph session that has reached the
    checkout agent with a delivery order. *)
Definition ai_message (c : string) : Workflow.Message :=
  {| Workflow.kind := Workflow.AIMessage; Workflow.content := c;
     Workflow.parsed := None |}.

Definition at_checkout : Workflow.AgentState :=
  {| Workflow.current_agent := Workflow.checkout;
     Workflow.district := Some "حي النرجس";
     Workflow.district_validated := true;
     Workflow.delivery_fee := 15; Workflow.estimated_time := None;
     Workflow.order_type := "delivery"; Workflow.subtotal := 50;
     Workflow.order_confirmed := false; Workflow.order_id := None;
     Workflow.handoff_summary_ar := [];
     Workflow.came_from_checkout := false;
     Workflow.came_from_order := false |}.

Definition back_to_location : list Workflow.Message :=
  [ai_message "تمام، خلني أرجعك لتحديد الموقع [HANDOFF:location]"].

Definition location_done : list Workflow.Message :=
  [ai_message "تمام! [HANDOFF:order]"].

Definition ask_promo : list Workflow.Message :=
  [ai_message "عندك كود خصم؟"].

Definition ask_district : list Workflow.Message :=
  [ai_message "تبي توصيل ولا استلام من الفرع؟"].



(** One [confirm_order] during which the database cannot be reached. *)
Definition env_database_down : CheckoutTools.Env :=
  {| CheckoutTools.env_order_id := "ORD-20240101120000-AB12";
     CheckoutTools.env_now_iso := "2024-01-01T12:00:00";
     CheckoutTools.env_order_db_id := 1;
     CheckoutTools.env_fault := CheckoutTools.ConnectFault |}.

End Scenario.

(** * Properties *)

Section MachineFacts.
Import Machine.

Lemma cancel_states (s : State) :
  is_valid_transition s CANCEL = true <->
  s = S3_LOCATION \/ s = S4_ORDERING \/ s = S5_CHECKOUT.
Proof.
  split.
  - destruct s; vm_compute; intros H; try discriminate H; auto.
  - intros [-> | [-> | ->]]; reflexivity.
Qed.

Lemma cancel_target (s : State) :
  is_valid_transition s CANCEL = true -> get_next_state s CANCEL = Some S0_INIT.
Proof. destruct s; vm_compute; intros H; try discriminate H; reflexivity. Qed.

End MachineFacts.

(** ** The state machine and the cancel trigger *)

Section CancelTurn.
Import Machine SessionModel Orchestrator.

Lemma handle_message_cancel (s : SessionState) (count : Z) (msg : string)
    (ir : AgentResult) (ar : State -> AgentResult) (summary : string) :
  state s = S3_LOCATION \/ state s = S4_ORDERING \/ state s = S5_CHECKOUT ->
  trigger (ar (state s)) = Some CANCEL ->
  let s' := (handle_message s count msg ir ar summary).1.1 in
  state s' = S0_INIT /\
  cart s' = match upd_cart (session_updates (ar (state s))) with
            | Some c => c
            | None => cart s
            end.
Proof.
  intros Hst Htr. unfold handle_message.
  destruct s as [sid st cn cp loc ot c pr hist sm]; simpl in *.
  destruct Hst as [-> | [-> | ->]]; simpl; rewrite Htr; simpl;
    repeat match goal with
    | |- context [if ?b then _ else _] => destruct b
    end; simpl; auto.
Qed.

End CancelTurn.

(** C3 (as amended).  The cancel trigger is a valid transition exactly in the
    states LOCATION, ORDERING and CHECKOUT, and there its target is INIT; in
    every other state the table has no cancel entry.  A turn whose agent fires
    cancel in one of the three states leaves the session in INIT, and its cart
    is the one the agent's session update carries or, when the update has no
    cart, the cart the session had: the orchestrator does not empty it. *)
Theorem cancel_only_from_location_ordering_checkout :
  (forall s : Machine.State,
     Machine.is_valid_transition s Machine.CANCEL = true <->
     s = Machine.S3_LOCATION \/ s = Machine.S4_ORDERING \/ s = Machine.S5_CHECKOUT) /\
  (forall s : Machine.State,
     Machine.is_valid_transition s Machine.CANCEL = true ->
     Machine.get_next_state s Machine.CANCEL = Some Machine.S0_INIT) /\
  (forall (s : SessionModel.SessionState) (count : Z) (msg : string)
          (ir : Orchestrator.AgentResult)
          (ar : Machine.State -> Orchestrator.AgentResult) (summary : string),
     Machine.is_valid_transition (SessionModel.state s) Machine.CANCEL = true ->
     Orchestrator.trigger (ar (SessionModel.state s)) = Some Machine.CANCEL ->
     let s' := (Orchestrator.handle_message s count msg ir ar summary).1.1 in
     SessionModel.state s' = Machine.S0_INIT /\
     SessionModel.cart s' =
       match Orchestrator.upd_cart (Orchestrator.session_updates (ar (SessionModel.state s))) with
       | Some c => c
       | None => SessionModel.cart s
       end).
Proof.
  split; [exact cancel_states | split; [exact cancel_target |]].
  intros s count msg ir ar summary Hv Htr.
  apply handle_message_cancel; [by apply cancel_states | exact Htr].
Qed.

(** The third part of C3 at a checkout session holding one line. *)
Lemma cancel_only_from_location_ordering_checkout_witness :
  let s := Scenario.session_in Machine.S5_CHECKOUT in
  let s' := (Orchestrator.handle_message s 0 "ألغ الطلب" Scenario.silent_result
               (fun _ => Scenario.cancel_result) "").1.1 in
  SessionModel.state s' = Machine.S0_INIT /\
  SessionModel.cart s' = [Scenario.shawarma].
Proof.
  exact (proj2 (proj2 cancel_only_from_location_ordering_checkout)
           (Scenario.session_in Machine.S5_CHECKOUT) 0%Z "ألغ الطلب"
           Scenario.silent_result (fun _ => Scenario.cancel_result) ""
           eq_refl eq_refl).
Defined.

(** C3 as stated fails: GREETING is not FINALIZED, yet cancel is no transition
    of it; and a cancel turn in CHECKOUT ends in INIT with the cart still
    holding its line. *)
Lemma cancel_from_greeting_is_invalid :
  Machine.S2_GREETING <> Machine.S6_FINALIZED /\
  Machine.is_valid_transition Machine.S2_GREETING Machine.CANCEL = false /\
  Machine.get_next_state Machine.S2_GREETING Machine.CANCEL = None /\
  (let s' := (Orchestrator.handle_message
                (Scenario.session_in Machine.S5_CHECKOUT) 0 "ألغ الطلب"
                Scenario.silent_result (fun _ => Scenario.cancel_result) "").1.1 in
   SessionModel.state s' = Machine.S0_INIT /\ SessionModel.cart s' <> []).
Proof.
  split; [discriminate |]. repeat split; try reflexivity.
  vm_compute. discriminate.
Qed.

(** ** Opening hours *)

(** C6.  With opening hour 9 and closing hour 3 the restaurant is open exactly
    when the hour is at least 9 or below 3; 02:59 and 09:00 are open, 03:00 and
    08:59 are closed. *)
Theorem restaurant_open_wraps_midnight :
  (forall now : TimeUtils.Clock,
     TimeUtils.is_restaurant_open Config.default_settings now = true <->
     (9 <= TimeUtils.hour now \/ TimeUtils.hour now < 3)%Z) /\
  TimeUtils.is_restaurant_open Config.default_settings
    {| TimeUtils.hour := 2; TimeUtils.minute := 59 |} = true /\
  TimeUtils.is_restaurant_open Config.default_settings
    {| TimeUtils.hour := 3; TimeUtils.minute := 0 |} = false /\
  TimeUtils.is_restaurant_open Config.default_settings
    {| TimeUtils.hour := 8; TimeUtils.minute := 59 |} = false /\
  TimeUtils.is_restaurant_open Config.default_settings
    {| TimeUtils.hour := 9; TimeUtils.minute := 0 |} = true.
Proof.
  split; [| repeat split; reflexivity].
  intros [h m]. unfold TimeUtils.is_restaurant_open. simpl.
  rewrite orb_true_iff, Z.leb_le, Z.ltb_lt. reflexivity.
Qed.

(** ** The cart tools *)

Section CartFacts.
Import Store OrderTools.

Lemma find_idx_Some_lookup {A : Type} (p : A -> bool) (l : list A) (i : nat) :
  find_idx p l = Some i ->
  exists x, l !! i = Some x /\ p x = true /\
            forall j y, (j < i)%nat -> l !! j = Some y -> p y = false.
Proof.
  revert i. induction l as [| a l IH]; intros i H; simpl in H; [discriminate |].
  destruct (p a) eqn:Hp.
  - injection H as <-. exists a. repeat split; auto. intros j y Hj. lia.
  - destruct (find_idx p l) as [k |] eqn:Hk; simpl in H; [| discriminate].
    injection H as <-. destruct (IH k eq_refl) as (x & Hx & Hpx & Hlt).
    exists x. repeat split; auto.
    intros [| j] y Hj Hy; simpl in Hy.
    + injection Hy as <-. exact Hp.
    + apply (Hlt j); [lia | exact Hy].
Qed.






Lemma get_set_session_order (w : World) (sid : string) (o : list OrderLine) :
  get_session_order (set_session_order sid o w) sid = o.
Proof.
  unfold get_session_order, set_session_order; simpl.
  by rewrite lookup_insert_eq.
Qed.




(** Where [update_order_item] does respect the frame: with a positive
    quantity, or with notes and no quantity, it returns and alters the first
    line of the item and nothing else. *)
Lemma update_order_item_frame (w : World) (id sid : string) (qty : option Z)
    (nts : option string) (idx : nat) :
  find_idx (same_item id) (get_session_order w sid) = Some idx ->
  match qty with
  | Some q => (0 < q)%Z
  | None => nts <> None
  end ->
  exists r : UpdateResult,
    (update_order_item w id qty nts sid).1 = Returned r /\
    upd_success r = true /\
    get_session_order (update_order_item w id qty nts sid).2 sid =
      alter (fun l =>
               let l1 := match qty with Some q => set_quantity q l | None => l end in
               match nts with Some n => set_notes n l1 | None => l1 end)
            idx (get_session_order w sid).
Proof.
  intros Hidx Harg. unfold update_order_item. rewrite Hidx.
  destruct (find_idx_Some_lookup _ _ _ Hidx) as (x & Hx & _).
  destruct qty as [q |].
  - destruct (Z.leb_spec q 0) as [Hle | _]; [lia |].
    destruct nts as [n |]; cbn [fst snd].
    + rewrite list_lookup_alter_eq, Hx. cbn [fmap option_fmap option_map fst snd].
      eexists. split; [reflexivity |]. split; [reflexivity |].
      cbn [fst snd].
      rewrite get_set_session_order, list_alter_alter_eq. reflexivity.
    + eexists. split; [reflexivity |]. split; [reflexivity |].
      cbn [fst snd]. by rewrite get_set_session_order.
  - destruct nts as [n |]; [| done]. cbn [fst snd]. rewrite Hx.
    eexists. split; [reflexivity |]. split; [reflexivity |].
    cbn [fst snd]. by rewrite get_set_session_order.
Qed.

End CartFacts.



(** C8, the code at the failing input.  [validate_quantity] refuses 100 and 0,
    yet [add_to_order] takes quantity 100 (and -3) and stores the line, and
    [update_order_item] sets a line to quantity 100: neither tool calls the
    validator. *)
Theorem order_tools_accept_quantity_100 :
  Validators.validate_quantity 100 = (false, "الحد الأقصى للكمية هو 99") /\
  Validators.validate_quantity 0 = (false, "الكمية يجب أن تكون 1 على الأقل") /\
  (let '(r, w') := OrderTools.add_to_order Scenario.fresh_world "1" 100 "" "default" in
   OrderTools.add_success r = true /\
   OrderTools.get_session_order w' "default" = [Scenario.burger_line 100 ""]) /\
  (let '(r, w') := OrderTools.add_to_order Scenario.fresh_world "1" (-3) "" "default" in
   OrderTools.add_success r = true /\
   OrderTools.get_session_order w' "default" = [Scenario.burger_line (-3) ""]) /\
  (let '(r, w') := OrderTools.update_order_item
                     (Scenario.world_with_cart [Scenario.burger_line 1 ""])
                     "1" (Some 100%Z) None "default" in
   (exists res, r = Store.Returned res /\ OrderTools.upd_success res = true) /\
   OrderTools.get_session_order w' "default" = [Scenario.burger_line 100 ""]).
Proof.
  repeat split; try reflexivity.
  eexists. split; reflexivity.
Qed.

(** C10, the code at the failing inputs.  With quantity 0 and notes given
    together, the matching line is popped and the notes are then written at the
    same index: on the cart [burger; fries] the fries line, whose id was not
    the argument, gets the notes; on the cart [burger] the index is out of
    range and IndexError is raised after the line was removed.  With neither
    quantity nor notes the local [result] is unbound when it is logged. *)
Theorem update_order_item_zero_quantity_with_notes :
  (let '(r, w') := OrderTools.update_order_item
                     (Scenario.world_with_cart
                        [Scenario.burger_line 1 ""; Scenario.fries_line 2 ""])
                     "1" (Some 0%Z) (Some "حار") "default" in
   (exists res, r = Store.Returned res) /\
   OrderTools.get_session_order w' "default" = [Scenario.fries_line 2 "حار"]) /\
  (let '(r, w') := OrderTools.update_order_item
                     (Scenario.world_with_cart [Scenario.burger_line 1 ""])
                     "1" (Some 0%Z) (Some "حار") "default" in
   r = Store.Raised Store.IndexError /\
   OrderTools.get_session_order w' "default" = []) /\
  (let '(r, w') := OrderTools.update_order_item
                     (Scenario.world_with_cart [Scenario.burger_line 1 ""])
                     "1" None None "default" in
   r = Store.Raised Store.UnboundLocalError /\
   OrderTools.get_session_order w' "default" = [Scenario.burger_line 1 ""]).
Proof.
  repeat split; try reflexivity.
  eexists. reflexivity.
Qed.

(** ** Totals and promo codes *)

Section PromoFacts.
Import Store OrderTools CheckoutTools.
Local Open Scope Q_scope.

Lemma clamp_is_min (d m : Q) :
  (if Qgt_bool d m then m else d) == Qmin d m.
Proof.
  unfold Qgt_bool. destruct (Qle_bool d m) eqn:H; simpl.
  - symmetry. apply Q.min_l. by apply Qle_bool_iff.
  - symmetry. apply Q.min_r. apply Qlt_le_weak, Qnot_le_lt.
    intros Hle. apply Qle_bool_iff in Hle. congruence.
Qed.

Lemma py_min_is_min (a b : Q) : py_min a b == Qmin a b.
Proof.
  unfold py_min, Qlt_bool. destruct (Qle_bool a b) eqn:H; simpl.
  - symmetry. apply Q.min_l. by apply Qle_bool_iff.
  - symmetry. apply Q.min_r. apply Qlt_le_weak, Qnot_le_lt.
    intros Hle. apply Qle_bool_iff in Hle. congruence.
Qed.

Lemma Qge_bool_true (a b : Q) : Qge_bool a b = true <-> b <= a.
Proof. unfold Qge_bool. apply Qle_bool_iff. Qed.

Lemma Qge_bool_false (a b : Q) : Qge_bool a b = false <-> a < b.
Proof.
  unfold Qge_bool. split.
  - intros H. apply Qnot_le_lt. intros Hle. apply Qle_bool_iff in Hle. congruence.
  - intros H. destruct (Qle_bool b a) eqn:E; [| done].
    apply Qle_bool_iff in E. exfalso. exact (Qlt_not_le _ _ H E).
Qed.

(** The promo table's own clamp: an accepted percentage code with a maximum
    discount [m] yields min(min(subtotal * value / 100, m), subtotal). *)
Lemma validate_promo_percentage_clamp (db : Database) (now : Z) (code : string)
    (sub m : Q) (promo : PromoRow) :
  PromoRepository.get_promo_by_code db code = Some promo ->
  PromoRepository.code_unusable db now code = false ->
  min_order_amount promo <= sub ->
  discount_type promo = "percentage" ->
  PromoRepository.truthy_Q (max_discount promo) = Some m ->
  exists (d : Q) (msg : Text),
    PromoRepository.validate_promo db now code sub = (true, d, msg) /\
    d == Qmin (Qmin (sub * discount_value promo / 100) m) sub.
Proof.
  intros Hget Hus Hmin Hty Hmax.
  unfold PromoRepository.code_unusable, PromoRepository.validate_promo in *.
  rewrite Hget in *.
  destruct (is_active promo); simpl in *; [| discriminate].
  destruct (match PromoRepository.truthy_Z (usage_limit promo) with
            | Some lim => (lim <=? usage_count promo)%Z
            | None => false
            end); simpl in *; [discriminate |].
  destruct (match valid_from promo with
            | Some t => (now <? t)%Z
            | None => false
            end); simpl in *; [discriminate |].
  destruct (match valid_until promo with
            | Some t => (t <? now)%Z
            | None => false
            end); simpl in *; [discriminate |].
  assert (Hlt : Qlt_bool sub (min_order_amount promo) = false).
  { unfold Qlt_bool. apply negb_false_iff. by apply Qle_bool_iff. }
  rewrite Hlt, Hty, Hmax. simpl.
  eexists. eexists. split; [reflexivity |].
  rewrite py_min_is_min. apply Q.min_compat; [apply py_min_is_min | reflexivity].
Qed.

End PromoFacts.

(** *** [calculate_total] in any arithmetic *)

Section CalcTotalFacts.
Import Store OrderTools Amounts CalcTotal.

Lemma sum_line_totals (order : list OrderLine) (a : Q) :
  fold_left Qplus (map line_total order) a
  = fold_left (fun acc l => (acc + line_total l)%Q) order a.
Proof.
  revert a. induction order as [| l order IH]; intros a; [reflexivity |].
  simpl. apply IH.
Qed.

(** [CheckoutTools.calculate_total] is [calculate_total] over the rationals,
    with the upper case of ASCII. *)
Lemma calculate_total_exact (w : World) (sid : string) (fee : Q)
    (promo : option string) :
  CheckoutTools.calculate_total w sid fee promo =
  exact_answer
    (calculate_total exact upper (map line_total (get_session_order w sid)) fee promo).
Proof.
  unfold CheckoutTools.calculate_total, calculate_total.
  destruct (get_session_order w sid) as [| l0 rest]; [reflexivity |].
  change (map line_total (l0 :: rest)) with (line_total l0 :: map line_total rest).
  cbv iota.
  assert (Hs : sum_of exact (line_total l0 :: map line_total rest)
               = sum_line_total (l0 :: rest)).
  { unfold sum_line_total. apply (sum_line_totals (l0 :: rest)). }
  rewrite Hs. set (s := sum_line_total (l0 :: rest)).
  cbv [amount of_int tenth fifth add sub mul gt ge exact].
  change (inject_Z 0) with 0%Q. change (inject_Z 30) with 30%Q.
  change (inject_Z 50) with 50%Q. change (inject_Z 100) with 100%Q.
  change (inject_Z 75) with 75%Q. change (inject_Z 15) with 15%Q.
  destruct promo as [code |];
    [destruct (negb (str_truthy code));
       [| destruct (String.eqb (upper code) "WELCOME10");
          [| destruct (String.eqb (upper code) "FIRST20");
             [| destruct (String.eqb (upper code) "FREE15")]]] |];
    repeat match goal with
           | |- context [Qgt_bool ?a ?b] => destruct (Qgt_bool a b)
           | |- context [Qge_bool ?a ?b] => destruct (Qge_bool a b)
           end; reflexivity.
Qed.

End CalcTotalFacts.

Section CalcTotalCases.
Import Amounts CalcTotal.

Variable A : Arith.
Variable str_upper : string -> string.

(** [calculate_total] on a non-empty cart with a non-empty code, code by
    code, in any arithmetic. *)
Lemma calculate_total_by_code (order : list (amount A)) (fee : amount A)
    (code : string) :
  order <> [] ->
  code <> "" ->
  exists t, calculate_total A str_upper order fee (Some code) = Success t /\
    subtotal t = sum_of A order /\
    delivery_fee t = fee /\
    total t = sub A (add A (subtotal t) fee) (discount t) /\
    promo_applied t = gt A (discount t) (of_int A 0) /\
    (str_upper code = "WELCOME10" ->
       discount t = py_min A (mul A (subtotal t) (tenth A)) (of_int A 30)) /\
    (str_upper code = "FIRST20" -> ge A (subtotal t) (of_int A 100) = true ->
       discount t = py_min A (mul A (subtotal t) (fifth A)) (of_int A 50)) /\
    (str_upper code = "FIRST20" -> ge A (subtotal t) (of_int A 100) = false ->
       discount t = of_int A 0) /\
    (str_upper code <> "WELCOME10" -> str_upper code <> "FIRST20" ->
     str_upper code <> "FREE15" ->
       discount t = of_int A 0 /\
       last (breakdown_ar t) = Some [AStr newline; AStr "كود الخصم غير صحيح"]).
Proof.
  intros Hcart Hcode. unfold calculate_total.
  destruct order as [| l0 rest]; [done |].
  assert (Htr : str_truthy code = true).
  { unfold str_truthy. by destruct (String.eqb_spec code ""). }
  rewrite Htr. cbn [negb]. cbv iota.
  set (s := sum_of A (l0 :: rest)).
  destruct (String.eqb_spec (str_upper code) "WELCOME10") as [E1 | N1].
  { eexists. split; [reflexivity |]. cbn [subtotal delivery_fee discount total promo_applied].
    repeat split; try done.
    - intros E. rewrite E1 in E. discriminate E.
    - intros E. rewrite E1 in E. discriminate E. }
  destruct (String.eqb_spec (str_upper code) "FIRST20") as [E2 | N2].
  { destruct (ge A s (of_int A 100)) eqn:Hge;
      (eexists; split; [reflexivity |];
       cbn [subtotal delivery_fee discount total promo_applied];
       repeat split; try done; congruence). }
  destruct (String.eqb_spec (str_upper code) "FREE15") as [E3 | N3].
  { destruct (ge A s (of_int A 75));
      (eexists; split; [reflexivity |];
       cbn [subtotal delivery_fee discount total promo_applied];
       repeat split; done). }
  eexists. split; [reflexivity |].
  cbn [subtotal delivery_fee discount total promo_applied breakdown_ar].
  repeat split; try done.
  rewrite (zero_not_positive A).
  destruct (gt A fee (of_int A 0)); reflexivity.
Qed.

End CalcTotalCases.

(** C4 (as amended).  In any arithmetic, so in the floats of the program, and
    for any [str.upper] that keeps the empty text: on an empty cart
    [calculate_total] returns success=false; on a non-empty cart, for each
    percentage code (WELCOME10: factor 0.10, at most 30; FIRST20: factor
    0.20, at most 50, from a subtotal of 100) and every code whose upper case
    it is, the tool succeeds with total = subtotal + delivery fee - discount,
    where the subtotal is the sum the tool computes.  The discount is
    min(subtotal * factor, maximum) whenever that subtotal passes the code's
    test of its minimum order (always, for a code without one), and the code
    is reported as applied exactly when the discount is positive; when the
    test fails the discount is 0 and the code is reported as not applied. *)
Theorem calculate_total_percentage_clamp
    (A : Amounts.Arith) (str_upper : string -> string)
    (order : list (Amounts.amount A)) (fee : Amounts.amount A)
    (code name : string) (rate maxd : Amounts.amount A)
    (mino : option (Amounts.amount A)) :
  In (name, rate, maxd, mino) (CalcTotal.percentage_codes A) ->
  str_upper "" = "" ->
  str_upper code = name ->
  (forall promo : option string,
     CalcTotal.calculate_total A str_upper [] fee promo
     = CalcTotal.Failure "السلة فارغة") /\
  (order <> [] ->
   exists t : CalcTotal.Totals A,
     CalcTotal.calculate_total A str_upper order fee (Some code) = CalcTotal.Success t /\
     CalcTotal.subtotal t = Amounts.sum_of A order /\
     CalcTotal.total t =
       Amounts.sub A (Amounts.add A (CalcTotal.subtotal t) fee) (CalcTotal.discount t) /\
     ((forall m, mino = Some m -> Amounts.ge A (CalcTotal.subtotal t) m = true) ->
      CalcTotal.discount t =
        CalcTotal.py_min A (Amounts.mul A (CalcTotal.subtotal t) rate) maxd /\
      CalcTotal.promo_applied t =
        Amounts.gt A (CalcTotal.discount t) (Amounts.of_int A 0)) /\
     (forall m, mino = Some m -> Amounts.ge A (CalcTotal.subtotal t) m = false ->
      CalcTotal.discount t = Amounts.of_int A 0 /\
      CalcTotal.promo_applied t = false)).
Proof.
  intros Hin Hempty Hup. split; [reflexivity |]. intros Hcart.
  assert (Hcode : code <> "").
  { intros ->. rewrite Hempty in Hup. subst name.
    destruct Hin as [H | [H | []]]; discriminate H. }
  destruct (calculate_total_by_code A str_upper order fee code Hcart Hcode)
    as (t & Hres & Hsub & _ & Htot & Happ & Hw10 & Hf20 & Hf20low & _).
  exists t. split; [exact Hres |]. split; [exact Hsub |]. split; [exact Htot |].
  destruct Hin as [H | [H | []]]; injection H as <- <- <- <-.
  - split; [intros _; split; [by apply Hw10 | exact Happ]
           | intros m Hm; discriminate Hm].
  - split.
    + intros Hmin. split; [apply Hf20; [exact Hup | by apply Hmin] | exact Happ].
    + intros m Hm Hlow. injection Hm as <-.
      rewrite Happ, (Hf20low Hup Hlow). split; [reflexivity |].
      apply Amounts.zero_not_positive.
Qed.

(** C4 in the floats of the program, before and since Python 3.12, on a cart
    of twenty burgers at 25 SAR: FIRST20 gives 50 (not 100) and WELCOME10
    gives 30 (not 50). *)
Lemma calculate_total_percentage_clamp_witness :
  Forall
    (fun sum_impl : list PrimFloat.float -> PrimFloat.float =>
       let A := Amounts.float_arith sum_impl in
       let order := Amounts.line_totals A [(Amounts.of_int A 25, 20%Z)] in
       (exists t : CalcTotal.Totals A,
          CalcTotal.calculate_total A upper order (Amounts.of_int A 15)
            (Some "first20") = CalcTotal.Success t /\
          CalcTotal.subtotal t = Amounts.of_int A 500 /\
          CalcTotal.discount t = Amounts.of_int A 50) /\
       (exists t : CalcTotal.Totals A,
          CalcTotal.calculate_total A upper order (Amounts.of_int A 15)
            (Some "WELCOME10") = CalcTotal.Success t /\
          CalcTotal.subtotal t = Amounts.of_int A 500 /\
          CalcTotal.discount t = Amounts.of_int A 30))
    Amounts.float_sums.
Proof.
  apply List.Forall_cons; [| apply List.Forall_cons; [| apply List.Forall_nil]];
    cbv beta zeta;
    match goal with
    | |- (exists t, CalcTotal.calculate_total ?A _ ?order _ _ = _ /\ _) /\ _ =>
        assert (Hne : order <> []) by discriminate;
        assert (H500 : Amounts.sum_of A order = Amounts.of_int A 500)
          by (vm_compute; reflexivity);
        split;
        [ destruct (proj2 (calculate_total_percentage_clamp A upper order
                             (Amounts.of_int A 15) "first20" "FIRST20"
                             (Amounts.fifth A) (Amounts.of_int A 50)
                             (Some (Amounts.of_int A 100))
                             (or_intror (or_introl eq_refl)) eq_refl eq_refl) Hne)
            as (t & Hres & Hsub & _ & Hclamp & _);
          exists t; split; [exact Hres |]; rewrite Hsub; split; [exact H500 |];
          destruct Hclamp as [Hd _];
          [ intros m Hm; injection Hm as <-; rewrite Hsub, H500;
            vm_compute; reflexivity
          | rewrite Hd, Hsub, H500; vm_compute; reflexivity ]
        | destruct (proj2 (calculate_total_percentage_clamp A upper order
                             (Amounts.of_int A 15) "WELCOME10" "WELCOME10"
                             (Amounts.tenth A) (Amounts.of_int A 30) None
                             (or_introl eq_refl) eq_refl eq_refl) Hne)
            as (t & Hres & Hsub & _ & Hclamp & _);
          exists t; split; [exact Hres |]; rewrite Hsub; split; [exact H500 |];
          destruct Hclamp as [Hd _];
          [ intros m Hm; discriminate Hm
          | rewrite Hd, Hsub, H500; vm_compute; reflexivity ] ]
    end.
Defined.

(** C4 as stated fails below a code's minimum order: on a cart of five items
    at 10 SAR FIRST20 yields discount 0, not min(50 * 0.20, 50) = 10.  The
    test is on the float sum: two items at 5.15 and three at 29.90 add up to
    99.99999999999999, so FIRST20 yields 0 although the prices add up to
    100. *)
Lemma first20_below_minimum_gives_no_discount :
  Forall
    (fun sum_impl : list PrimFloat.float -> PrimFloat.float =>
       let A := Amounts.float_arith sum_impl in
       (exists t : CalcTotal.Totals A,
          CalcTotal.calculate_total A upper
            (Amounts.line_totals A [(Amounts.of_int A 10, 5%Z)])
            (Amounts.of_int A 15) (Some "FIRST20") = CalcTotal.Success t /\
          CalcTotal.subtotal t = Amounts.of_int A 50 /\
          CalcTotal.discount t = Amounts.of_int A 0 /\
          CalcTotal.py_min A (Amounts.mul A (CalcTotal.subtotal t) (Amounts.fifth A))
            (Amounts.of_int A 50) = Amounts.of_int A 10 /\
          CalcTotal.discount t <>
            CalcTotal.py_min A (Amounts.mul A (CalcTotal.subtotal t) (Amounts.fifth A))
              (Amounts.of_int A 50)) /\
       (exists t : CalcTotal.Totals A,
          CalcTotal.calculate_total A upper
            (Amounts.line_totals A
               [(Amounts.price_5_15, 2%Z); (Amounts.price_29_90, 3%Z)])
            (Amounts.of_int A 15) (Some "FIRST20") = CalcTotal.Success t /\
          CalcTotal.subtotal t = Amounts.just_below_100 /\
          Amounts.ge A (CalcTotal.subtotal t) (Amounts.of_int A 100) = false /\
          CalcTotal.discount t = Amounts.of_int A 0 /\
          CalcTotal.promo_applied t = false))
    Amounts.float_sums /\
  (Amounts.sum_of Amounts.exact
     (Amounts.line_totals Amounts.exact [(5.15%Q, 2%Z); (29.90%Q, 3%Z)]) == 100)%Q.
Proof.
  split; [| vm_compute; reflexivity].
  apply List.Forall_cons; [| apply List.Forall_cons; [| apply List.Forall_nil]];
    cbv beta zeta;
    match goal with
    | |- (exists t1, CalcTotal.calculate_total ?A _ ?o1 _ _ = _ /\ _) /\
         (exists t2, CalcTotal.calculate_total _ _ ?o2 _ _ = _ /\ _) =>
        split;
        [ destruct (calculate_total_by_code A upper o1 (Amounts.of_int A 15) "FIRST20"
                      ltac:(discriminate) ltac:(discriminate))
            as (t & Hres & Hsub & _ & _ & _ & _ & _ & Hlow & _);
          assert (Hs : CalcTotal.subtotal t = Amounts.of_int A 50)
            by (rewrite Hsub; vm_compute; reflexivity);
          assert (Hge : Amounts.ge A (CalcTotal.subtotal t) (Amounts.of_int A 100) = false)
            by (rewrite Hs; vm_compute; reflexivity);
          assert (Hmin : CalcTotal.py_min A
                           (Amounts.mul A (CalcTotal.subtotal t) (Amounts.fifth A))
                           (Amounts.of_int A 50) = Amounts.of_int A 10)
            by (rewrite Hs; vm_compute; reflexivity);
          exists t; split; [exact Hres |]; split; [exact Hs |];
          split; [exact (Hlow eq_refl Hge) |]; split; [exact Hmin |];
          rewrite (Hlow eq_refl Hge), Hmin; vm_compute; intros H; discriminate H
        | destruct (calculate_total_by_code A upper o2 (Amounts.of_int A 15) "FIRST20"
                      ltac:(discriminate) ltac:(discriminate))
            as (t & Hres & Hsub & _ & _ & Happ & _ & _ & Hlow & _);
          assert (Hs : CalcTotal.subtotal t = Amounts.just_below_100)
            by (rewrite Hsub; vm_compute; reflexivity);
          assert (Hge : Amounts.ge A (CalcTotal.subtotal t) (Amounts.of_int A 100) = false)
            by (rewrite Hs; vm_compute; reflexivity);
          exists t; split; [exact Hres |]; split; [exact Hs |]; split; [exact Hge |];
          split; [exact (Hlow eq_refl Hge) |];
          rewrite Happ, (Hlow eq_refl Hge); apply Amounts.zero_not_positive ]
    end.
Qed.

Local Open Scope Q_scope.

Section RejectionFacts.
Import Store PromoRepository McpOrder.



End RejectionFacts.




Local Close Scope Q_scope.

(** ** Order confirmation *)

Section ConfirmFacts.
Import Store OrderTools CheckoutTools.

Lemma insert_items_length (f : Fault) (oid : Z) (k : nat) (items : list OrderLine)
    (rows : list OrderItemRow) :
  insert_items f oid k items = Some rows -> List.length rows = List.length items.
Proof.
  revert k rows. induction items as [| it items IH]; intros k rows H; simpl in H.
  - by injection H as <-.
  - destruct (int_of_str (item_id it)); simpl in H; [| discriminate].
    destruct (execute_fails f k); [discriminate |].
    destruct (insert_items f oid (S k) items) as [rows' |] eqn:E; simpl in H;
      [| discriminate].
    injection H as <-. simpl. f_equal. by apply (IH (S k)).
Qed.

Lemma insert_items_fault (oid : Z) (n k : nat) (items : list OrderLine) :
  (k <= n < k + List.length items)%nat ->
  insert_items (ExecuteFault n) oid k items = None.
Proof.
  revert k. induction items as [| it items IH]; intros k Hn; simpl in *; [lia |].
  destruct (int_of_str (item_id it)); simpl; [| done].
  destruct (Nat.eqb_spec n k) as [-> | Hne]; [done |].
  rewrite IH by lia. done.
Qed.

(** What the save does to the database, whatever the fault. *)
Lemma save_order_atomic (db : Database) (f : Fault) (oid : Z)
    (sid name phone district otype : string) (items : list OrderLine)
    (sub fee disc total : Q) (nts : string) :
  let out := save_order_to_database_sync db f oid sid name phone district otype
               items sub fee disc total nts in
  tbl_promo_codes out.2 = tbl_promo_codes db /\
  (out.1 = false -> out.2 = db) /\
  (out.1 = true ->
   f <> ConnectFault /\ f <> CommitFault /\
   exists rows : list OrderItemRow,
     insert_items f oid 1 items = Some rows /\
     List.length rows = List.length items /\
     tbl_order_items out.2 = tbl_order_items db ++ rows /\
     tbl_orders out.2 =
       tbl_orders db ++
       [{| row_id := oid; row_session_id := sid; row_customer_name := name;
           row_customer_phone := phone; row_delivery_address := district;
           row_order_type := otype; row_subtotal := sub;
           row_delivery_fee := fee; row_discount_amount := disc;
           row_total := total; row_status := "confirmed"; row_notes := nts |}]).
Proof.
  unfold save_order_to_database_sync.
  destruct f as [| | n |]; simpl.
  - destruct (insert_items NoFault oid 1 items) as [rows |] eqn:E; simpl.
    + repeat split; try done. exists rows. repeat split; try done.
      by apply insert_items_length in E.
    + repeat split; done.
  - repeat split; done.
  - destruct (n =? 0)%nat; simpl; [repeat split; done |].
    destruct (insert_items (ExecuteFault n) oid 1 items) as [rows |] eqn:E; simpl.
    + repeat split; try done. exists rows. repeat split; try done.
      by apply insert_items_length in E.
    + repeat split; done.
  - destruct (insert_items CommitFault oid 1 items); simpl; repeat split; done.
Qed.

Lemma save_order_faulty (db : Database) (f : Fault) (oid : Z)
    (sid name phone district otype : string) (items : list OrderLine)
    (sub fee disc total : Q) (nts : string) :
  f = ConnectFault \/ f = CommitFault \/
  (exists n, f = ExecuteFault n /\ (n <= List.length items)%nat) ->
  (save_order_to_database_sync db f oid sid name phone district otype
     items sub fee disc total nts).1 = false.
Proof.
  unfold save_order_to_database_sync.
  intros [-> | [-> | (n & -> & Hn)]]; simpl.
  - done.
  - by destruct (insert_items CommitFault oid 1 items).
  - destruct (Nat.eqb_spec n 0) as [-> | Hne]; [done |].
    rewrite insert_items_fault by lia. done.
Qed.

End ConfirmFacts.

(** C1 (as amended).  When the cart, the name or the phone is empty,
    [confirm_order] returns success=false and changes nothing.  Otherwise it
    returns success=true, records the order in the in-memory backup and clears
    the session's cart, whether or not the database write succeeded.  The
    database write is atomic: when it fails (no connection, a failing insert,
    a failing commit) the tables are as before, and when it succeeds exactly
    the header and one row per cart line are appended; the promo table is
    never written. *)
Theorem confirm_order_outcomes
    (w : Store.World) (env : CheckoutTools.Env)
    (sid name phone district : string) (fee discount : Q) (otype nts : string) :
  let out := CheckoutTools.confirm_order w env sid name phone district fee
               discount otype nts in
  let cart := OrderTools.get_session_order w sid in
  let saved := CheckoutTools.db_saved w env sid name phone district fee
                 discount otype nts in
  (cart = [] \/ name = "" \/ phone = "" ->
   CheckoutTools.confirm_success out.1 = false /\ out.2 = w) /\
  (cart <> [] -> name <> "" -> phone <> "" ->
   CheckoutTools.confirm_success out.1 = true /\
   Store.orders out.2 = delete sid (Store.orders w) /\
   OrderTools.get_session_order out.2 sid = [] /\
   (exists r : Store.OrderRecord,
      Store.confirmed_orders out.2 =
        <[CheckoutTools.env_order_id env := r]> (Store.confirmed_orders w) /\
      Store.rec_items r = cart) /\
   Store.tbl_promo_codes (Store.database out.2) =
     Store.tbl_promo_codes (Store.database w) /\
   (saved = false -> Store.database out.2 = Store.database w) /\
   (saved = true ->
    exists (hdr : Store.OrderRow) (rows : list Store.OrderItemRow),
      Store.tbl_orders (Store.database out.2) =
        Store.tbl_orders (Store.database w) ++ [hdr] /\
      Store.tbl_order_items (Store.database out.2) =
        Store.tbl_order_items (Store.database w) ++ rows /\
      List.length rows = List.length cart)) /\
  (CheckoutTools.env_fault env = CheckoutTools.ConnectFault \/
   CheckoutTools.env_fault env = CheckoutTools.CommitFault \/
   (exists n, CheckoutTools.env_fault env = CheckoutTools.ExecuteFault n /\
              (n <= List.length cart)%nat) ->
   saved = false).
Proof.
  intros out cart saved. subst out cart saved.
  unfold CheckoutTools.confirm_order, CheckoutTools.db_saved.
  split; [| split].
  - intros [Hc | [-> | ->]].
    + rewrite Hc. done.
    + destruct (OrderTools.get_session_order w sid); done.
    + destruct (OrderTools.get_session_order w sid); [done |].
      by destruct (str_truthy name).
  - intros Hc Hn Hp.
    destruct (OrderTools.get_session_order w sid) as [| l0 rest] eqn:Ho; [done |].
    assert (Hnt : str_truthy name = true)
      by (unfold str_truthy; by destruct (String.eqb_spec name "")).
    assert (Hpt : str_truthy phone = true)
      by (unfold str_truthy; by destruct (String.eqb_spec phone "")).
    rewrite Hnt, Hpt. simpl negb. cbv iota.
    change (Store.database (Store.with_confirmed ?c w)) with (Store.database w).
    match goal with
    | |- context [CheckoutTools.save_order_to_database_sync ?db ?f ?oid ?a ?b ?c ?d ?e ?it ?s ?fe ?di ?to ?no] =>
        pose proof (save_order_atomic db f oid a b c d e it s fe di to no) as Hsave;
        destruct (CheckoutTools.save_order_to_database_sync db f oid a b c d e it s fe di to no)
          as [ok db'] eqn:Es
    end.
    simpl in Hsave. destruct Hsave as (Hpromo & Hfail & Hok).
    simpl. split; [done |]. split; [done |].
    split.
    { unfold OrderTools.get_session_order; simpl. by rewrite lookup_delete_eq. }
    split; [eexists; split; reflexivity |].
    split; [exact Hpromo |].
    split; [exact Hfail |].
    intros Htrue. destruct (Hok Htrue) as (_ & _ & rows & _ & Hlen & Hitems & Hhdr).
    eexists. exists rows. split; [exact Hhdr |]. split; [exact Hitems |].
    exact Hlen.
  - apply save_order_faulty.
Qed.

(** C1 at a store failure: the database cannot be reached while a cart of two
    burgers is confirmed. *)
Lemma confirm_order_outcomes_witness :
  let w := Scenario.world_with_cart [Scenario.burger_line 2 ""] in
  let out := CheckoutTools.confirm_order w Scenario.env_database_down "default"
               "محمد" "0551234567" "حي النرجس" 15 0 "delivery" "" in
  CheckoutTools.db_saved w Scenario.env_database_down "default"
    "محمد" "0551234567" "حي النرجس" 15 0 "delivery" "" = false /\
  CheckoutTools.confirm_success out.1 = true /\
  OrderTools.get_session_order out.2 "default" = [] /\
  Store.database out.2 = Store.database w.
Proof.
  pose proof (confirm_order_outcomes
                (Scenario.world_with_cart [Scenario.burger_line 2 ""])
                Scenario.env_database_down "default"
                "محمد" "0551234567" "حي النرجس" 15 0 "delivery" "")
    as (_ & Hgo & Hfault).
  pose proof (Hfault (or_introl eq_refl)) as Hsaved.
  destruct (Hgo ltac:(vm_compute; discriminate) ltac:(discriminate)
              ltac:(discriminate))
    as (Hs & _ & Hcart & _ & _ & Hdb & _).
  split; [exact Hsaved |]. split; [exact Hs |]. split; [exact Hcart |].
  exact (Hdb Hsaved).
Defined.

(** C1 as stated fails: with the database unreachable the tool still answers
    success=true and the session's cart, two burgers before the call, is
    empty after it. *)
Lemma confirm_order_store_failure_reports_success :
  let w := Scenario.world_with_cart [Scenario.burger_line 2 ""] in
  let out := CheckoutTools.confirm_order w Scenario.env_database_down "default"
               "محمد" "0551234567" "حي النرجس" 15 0 "delivery" "" in
  CheckoutTools.db_saved w Scenario.env_database_down "default"
    "محمد" "0551234567" "حي النرجس" 15 0 "delivery" "" = false /\
  CheckoutTools.confirm_success out.1 <> false /\
  OrderTools.get_session_order out.2 "default" <>
    OrderTools.get_session_order w "default".
Proof.
  split; [reflexivity |]. split; vm_compute; discriminate.
Qed.

(** ** Hand-off routing in the graph *)

Section RoutingFacts.
Import Store Workflow.

Lemma location_handoff_step (w : World) (s : AgentState) (msgs : list Message)
    (m : Message) (h : Agent) :
  last (drop_context msgs) = Some m ->
  extract_handoff (content m) = Some h ->
  let s' := (run_node location_node w s msgs).1 in
  current_agent s' = redirect_location_handoff h (came_from_checkout s) /\
  came_from_checkout s' = false /\
  came_from_order s' = false.
Proof.
  intros Hl Hh. unfold run_node. cbn [fst]. unfold call_location_agent.
  rewrite Hl, Hh. unfold apply_updates. simpl. auto.
Qed.

Lemma scan_location_keeps_routing (l : list Message) (u : Updates) :
  u_current_agent (fold_left scan_location_message l u) = u_current_agent u /\
  u_came_from_checkout (fold_left scan_location_message l u) = u_came_from_checkout u /\
  u_came_from_order (fold_left scan_location_message l u) = u_came_from_order u.
Proof.
  revert u. induction l as [| a l IH]; intros u; simpl; [auto |].
  destruct (IH (scan_location_message u a)) as (-> & -> & ->).
  unfold scan_location_message.
  destruct (parsed a) as [d |]; [| auto].
  destruct (j_order_type d); destruct (j_success d); destruct (j_covered d);
    simpl; auto.
Qed.

Lemma stored_fallback_keeps_routing (w : World) (u : Updates) :
  u_current_agent (stored_fallback w u) = u_current_agent u /\
  u_came_from_checkout (stored_fallback w u) = u_came_from_checkout u /\
  u_came_from_order (stored_fallback w u) = u_came_from_order u.
Proof.
  unfold stored_fallback. destruct (u_order_type u); [auto |].
  destruct (_ || _); simpl; auto.
Qed.

Lemma location_idle_step (w : World) (s : AgentState) (msgs : list Message) :
  no_handoff msgs ->
  let s' := (run_node location_node w s msgs).1 in
  current_agent s' = current_agent s /\
  came_from_checkout s' = came_from_checkout s /\
  came_from_order s' = came_from_order s.
Proof.
  unfold no_handoff. intros Hl. unfold run_node. cbn [fst].
  unfold call_location_agent.
  set (u := stored_fallback w _).
  assert (Hu : u_current_agent u = None /\ u_came_from_checkout u = None /\
               u_came_from_order u = None).
  { subst u.
    destruct (stored_fallback_keeps_routing w
                (fold_left scan_location_message (drop_context msgs) empty_updates))
      as (-> & -> & ->).
    destruct (scan_location_keeps_routing (drop_context msgs) empty_updates)
      as (-> & -> & ->).
    simpl. auto. }
  destruct Hu as (H1 & H2 & H3).
  destruct (last (drop_context msgs)) as [m |].
  - rewrite Hl. unfold apply_updates. simpl. rewrite H1, H2, H3. auto.
  - unfold apply_updates. simpl. rewrite H1, H2, H3. auto.
Qed.

Lemma location_idle_turns (s : AgentState) (answers : list (World * list Message)) :
  Forall (fun a => no_handoff a.2) answers ->
  current_agent (location_turns s answers) = current_agent s /\
  came_from_checkout (location_turns s answers) = came_from_checkout s /\
  came_from_order (location_turns s answers) = came_from_order s.
Proof.
  unfold location_turns. revert s.
  induction answers as [| a answers IH]; intros s Hall; [cbn; auto |].
  inversion Hall as [| ? ? Ha Hrest]; subst. cbn [fold_left].
  destruct (IH (run_node location_node a.1 s a.2).1 Hrest) as (-> & -> & ->).
  by apply location_idle_step.
Qed.

Lemma checkout_back_step (w : World) (s : AgentState) (msgs : list Message)
    (m : Message) :
  last (drop_context msgs) = Some m ->
  extract_handoff (content m) = Some location ->
  let out := run_node checkout_node w s msgs in
  current_agent out.1 = location /\ came_from_checkout out.1 = true /\
  out.2 = Some location_node.
Proof.
  intros Hl Hh. unfold run_node. cbn [fst snd]. unfold call_checkout_agent.
  rewrite Hl, Hh. unfold apply_updates, route_after_checkout. simpl. auto.
Qed.

End RoutingFacts.

(** C2.  When the last message of the location agent carries the hand-off
    [order], the next agent is checkout if and only if [came_from_checkout] is
    set, and order otherwise, and both breadcrumbs are cleared by the same
    node.  Hence, after a checkout node that hands back to location (it sets
    the breadcrumb and routes to the location node) and any number of location
    turns without a hand-off (they keep agent and breadcrumbs), the location
    node's forward hand-off, [order] or [checkout], leads to the checkout node
    and never to the order node. *)
Theorem location_handoff_returns_to_checkout :
  (forall (w : Store.World) (s : Workflow.AgentState)
          (msgs : list Workflow.Message) (m : Workflow.Message),
     last (Workflow.drop_context msgs) = Some m ->
     Workflow.extract_handoff (Workflow.content m) = Some Workflow.order ->
     let out := Workflow.run_node Workflow.location_node w s msgs in
     (Workflow.current_agent out.1 = Workflow.checkout <->
      Workflow.came_from_checkout s = true) /\
     (Workflow.current_agent out.1 = Workflow.order <->
      Workflow.came_from_checkout s = false) /\
     out.2 = Some (if Workflow.came_from_checkout s
                   then Workflow.checkout_node else Workflow.order_node) /\
     Workflow.came_from_checkout out.1 = false /\
     Workflow.came_from_order out.1 = false) /\
  (forall (w1 w2 : Store.World) (s : Workflow.AgentState)
          (msgs_ck msgs_loc : list Workflow.Message)
          (idle : list (Store.World * list Workflow.Message))
          (mc ml : Workflow.Message),
     last (Workflow.drop_context msgs_ck) = Some mc ->
     Workflow.extract_handoff (Workflow.content mc) = Some Workflow.location ->
     Forall (fun a => Workflow.no_handoff a.2) idle ->
     last (Workflow.drop_context msgs_loc) = Some ml ->
     Workflow.extract_handoff (Workflow.content ml) = Some Workflow.order \/
     Workflow.extract_handoff (Workflow.content ml) = Some Workflow.checkout ->
     let back := Workflow.run_node Workflow.checkout_node w1 s msgs_ck in
     let waiting := Workflow.location_turns back.1 idle in
     let forth := Workflow.run_node Workflow.location_node w2 waiting msgs_loc in
     back.2 = Some Workflow.location_node /\
     Workflow.came_from_checkout back.1 = true /\
     Workflow.current_agent waiting = Workflow.location /\
     Workflow.came_from_checkout waiting = true /\
     Workflow.current_agent forth.1 = Workflow.checkout /\
     forth.2 = Some Workflow.checkout_node /\
     Workflow.came_from_checkout forth.1 = false /\
     Workflow.came_from_order forth.1 = false).
Proof.
  split.
  - intros w s msgs m Hl Hh.
    destruct (location_handoff_step w s msgs m Workflow.order Hl Hh)
      as (Hc & Hf1 & Hf2).
    cbv zeta in *.
    assert (Hroute : (Workflow.run_node Workflow.location_node w s msgs).2 =
                     Workflow.route_after_location
                       (Workflow.run_node Workflow.location_node w s msgs).1)
      by reflexivity.
    rewrite Hroute. unfold Workflow.route_after_location. rewrite Hc, Hf1, Hf2.
    destruct (Workflow.came_from_checkout s); simpl;
      repeat split; auto; discriminate.
  - intros w1 w2 s msgs_ck msgs_loc idle mc ml Hl1 Hh1 Hidle Hl2 Hh2.
    destruct (checkout_back_step w1 s msgs_ck mc Hl1 Hh1) as (Hb1 & Hb2 & Hb3).
    cbv zeta in *.
    set (back := Workflow.run_node Workflow.checkout_node w1 s msgs_ck) in *.
    destruct (location_idle_turns back.1 idle Hidle) as (Hw1 & Hw2 & _).
    rewrite Hb1 in Hw1. rewrite Hb2 in Hw2.
    set (waiting := Workflow.location_turns back.1 idle) in *.
    assert (Hforth :
      Workflow.current_agent
        (Workflow.run_node Workflow.location_node w2 waiting msgs_loc).1
        = Workflow.checkout /\
      Workflow.came_from_checkout
        (Workflow.run_node Workflow.location_node w2 waiting msgs_loc).1 = false /\
      Workflow.came_from_order
        (Workflow.run_node Workflow.location_node w2 waiting msgs_loc).1 = false).
    { destruct Hh2 as [Hh2 | Hh2];
        destruct (location_handoff_step w2 waiting msgs_loc ml _ Hl2 Hh2)
          as (Hc & Hf1 & Hf2);
        cbv zeta in *; rewrite Hw2 in Hc; auto. }
    destruct Hforth as (Hc & Hf1 & Hf2).
    assert (Hroute :
      (Workflow.run_node Workflow.location_node w2 waiting msgs_loc).2 =
      Workflow.route_after_location
        (Workflow.run_node Workflow.location_node w2 waiting msgs_loc).1)
      by reflexivity.
    rewrite Hroute. unfold Workflow.route_after_location. rewrite Hc.
    repeat split; assumption || reflexivity.
Qed.

(** C2 on a whole [invoke]: the checkout agent hands back to location, the
    location agent answers with the hand-off [order], and the run ends with
    the checkout agent asking its next question. *)
Lemma location_handoff_returns_to_checkout_witness :
  (let back := Workflow.run_node Workflow.checkout_node Scenario.fresh_world
                 Scenario.at_checkout Scenario.back_to_location in
   let waiting := Workflow.location_turns back.1
                    [(Scenario.fresh_world, Scenario.ask_district)] in
   let forth := Workflow.run_node Workflow.location_node Scenario.fresh_world
                  waiting Scenario.location_done in
   back.2 = Some Workflow.location_node /\
   Workflow.came_from_checkout back.1 = true /\
   Workflow.current_agent waiting = Workflow.location /\
   Workflow.came_from_checkout waiting = true /\
   Workflow.current_agent forth.1 = Workflow.checkout /\
   forth.2 = Some Workflow.checkout_node /\
   Workflow.came_from_checkout forth.1 = false /\
   Workflow.came_from_order forth.1 = false) /\
  Workflow.current_agent <$>
    Workflow.invoke 25 Scenario.at_checkout
      [(Scenario.fresh_world, Scenario.back_to_location);
       (Scenario.fresh_world, Scenario.location_done);
       (Scenario.fresh_world, Scenario.ask_promo)] = Some Workflow.checkout.
Proof.
  split.
  - exact (proj2 location_handoff_returns_to_checkout
             Scenario.fresh_world Scenario.fresh_world Scenario.at_checkout
             Scenario.back_to_location Scenario.location_done
             [(Scenario.fresh_world, Scenario.ask_district)] _ _
             eq_refl eq_refl
             ltac:(constructor; [vm_compute; reflexivity | constructor])
             eq_refl (or_introl eq_refl)).
  - reflexivity.
Defined.

(** ** Delivery coverage *)

Section CoverageFacts.
Import LocationTools.

Lemma all_districts_both_spellings :
  Forall both_spellings_covered COVERED_DISTRICTS.
Proof.
  unfold COVERED_DISTRICTS.
  repeat (constructor;
          [unfold both_spellings_covered; vm_compute; repeat split; auto |]).
  constructor.
Qed.

Lemma covered_when_found (areas : list Coverage.AreaRow)
    (search : string -> list Coverage.AreaRow) (q : string) (row : Coverage.AreaRow) :
  Coverage.find_area_by_name areas
    (Unicode.py_strip (ArabicUtils.normalize_area_name q)) = Some row ->
  Coverage.is_covered (Coverage.coverage_check areas search q) = true /\
  Coverage.covered_area_id (Coverage.coverage_check areas search q)
    = Some (Coverage.area_id row).
Proof.
  intros H. unfold Coverage.coverage_check, Coverage.check_coverage.
  rewrite H. simpl. auto.
Qed.

(** The normalisation turns teh marbuta into heh while the stored names and
    aliases keep it: the seeded districts spelt with it are not matched under
    any of their spellings. *)
Lemma teh_marbuta_district_is_not_matched
    (search : string -> list Coverage.AreaRow) :
  ArabicUtils.normalize_area_name "حي الصحافة" = "الصحافه" /\
  Coverage.is_covered
    (Coverage.coverage_check Scenario.seeded_areas search "حي الصحافة") = false /\
  Coverage.is_covered
    (Coverage.coverage_check Scenario.seeded_areas search "الصحافة") = false /\
  Coverage.is_covered
    (Coverage.coverage_check Scenario.seeded_areas search "صحافة") = false.
Proof.
  split; [reflexivity |].
  unfold Coverage.coverage_check, Coverage.check_coverage.
  repeat split;
    match goal with
    | |- context [Coverage.find_area_by_name ?a ?n] =>
        replace (Coverage.find_area_by_name a n) with (@None Coverage.AreaRow)
          by (vm_compute; reflexivity)
    end; by destruct (search _).
Qed.

End CoverageFacts.

(** C9 (as amended).  [check_delivery_district] only trims the query: every
    district of its dictionary is answered covered=true, with the same fee and
    time, for its name with the prefix "حي " and for its name without it,
    while the name without the definite article ("نرجس") is answered
    covered=false with the two spellings of the district as suggestions.  The
    normalising lookup ([normalize_area_name], then a match on name or alias)
    answers covered whenever the normalised query is a name or alias of an
    active area; it maps "حي النرجس" and "النرجس" to "النرجس" and leaves "نرجس"
    as it is, and over the seeded areas all three spellings are covered by the
    same area. *)
Theorem coverage_by_prefix_and_alias :
  (forall e : string * LocationTools.DistrictInfo,
     e ∈ LocationTools.COVERED_DISTRICTS ->
     LocationTools.both_spellings_covered e) /\
  (LocationTools.covered (LocationTools.check_delivery_district "نرجس") = false /\
   LocationTools.suggestions (LocationTools.check_delivery_district "نرجس")
     = Some ["حي النرجس"; "النرجس"]) /\
  (forall (areas : list Coverage.AreaRow)
          (search : string -> list Coverage.AreaRow) (q : string)
          (row : Coverage.AreaRow),
     Coverage.find_area_by_name areas
       (Unicode.py_strip (ArabicUtils.normalize_area_name q)) = Some row ->
     Coverage.is_covered (Coverage.coverage_check areas search q) = true /\
     Coverage.covered_area_id (Coverage.coverage_check areas search q)
       = Some (Coverage.area_id row)) /\
  (ArabicUtils.normalize_area_name "حي النرجس" = "النرجس" /\
   ArabicUtils.normalize_area_name "النرجس" = "النرجس" /\
   ArabicUtils.normalize_area_name "  حي  النَّرجس " = "النرجس" /\
   ArabicUtils.normalize_area_name "نرجس" = "نرجس") /\
  (forall search : string -> list Coverage.AreaRow,
     Coverage.covered_area_id
       (Coverage.coverage_check Scenario.seeded_areas search "حي النرجس") = Some 1%Z /\
     Coverage.covered_area_id
       (Coverage.coverage_check Scenario.seeded_areas search "النرجس") = Some 1%Z /\
     Coverage.covered_area_id
       (Coverage.coverage_check Scenario.seeded_areas search "نرجس") = Some 1%Z).
Proof.
  split; [| split; [| split; [| split]]].
  - intros e He. exact (proj1 (Forall_forall _ _) all_districts_both_spellings e He).
  - split; reflexivity.
  - exact covered_when_found.
  - repeat split; reflexivity.
  - intros search. repeat split;
      (eapply covered_when_found with (row := Scenario.area 1 _ _ _)); reflexivity.
Qed.

(** C9 at the first entry of the dictionary. *)
Lemma coverage_by_prefix_and_alias_witness :
  LocationTools.both_spellings_covered
    ("حي النرجس", LocationTools.info 15 "30-45 دقيقة").
Proof.
  apply (proj1 coverage_by_prefix_and_alias).
  apply list_elem_of_here.
Defined.

(** C9 as stated fails: the district is covered under its two dictionary
    spellings, but the name without the definite article is not. *)
Lemma bare_district_name_is_not_covered :
  LocationTools.covered (LocationTools.check_delivery_district "حي النرجس") = true /\
  LocationTools.covered (LocationTools.check_delivery_district "النرجس") = true /\
  LocationTools.covered (LocationTools.check_delivery_district "نرجس") <> true.
Proof. repeat split; try reflexivity. vm_compute. discriminate. Qed.

(** * Properties of the tools, the turns and the utilities *)

(** ** The cart tools: line totals, totals reported, sessions *)

Section CartToolFacts.
Import Store OrderTools CartInvariant.

Lemma sum_line_total_acc (l : list OrderLine) (a : Q) :
  (fold_left (fun acc l => acc + line_total l) l a == a + sum_line_total l)%Q.
Proof.
  unfold sum_line_total. revert a.
  induction l as [| x l IH]; intros a; simpl.
  - ring.
  - rewrite (IH (a + line_total x)%Q), (IH (0 + line_total x)%Q). ring.
Qed.

Lemma sum_line_total_cons (x : OrderLine) (l : list OrderLine) :
  (sum_line_total (x :: l) == line_total x + sum_line_total l)%Q.
Proof.
  unfold sum_line_total at 1. simpl. rewrite sum_line_total_acc. ring.
Qed.

Lemma sum_line_total_app (l1 l2 : list OrderLine) :
  (sum_line_total (l1 ++ l2) == sum_line_total l1 + sum_line_total l2)%Q.
Proof.
  induction l1 as [| x l1 IH].
  - simpl. unfold sum_line_total at 2. simpl. ring.
  - change ((x :: l1) ++ l2) with (x :: (l1 ++ l2)).
    rewrite !sum_line_total_cons, IH. ring.
Qed.

Lemma sum_quantity_acc (l : list OrderLine) (a : Z) :
  fold_left (fun acc l => acc + quantity l)%Z l a = (a + sum_quantity l)%Z.
Proof.
  unfold sum_quantity. revert a.
  induction l as [| x l IH]; intros a; simpl.
  - lia.
  - rewrite (IH (a + quantity x)%Z), (IH (0 + quantity x)%Z). lia.
Qed.

Lemma sum_quantity_cons (x : OrderLine) (l : list OrderLine) :
  sum_quantity (x :: l) = (quantity x + sum_quantity l)%Z.
Proof.
  unfold sum_quantity at 1. simpl. rewrite sum_quantity_acc. lia.
Qed.

Lemma sum_quantity_app (l1 l2 : list OrderLine) :
  sum_quantity (l1 ++ l2) = (sum_quantity l1 + sum_quantity l2)%Z.
Proof.
  induction l1 as [| x l1 IH].
  - reflexivity.
  - change ((x :: l1) ++ l2) with (x :: (l1 ++ l2)).
    rewrite !sum_quantity_cons, IH. lia.
Qed.

Lemma sum_line_total_alter (f : OrderLine -> OrderLine) (l : list OrderLine)
    (i : nat) (x : OrderLine) :
  l !! i = Some x ->
  (sum_line_total (alter f i l)
   == sum_line_total l - line_total x + line_total (f x))%Q.
Proof.
  revert i. induction l as [| y l IH]; intros i H; [done |].
  destruct i as [| i]; simpl in H.
  - injection H as ->. simpl. rewrite !sum_line_total_cons. ring.
  - change (alter f (S i) (y :: l)) with (y :: alter f i l).
    rewrite !sum_line_total_cons, (IH i H). ring.
Qed.

Lemma sum_quantity_alter (f : OrderLine -> OrderLine) (l : list OrderLine)
    (i : nat) (x : OrderLine) :
  l !! i = Some x ->
  sum_quantity (alter f i l)
  = (sum_quantity l - quantity x + quantity (f x))%Z.
Proof.
  revert i. induction l as [| y l IH]; intros i H; [done |].
  destruct i as [| i]; simpl in H.
  - injection H as ->. simpl. rewrite !sum_quantity_cons. lia.
  - change (alter f (S i) (y :: l)) with (y :: alter f i l).
    rewrite !sum_quantity_cons, (IH i H). lia.
Qed.

Lemma cart_consistent_alter (f : OrderLine -> OrderLine) (i : nat)
    (c : list OrderLine) :
  (forall l, line_consistent l -> line_consistent (f l)) ->
  cart_consistent c -> cart_consistent (alter f i c).
Proof.
  intros Hf Hc. revert i.
  induction Hc as [| x c Hx Hc IH]; intros i; [constructor |].
  destruct i as [| i]; simpl; constructor; auto. apply IH.
Qed.

Lemma cart_consistent_delete (i : nat) (c : list OrderLine) :
  cart_consistent c -> cart_consistent (delete i c).
Proof.
  intros Hc. revert i.
  induction Hc as [| x c Hx Hc IH]; intros i; [constructor |].
  destruct i as [| i]; simpl; [assumption | constructor; auto]. apply IH.
Qed.

Lemma cart_consistent_filter (p : OrderLine -> bool) (c : list OrderLine) :
  cart_consistent c -> cart_consistent (List.filter p c).
Proof.
  intros Hc. induction Hc as [| x c Hx Hc IH]; simpl; [constructor |].
  destruct (p x); [constructor |]; auto.
Qed.

Lemma cart_consistent_snoc (c : list OrderLine) (x : OrderLine) :
  cart_consistent c -> line_consistent x -> cart_consistent (c ++ [x]).
Proof.
  intros Hc Hx. induction Hc as [| y c Hy Hc IH]; simpl.
  - constructor; [assumption | constructor].
  - constructor; assumption.
Qed.

Lemma merge_quantity_consistent (q : Z) (l : OrderLine) :
  line_consistent (merge_quantity q l).
Proof. unfold line_consistent. simpl. reflexivity. Qed.

Lemma set_quantity_consistent (q : Z) (l : OrderLine) :
  line_consistent (set_quantity q l).
Proof. unfold line_consistent. simpl. reflexivity. Qed.

Lemma set_notes_consistent (n : string) (l : OrderLine) :
  line_consistent l -> line_consistent (set_notes n l).
Proof. unfold line_consistent. simpl. auto. Qed.

Lemma add_to_order_cart (w : World) (id sid nts : string) (qty : Z) :
  get_session_order (add_to_order w id qty nts sid).2 sid =
  match menu_cache w !! id with
  | Some item =>
      if default true (menu_available item)
      then cart_after_add (get_session_order w sid) id item qty nts
      else get_session_order w sid
  | None => get_session_order w sid
  end.
Proof.
  unfold add_to_order. destruct (menu_cache w !! id) as [item |]; [| done].
  destruct (default true (menu_available item)); simpl; [| done].
  rewrite get_set_session_order. reflexivity.
Qed.

Lemma cart_after_add_consistent (c : list OrderLine) (id : string)
    (item : MenuItem) (qty : Z) (nts : string) :
  cart_consistent c -> cart_consistent (cart_after_add c id item qty nts).
Proof.
  intros Hc. unfold cart_after_add.
  destruct (find_idx (same_line id nts) c).
  - apply cart_consistent_alter; [| assumption].
    intros l _. apply merge_quantity_consistent.
  - apply cart_consistent_snoc; [assumption |].
    unfold line_consistent. simpl. reflexivity.
Qed.

Lemma alter_out_of_range {A : Type} (f : A -> A) (l : list A) (i : nat) :
  l !! i = None -> alter f i l = l.
Proof.
  revert i. induction l as [| x l IH]; intros i H; [done |].
  destruct i as [| i]; [done |]. simpl. f_equal. by apply IH.
Qed.

Lemma update_order_item_cart (w : World) (id sid : string) (qty : option Z)
    (nts : option string) :
  let c := get_session_order w sid in
  get_session_order (update_order_item w id qty nts sid).2 sid =
  match find_idx (same_item id) c with
  | None => c
  | Some idx =>
      let c1 := match qty with
                | None => c
                | Some q => if (q <=? 0)%Z then delete idx c
                            else alter (set_quantity q) idx c
                end in
      match nts with
      | None => c1
      | Some n => alter (set_notes n) idx c1
      end
  end.
Proof.
  intros c. subst c. unfold update_order_item.
  destruct (find_idx (same_item id) (get_session_order w sid)) as [idx |]; [| done].
  destruct qty as [q |].
  - destruct (q <=? 0)%Z.
    + destruct nts as [n |]; cbn [fst snd].
      * destruct (delete idx (get_session_order w sid) !! idx) eqn:E; cbn [fst snd].
        -- rewrite get_set_session_order. reflexivity.
        -- rewrite get_set_session_order.
           symmetry. by apply alter_out_of_range.
      * by rewrite get_set_session_order.
    + destruct nts as [n |]; cbn [fst snd].
      * destruct (alter (set_quantity q) idx (get_session_order w sid) !! idx) eqn:E;
          cbn [fst snd].
        -- rewrite get_set_session_order. reflexivity.
        -- rewrite get_set_session_order.
           symmetry. by apply alter_out_of_range.
      * by rewrite get_set_session_order.
  - destruct nts as [n |]; cbn [fst snd].
    + destruct (get_session_order w sid !! idx) eqn:E; cbn [fst snd].
      * rewrite get_set_session_order. reflexivity.
      * symmetry. by apply alter_out_of_range.
    + reflexivity.
Qed.

Lemma filter_length_eq {A : Type} (p : A -> bool) (l : list A) :
  List.length (List.filter p l) = List.length l -> List.filter p l = l.
Proof.
  induction l as [| x l IH]; simpl; [done |].
  destruct (p x); simpl.
  - intros H. f_equal. apply IH. lia.
  - intros H. pose proof (List.filter_length_le p l). lia.
Qed.

Lemma remove_from_order_cart (w : World) (id sid : string) :
  get_session_order (remove_from_order w id sid).2 sid =
  List.filter (fun l => negb (same_item id l)) (get_session_order w sid).
Proof.
  unfold remove_from_order.
  destruct (_ =? _)%nat eqn:E; cbn [fst snd].
  - symmetry. apply filter_length_eq. by apply Nat.eqb_eq.
  - by rewrite get_set_session_order.
Qed.

Lemma same_outside_refl (sid : string) (w : World) : same_outside sid w w.
Proof. unfold same_outside. auto. Qed.

Lemma same_outside_set (sid : string) (c : list OrderLine) (w : World) :
  same_outside sid w (set_session_order sid c w).
Proof.
  unfold same_outside, set_session_order. simpl.
  repeat split; auto. intros other Ho. by rewrite lookup_insert_ne.
Qed.

Lemma same_outside_trans (sid : string) (w1 w2 w3 : World) :
  same_outside sid w1 w2 -> same_outside sid w2 w3 -> same_outside sid w1 w3.
Proof.
  unfold same_outside. intros (A1 & A2 & A3 & A4 & A5) (B1 & B2 & B3 & B4 & B5).
  repeat split; try congruence.
  intros other Ho. rewrite (B1 other Ho). auto.
Qed.

End CartToolFacts.

(** X1. On a cart in which every line has line_total = price * quantity, each of
    add_to_order, update_order_item and remove_from_order, with any arguments,
    leaves a cart in which every line still has it. *)
Theorem order_tools_keep_line_totals
    (w : Store.World) (sid : string) :
  CartInvariant.cart_consistent (OrderTools.get_session_order w sid) ->
  (forall (id nts : string) (qty : Z),
     CartInvariant.cart_consistent
       (OrderTools.get_session_order (OrderTools.add_to_order w id qty nts sid).2 sid)) /\
  (forall (id : string) (qty : option Z) (nts : option string),
     CartInvariant.cart_consistent
       (OrderTools.get_session_order
          (OrderTools.update_order_item w id qty nts sid).2 sid)) /\
  (forall id : string,
     CartInvariant.cart_consistent
       (OrderTools.get_session_order (OrderTools.remove_from_order w id sid).2 sid)).
Proof.
  intros Hc. split; [| split].
  - intros id nts qty. rewrite add_to_order_cart.
    destruct (Store.menu_cache w !! id) as [item |]; [| assumption].
    destruct (default true (Store.menu_available item)); [| assumption].
    by apply cart_after_add_consistent.
  - intros id qty nts. rewrite update_order_item_cart. cbv zeta.
    destruct (OrderTools.find_idx _ _) as [idx |]; [| assumption].
    assert (H1 : CartInvariant.cart_consistent
                   match qty with
                   | Some q => if (q <=? 0)%Z
                               then delete idx (OrderTools.get_session_order w sid)
                               else alter (OrderTools.set_quantity q) idx
                                      (OrderTools.get_session_order w sid)
                   | None => OrderTools.get_session_order w sid
                   end).
    { destruct qty as [q |]; [| assumption].
      destruct (q <=? 0)%Z.
      - by apply cart_consistent_delete.
      - apply cart_consistent_alter; [| assumption].
        intros l _. apply set_quantity_consistent. }
    destruct nts as [n |]; [| assumption].
    apply cart_consistent_alter; [| assumption].
    intros l. apply set_notes_consistent.
  - intros id. rewrite remove_from_order_cart. by apply cart_consistent_filter.
Qed.

Lemma order_tools_keep_line_totals_witness :
  CartInvariant.cart_consistent
    (OrderTools.get_session_order
       (OrderTools.update_order_item
          (Scenario.world_with_cart [Scenario.burger_line 1 ""; Scenario.fries_line 2 ""])
          "1" (Some 0%Z) (Some "حار") "default").2 "default").
Proof.
  apply (proj1 (proj2 (order_tools_keep_line_totals
                         (Scenario.world_with_cart
                            [Scenario.burger_line 1 ""; Scenario.fries_line 2 ""])
                         "default"
                         ltac:(repeat constructor)))).
Defined.

Section CartToolFacts2.
Import Store OrderTools CartInvariant.

Lemma add_success_iff (w : World) (id sid nts : string) (qty : Z) :
  add_success (add_to_order w id qty nts sid).1 = true <->
  exists item, menu_cache w !! id = Some item /\ menu_available item <> Some false.
Proof.
  unfold add_to_order. destruct (menu_cache w !! id) as [item |].
  - destruct (menu_available item) as [[|] |] eqn:E; simpl; split;
      try discriminate; try reflexivity;
      try (intros _; exists item; split; [reflexivity | rewrite E; discriminate]).
    intros (i & Hi & H). injection Hi as <-. by destruct H.
  - simpl. split; [discriminate | intros (i & H & _); discriminate].
Qed.

Lemma add_failure_unchanged (w : World) (id sid nts : string) (qty : Z) :
  add_success (add_to_order w id qty nts sid).1 = false ->
  (add_to_order w id qty nts sid).2 = w.
Proof.
  unfold add_to_order. destruct (menu_cache w !! id) as [item |]; [| done].
  destruct (negb _); [done | discriminate].
Qed.

Lemma add_same_outside (w : World) (id sid nts : string) (qty : Z) :
  same_outside sid w (add_to_order w id qty nts sid).2.
Proof.
  unfold add_to_order. destruct (menu_cache w !! id) as [item |];
    [| apply same_outside_refl].
  destruct (negb _); [apply same_outside_refl | apply same_outside_set].
Qed.

Lemma update_same_outside (w : World) (id sid : string) (qty : option Z)
    (nts : option string) :
  same_outside sid w (update_order_item w id qty nts sid).2.
Proof.
  unfold update_order_item.
  destruct (find_idx _ _) as [idx |]; [| apply same_outside_refl].
  destruct qty as [q |]; [destruct (q <=? 0)%Z |]; destruct nts as [n |];
    cbn [fst snd];
    try match goal with
        | |- context [match ?l !! ?i with _ => _ end] => destruct (l !! i)
        end; cbn [fst snd];
    repeat first
      [ apply same_outside_refl
      | apply same_outside_set
      | eapply same_outside_trans; [apply same_outside_set |] ].
Qed.

Lemma remove_same_outside (w : World) (id sid : string) :
  same_outside sid w (remove_from_order w id sid).2.
Proof.
  unfold remove_from_order. destruct (_ =? _)%nat; cbn [fst snd];
    [apply same_outside_refl | apply same_outside_set].
Qed.

End CartToolFacts2.

(** X2. add_to_order succeeds exactly when the item id is in the menu and the
    item is not marked unavailable.  When it fails no store is changed; when
    it succeeds the session's cart is not empty and holds a line with that
    item id and those notes. *)
Theorem add_to_order_rejects_without_effect
    (w : Store.World) (id nts sid : string) (qty : Z) :
  let out := OrderTools.add_to_order w id qty nts sid in
  (OrderTools.add_success out.1 = true <->
   exists item, Store.menu_cache w !! id = Some item /\
                Store.menu_available item <> Some false) /\
  (OrderTools.add_success out.1 = false -> out.2 = w) /\
  (OrderTools.add_success out.1 = true ->
   OrderTools.get_session_order out.2 sid <> [] /\
   exists l, l ∈ OrderTools.get_session_order out.2 sid /\
             Store.item_id l = id /\ Store.notes l = nts).
Proof.
  cbv zeta. split; [apply add_success_iff | split; [apply add_failure_unchanged |]].
  intros Hs. apply add_success_iff in Hs. destruct Hs as (item & Hi & Ha).
  rewrite add_to_order_cart, Hi.
  assert (Hav : default true (Store.menu_available item) = true).
  { destruct (Store.menu_available item) as [[|] |]; auto; by destruct Ha. }
  rewrite Hav. unfold OrderTools.cart_after_add.
  destruct (OrderTools.find_idx _ _) as [idx |] eqn:E.
  - destruct (find_idx_Some_lookup _ _ _ E) as (x & Hx & Hp & _).
    unfold OrderTools.same_line in Hp.
    apply andb_true_iff in Hp. destruct Hp as (H1 & H2).
    apply String.eqb_eq in H1. apply String.eqb_eq in H2.
    assert (Hl : alter (OrderTools.merge_quantity qty) idx
                   (OrderTools.get_session_order w sid) !! idx
                 = Some (OrderTools.merge_quantity qty x)).
    { rewrite list_lookup_alter_eq, Hx. reflexivity. }
    split.
    + intros Hnil. rewrite Hnil in Hl. discriminate.
    + exists (OrderTools.merge_quantity qty x). split; [| split; assumption].
      eapply list_elem_of_lookup_2. exact Hl.
  - split.
    + intros Hnil. by destruct (OrderTools.get_session_order w sid).
    + eexists. split; [apply elem_of_app; right; apply list_elem_of_here |].
      split; reflexivity.
Qed.

(** X3. For an available menu item and a cart with consistent line totals, the
    current_total and items_count that add_to_order returns are the sums over
    the cart it stored; items_count grew by the quantity added, and the total
    grew by quantity * the menu price when a line was appended, or by
    quantity * the price of the existing line when the quantity was merged
    into it. *)
Theorem add_to_order_reports_cart_totals
    (w : Store.World) (id nts sid : string) (qty : Z) (item : Store.MenuItem) :
  Store.menu_cache w !! id = Some item ->
  Store.menu_available item <> Some false ->
  CartInvariant.cart_consistent (OrderTools.get_session_order w sid) ->
  let cart := OrderTools.get_session_order w sid in
  let out := OrderTools.add_to_order w id qty nts sid in
  let cart' := OrderTools.get_session_order out.2 sid in
  exists (line : Store.OrderLine) (total : Q) (count : Z) (msg : Text),
    out.1 = OrderTools.AddSuccess line total count msg /\
    total = OrderTools.sum_line_total cart' /\
    count = OrderTools.sum_quantity cart' /\
    count = (OrderTools.sum_quantity cart + qty)%Z /\
    (OrderTools.find_idx (OrderTools.same_line id nts) cart = None ->
     (total == OrderTools.sum_line_total cart
               + Store.menu_price item * inject_Z qty)%Q) /\
    (forall (idx : nat) (l : Store.OrderLine),
       OrderTools.find_idx (OrderTools.same_line id nts) cart = Some idx ->
       cart !! idx = Some l ->
       (total == OrderTools.sum_line_total cart
                 + Store.price l * inject_Z qty)%Q).
Proof.
  intros Hi Ha Hc. cbv zeta.
  assert (Hav : default true (Store.menu_available item) = true).
  { destruct (Store.menu_available item) as [[|] |]; auto; by destruct Ha. }
  rewrite add_to_order_cart, Hi, Hav.
  unfold OrderTools.add_to_order. rewrite Hi, Hav. cbn [negb fst snd].
  fold (OrderTools.cart_after_add (OrderTools.get_session_order w sid) id item qty nts).
  do 4 eexists. split; [reflexivity |]. split; [reflexivity |].
  split; [reflexivity |].
  unfold OrderTools.cart_after_add.
  destruct (OrderTools.find_idx _ _) as [idx |] eqn:E.
  - destruct (find_idx_Some_lookup _ _ _ E) as (x & Hx & _).
    split; [| split; [discriminate |]].
    + rewrite (sum_quantity_alter _ _ _ _ Hx). simpl. lia.
    + intros idx' l [= <-] Hl. rewrite Hx in Hl. injection Hl as <-.
      rewrite (sum_line_total_alter _ _ _ _ Hx). simpl.
      assert (Hcx : CartInvariant.line_consistent x).
      { eapply (proj1 (List.Forall_forall _ _) Hc).
        apply list_elem_of_In. eapply list_elem_of_lookup_2. exact Hx. }
      unfold CartInvariant.line_consistent in Hcx. rewrite Hcx.
      rewrite inject_Z_plus. ring.
  - split; [| split; [| discriminate]].
    + rewrite sum_quantity_app. unfold OrderTools.sum_quantity at 2. simpl. lia.
    + intros _. rewrite sum_line_total_app.
      unfold OrderTools.sum_line_total at 2. simpl. ring.
Qed.

Lemma add_to_order_reports_cart_totals_witness :
  exists (line : Store.OrderLine) (total : Q) (count : Z) (msg : Text),
    (OrderTools.add_to_order (Scenario.world_with_cart [Scenario.burger_line 2 ""])
       "1" 3 "" "default").1 = OrderTools.AddSuccess line total count msg /\
    count = 5%Z /\ (total == 125)%Q.
Proof.
  destruct (add_to_order_reports_cart_totals
              (Scenario.world_with_cart [Scenario.burger_line 2 ""])
              "1" "" "default" 3 Scenario.burger eq_refl
              ltac:(discriminate) ltac:(repeat constructor))
    as (line & total & count & msg & H1 & _ & _ & H4 & _ & H6).
  exists line, total, count, msg. split; [exact H1 |]. split; [exact H4 |].
  rewrite (H6 0%nat (Scenario.burger_line 2 "") eq_refl eq_refl). reflexivity.
Defined.

(** X4. remove_from_order keeps exactly the lines whose item id differs from the
    argument, in their order: every line of the item goes, not only the
    first.  It succeeds exactly when some line had the id, and then reports
    the subtotal of the cart that remains; when it fails nothing is changed. *)
Theorem remove_from_order_removes_every_line
    (w : Store.World) (id sid : string) :
  let out := OrderTools.remove_from_order w id sid in
  let cart := OrderTools.get_session_order w sid in
  let cart' := OrderTools.get_session_order out.2 sid in
  (forall l, l ∈ cart' <-> l ∈ cart /\ Store.item_id l <> id) /\
  cart' `sublist_of` cart /\
  match out.1 with
  | OrderTools.RemoveSuccess new_subtotal _ =>
      (exists l, l ∈ cart /\ Store.item_id l = id) /\
      new_subtotal = OrderTools.sum_line_total cart'
  | OrderTools.RemoveFailure _ =>
      (forall l, l ∈ cart -> Store.item_id l <> id) /\ out.2 = w
  end.
Proof.
  cbv zeta. rewrite remove_from_order_cart.
  set (cart := OrderTools.get_session_order w sid).
  set (keep := fun l : Store.OrderLine => negb (OrderTools.same_item id l)).
  assert (Hkeep : forall l, keep l = true <-> Store.item_id l <> id).
  { intros l. unfold keep, OrderTools.same_item.
    destruct (String.eqb_spec (Store.item_id l) id); simpl; split; congruence. }
  split; [| split].
  - intros l. rewrite !list_elem_of_In, List.filter_In, Hkeep. tauto.
  - clearbody cart. induction cart as [| x c IH]; simpl; [constructor |].
    destruct (keep x); [by apply sublist_skip | by apply sublist_cons].
  - unfold OrderTools.remove_from_order. fold cart. fold keep.
    destruct (_ =? _)%nat eqn:E; cbn [fst snd].
    + split; [| reflexivity].
      apply Nat.eqb_eq, filter_length_eq in E.
      intros l Hl. apply Hkeep.
      rewrite <- E in Hl. apply list_elem_of_In, List.filter_In in Hl. tauto.
    + split; [| reflexivity].
      apply Nat.eqb_neq in E.
      assert (Hex : exists l, In l cart /\ keep l = false).
      { clearbody cart. clear -E. induction cart as [| x c IH]; [done |].
        simpl in E. destruct (keep x) eqn:K.
        - destruct IH as (l & Hl & Hk); [simpl in E; lia |].
          exists l. split; [by right | assumption].
        - exists x. split; [by left | assumption]. }
      destruct Hex as (l & Hl & Hk). exists l.
      split; [by apply list_elem_of_In |].
      destruct (String.eqb_spec (Store.item_id l) id) as [-> | Hne]; [done |].
      apply Hkeep in Hne. congruence.
Qed.

(** X5. update_order_item on an item the cart does not hold returns
    success=false and changes nothing.  When the cart holds the item and the
    call gives a positive quantity, or notes without a quantity, the call
    succeeds and alters only the first line with that id: the cart keeps its
    length and every other line; the line keeps its id, name and price, takes
    the new quantity and notes where given, and its line_total becomes
    price * quantity when a quantity is given. *)
Theorem update_order_item_touches_first_match_only
    (w : Store.World) (id sid : string) (qty : option Z) (nts : option string) :
  let cart := OrderTools.get_session_order w sid in
  let out := OrderTools.update_order_item w id qty nts sid in
  let cart' := OrderTools.get_session_order out.2 sid in
  (OrderTools.find_idx (OrderTools.same_item id) cart = None ->
   (forall l, l ∈ cart -> Store.item_id l <> id) /\
   (exists r, out.1 = Store.Returned r /\ OrderTools.upd_success r = false) /\
   out.2 = w) /\
  (forall idx : nat,
     OrderTools.find_idx (OrderTools.same_item id) cart = Some idx ->
     match qty with
     | Some q => (0 < q)%Z
     | None => nts <> None
     end ->
     (exists r, out.1 = Store.Returned r /\ OrderTools.upd_success r = true) /\
     List.length cart' = List.length cart /\
     (forall j : nat, j <> idx -> cart' !! j = cart !! j) /\
     exists l l' : Store.OrderLine,
       cart !! idx = Some l /\ cart' !! idx = Some l' /\
       Store.item_id l = id /\
       (forall (j : nat) (x : Store.OrderLine),
          (j < idx)%nat -> cart !! j = Some x -> Store.item_id x <> id) /\
       Store.item_id l' = id /\ Store.name_ar l' = Store.name_ar l /\
       Store.price l' = Store.price l /\
       Store.quantity l' = default (Store.quantity l) qty /\
       Store.notes l' = default (Store.notes l) nts /\
       Store.line_total l' =
         match qty with
         | Some q => (Store.price l * inject_Z q)%Q
         | None => Store.line_total l
         end).
Proof.
  cbv zeta. split.
  - intros Hn. split; [| unfold OrderTools.update_order_item; rewrite Hn; eauto].
    intros l Hl Hid. apply list_elem_of_In in Hl.
    revert Hn Hl. generalize (OrderTools.get_session_order w sid).
    intros c. induction c as [| x c IH]; simpl; [tauto |].
    destruct (OrderTools.same_item id x) eqn:E; [discriminate |].
    destruct (OrderTools.find_idx _ c); [discriminate |].
    intros _ [-> | Hl]; [| by apply IH].
    unfold OrderTools.same_item in E. apply String.eqb_neq in E. congruence.
  - intros idx Hf Hq.
    destruct (update_order_item_frame w id sid qty nts idx Hf Hq) as (r & Hr & Hs & Hc).
    rewrite Hc.
    destruct (find_idx_Some_lookup _ _ _ Hf) as (l & Hl & Hp & Hfirst).
    unfold OrderTools.same_item in Hp. apply String.eqb_eq in Hp.
    split; [eauto |]. split; [apply length_alter |].
    split; [intros j Hj; by apply list_lookup_alter_ne |].
    eexists l, _. split; [exact Hl |].
    split; [rewrite list_lookup_alter_eq, Hl; reflexivity |].
    split; [exact Hp |]. split.
    { intros j x Hj Hx Hid. specialize (Hfirst j x Hj Hx).
      unfold OrderTools.same_item in Hfirst. apply String.eqb_neq in Hfirst.
      congruence. }
    destruct qty as [q |], nts as [n |]; simpl; auto 10.
Qed.

Lemma update_order_item_touches_first_match_only_witness :
  OrderTools.get_session_order
    (OrderTools.update_order_item
       (Scenario.world_with_cart
          [Scenario.fries_line 1 ""; Scenario.burger_line 1 ""; Scenario.burger_line 2 "حار"])
       "1" (Some 4%Z) None "default").2 "default" !! 2%nat
  = Some (Scenario.burger_line 2 "حار").
Proof.
  pose proof (proj2 (update_order_item_touches_first_match_only
                       (Scenario.world_with_cart
                          [Scenario.fries_line 1 ""; Scenario.burger_line 1 "";
                           Scenario.burger_line 2 "حار"])
                       "1" "default" (Some 4%Z) None) 1%nat eq_refl eq_refl) as H.
  destruct H as (_ & _ & H & _).
  rewrite (H 2%nat ltac:(discriminate)). reflexivity.
Defined.

(** X6. add_to_order, update_order_item and remove_from_order called for one
    session leave the carts of all other sessions, the menu, the confirmed
    orders, the order type store and the database as they were;
    confirm_order leaves the carts of the other sessions, the menu and the
    order type store as they were. *)
Theorem cart_tools_touch_only_their_session
    (w : Store.World) (sid : string) :
  (forall (id nts : string) (qty : Z),
     CartInvariant.same_outside sid w (OrderTools.add_to_order w id qty nts sid).2) /\
  (forall (id : string) (qty : option Z) (nts : option string),
     CartInvariant.same_outside sid w
       (OrderTools.update_order_item w id qty nts sid).2) /\
  (forall id : string,
     CartInvariant.same_outside sid w (OrderTools.remove_from_order w id sid).2) /\
  (forall (env : CheckoutTools.Env) (name phone district : string)
          (fee discount : Q) (otype nts other : string),
     other <> sid ->
     let w' := (CheckoutTools.confirm_order w env sid name phone district fee
                  discount otype nts).2 in
     OrderTools.get_session_order w' other = OrderTools.get_session_order w other /\
     Store.menu_cache w' = Store.menu_cache w /\
     Store.order_type_store w' = Store.order_type_store w).
Proof.
  split; [| split; [| split]].
  - intros. apply add_same_outside.
  - intros. apply update_same_outside.
  - intros. apply remove_same_outside.
  - intros env name phone district fee discount otype nts other Ho. cbv zeta.
    unfold CheckoutTools.confirm_order.
    destruct (OrderTools.get_session_order w sid) as [| x c]; [auto |].
    destruct (negb (str_truthy name)); [auto |].
    destruct (negb (str_truthy phone)); [auto |].
    destruct (CheckoutTools.save_order_to_database_sync _ _ _ _ _ _ _ _ _ _ _ _ _ _)
      as [saved db'].
    cbn [snd]. unfold OrderTools.get_session_order, OrderTools.clear_session_order.
    simpl. rewrite lookup_delete_ne by congruence. auto.
Qed.

(** ** Totals, confirmed orders and promo usage *)

Section TotalsFacts.
Import Store OrderTools CheckoutTools.
Local Open Scope Q_scope.

Lemma Qgt_bool_true (a b : Q) : Qgt_bool a b = true <-> b < a.
Proof.
  unfold Qgt_bool. rewrite negb_true_iff. split.
  - intros H. apply Qnot_le_lt. intros Hle. apply Qle_bool_iff in Hle. congruence.
  - intros H. destruct (Qle_bool a b) eqn:E; [| done].
    apply Qle_bool_iff in E. exfalso. exact (Qlt_not_le _ _ H E).
Qed.

Lemma Qmin_le_l (a b : Q) : Qmin a b <= a.
Proof. apply Q.le_min_l. Qed.

Lemma Qmin_le_r (a b : Q) : Qmin a b <= b.
Proof. apply Q.le_min_r. Qed.

Lemma Qmin_nonneg (a b : Q) : 0 <= a -> 0 <= b -> 0 <= Qmin a b.
Proof. intros. by apply Q.min_glb. Qed.

(** The discount of [calculate_total], on its own. *)
Lemma calculate_total_discount (w : World) (sid : string) (fee : Q)
    (promo : option string) (t : Totals) :
  calculate_total w sid fee promo = CalcSuccess t ->
  tot_subtotal t = sum_line_total (get_session_order w sid) /\
  tot_delivery_fee t = fee /\
  tot_total t = tot_subtotal t + fee - tot_discount t /\
  tot_promo_applied t = Qgt_bool (tot_discount t) 0 /\
  (tot_discount t = 0
   \/ tot_discount t == Qmin (tot_subtotal t * 0.10) 30
   \/ (100 <= tot_subtotal t /\ tot_discount t == Qmin (tot_subtotal t * 0.20) 50)
   \/ (75 <= tot_subtotal t /\ tot_discount t = 15)).
Proof.
  unfold calculate_total.
  destruct (get_session_order w sid) as [| l0 rest]; [discriminate |].
  set (sub := sum_line_total (l0 :: rest)).
  destruct promo as [code |]; [| intros [= <-]; simpl; auto 10].
  destruct (negb (str_truthy code)); [intros [= <-]; simpl; auto 10 |].
  destruct (String.eqb (upper code) "WELCOME10").
  { intros [= <-]. simpl. repeat split; try reflexivity.
    right. left. apply clamp_is_min. }
  destruct (String.eqb (upper code) "FIRST20").
  { destruct (Qge_bool sub 100) eqn:Hge; intros [= <-]; simpl;
      repeat split; try reflexivity; [| by left].
    right. right. left. split; [by apply Qge_bool_true | apply clamp_is_min]. }
  destruct (String.eqb (upper code) "FREE15").
  { destruct (Qge_bool sub 75) eqn:Hge; intros [= <-]; simpl;
      repeat split; try reflexivity; [| by left].
    right. right. right. split; [by apply Qge_bool_true | reflexivity]. }
  intros [= <-]. simpl. auto 10.
Qed.

End TotalsFacts.

Local Open Scope Q_scope.

(** X7. Whenever calculate_total succeeds on a cart whose subtotal is not
    negative, whatever the promo code: 0 <= discount <= subtotal, the
    discount is at most 50, total = subtotal + delivery_fee - discount, the
    total is never below the delivery fee, and promo_applied is true exactly
    when the discount is positive. *)
Theorem calculate_total_discount_bounds
    (w : Store.World) (sid : string) (fee : Q) (promo : option string)
    (t : CheckoutTools.Totals) :
  CheckoutTools.calculate_total w sid fee promo = CheckoutTools.CalcSuccess t ->
  0 <= CheckoutTools.tot_subtotal t ->
  0 <= CheckoutTools.tot_discount t /\
  CheckoutTools.tot_discount t <= CheckoutTools.tot_subtotal t /\
  CheckoutTools.tot_discount t <= 50 /\
  CheckoutTools.tot_total t ==
    CheckoutTools.tot_subtotal t + fee - CheckoutTools.tot_discount t /\
  fee <= CheckoutTools.tot_total t /\
  (CheckoutTools.tot_promo_applied t = true <-> 0 < CheckoutTools.tot_discount t).
Proof.
  intros Hc Hsub.
  destruct (calculate_total_discount w sid fee promo t Hc)
    as (_ & _ & Htot & Happ & Hd).
  assert (Hb : 0 <= CheckoutTools.tot_discount t /\
               CheckoutTools.tot_discount t <= CheckoutTools.tot_subtotal t /\
               CheckoutTools.tot_discount t <= 50).
  { destruct Hd as [-> | [Hd | [(Hm & Hd) | (Hm & ->)]]].
    - repeat split; [apply Qle_refl | assumption | discriminate].
    - pose proof (Qmin_le_l (CheckoutTools.tot_subtotal t * 0.10) 30).
      pose proof (Qmin_le_r (CheckoutTools.tot_subtotal t * 0.10) 30).
      assert (0 <= Qmin (CheckoutTools.tot_subtotal t * 0.10) 30)
        by (apply Qmin_nonneg; lra).
      rewrite Hd. repeat split; lra.
    - pose proof (Qmin_le_l (CheckoutTools.tot_subtotal t * 0.20) 50).
      pose proof (Qmin_le_r (CheckoutTools.tot_subtotal t * 0.20) 50).
      assert (0 <= Qmin (CheckoutTools.tot_subtotal t * 0.20) 50)
        by (apply Qmin_nonneg; lra).
      rewrite Hd. repeat split; lra.
    - repeat split; lra. }
  destruct Hb as (H0 & H1 & H2).
  repeat split; try assumption.
  - rewrite Htot. reflexivity.
  - rewrite Htot. lra.
  - rewrite Happ. apply Qgt_bool_true.
  - rewrite Happ. apply Qgt_bool_true.
Qed.

Lemma calculate_total_discount_bounds_witness :
  exists t : CheckoutTools.Totals,
    CheckoutTools.calculate_total
      (Scenario.world_with_cart [Scenario.burger_line 4 ""]) "default" 15
      (Some "free15") = CheckoutTools.CalcSuccess t /\
    CheckoutTools.tot_discount t <= CheckoutTools.tot_subtotal t /\
    15 <= CheckoutTools.tot_total t.
Proof.
  eexists. split; [reflexivity |].
  pose proof (calculate_total_discount_bounds
                (Scenario.world_with_cart [Scenario.burger_line 4 ""]) "default" 15
                (Some "free15") _ eq_refl ltac:(vm_compute; discriminate)) as H.
  split; apply H.
Defined.

Local Close Scope Q_scope.

Section ConfirmFacts2.
Import Store OrderTools CheckoutTools ConfirmedOrders.

Lemma insert_items_rows (f : Fault) (oid : Z) (k : nat) (items : list OrderLine)
    (rows : list OrderItemRow) :
  insert_items f oid k items = Some rows -> Forall2 (row_of_line oid) items rows.
Proof.
  revert k rows. induction items as [| x items IH]; intros k rows; simpl.
  - intros [= <-]. constructor.
  - destruct (int_of_str (item_id x)) as [mid |] eqn:E; simpl; [| discriminate].
    destruct (execute_fails f k); [discriminate |].
    destruct (insert_items f oid (S k) items) as [rows' |] eqn:E'; simpl;
      [| discriminate].
    intros [= <-]. constructor; [| by eapply IH].
    unfold row_of_line. simpl. auto 10.
Qed.

End ConfirmFacts2.

(** X8. When confirm_order succeeds, get_confirmed_order finds under the returned
    order id a record with the cart as it was, the customer's name and phone,
    subtotal = the sum of the line totals, the delivery fee (0 unless the
    order type is delivery), the discount as passed in, and
    total = subtotal + delivery_fee - discount, which is the total returned.
    When the order was also saved to the database, the tables grew by one
    header row with the session, the customer, the address, the order type
    and the notes, and by one item row per cart line, in order, each with the
    line's item id, name, quantity and notes; when it was not, the database
    is as before.  The amounts of the rows are not stated: the columns round
    them. *)
Theorem confirm_order_records_totals
    (w : Store.World) (env : CheckoutTools.Env)
    (sid name phone district : string) (fee discount : Q) (otype nts : string) :
  let cart := OrderTools.get_session_order w sid in
  let out := CheckoutTools.confirm_order w env sid name phone district fee
               discount otype nts in
  CheckoutTools.confirm_success out.1 = true ->
  exists r : Store.OrderRecord,
    ConfirmedOrders.get_confirmed_order out.2 (CheckoutTools.env_order_id env) = Some r /\
    out.1 = CheckoutTools.ConfirmSuccess (CheckoutTools.env_order_id env)
              (Store.rec_total r) /\
    Store.rec_items r = cart /\
    Store.rec_customer_name r = name /\ Store.rec_customer_phone r = phone /\
    Store.rec_subtotal r = OrderTools.sum_line_total cart /\
    Store.rec_delivery_fee r = (if String.eqb otype "delivery" then fee else 0%Q) /\
    Store.rec_discount r = discount /\
    Store.rec_total r =
      (Store.rec_subtotal r + Store.rec_delivery_fee r - Store.rec_discount r)%Q /\
    (CheckoutTools.db_saved w env sid name phone district fee discount otype nts = true ->
     exists (hdr : Store.OrderRow) (rows : list Store.OrderItemRow),
       Store.tbl_orders (Store.database out.2) =
         Store.tbl_orders (Store.database w) ++ [hdr] /\
       Store.tbl_order_items (Store.database out.2) =
         Store.tbl_order_items (Store.database w) ++ rows /\
       Store.row_id hdr = CheckoutTools.env_order_db_id env /\
       Store.row_session_id hdr = sid /\
       Store.row_customer_name hdr = name /\
       Store.row_customer_phone hdr = phone /\
       Store.row_delivery_address hdr = district /\
       Store.row_order_type hdr = otype /\
       Store.row_status hdr = "confirmed" /\
       Store.row_notes hdr = nts /\
       Forall2 (ConfirmedOrders.row_of_line (CheckoutTools.env_order_db_id env)) cart rows) /\
    (CheckoutTools.db_saved w env sid name phone district fee discount otype nts = false ->
     Store.database out.2 = Store.database w).
Proof.
  cbv zeta. unfold CheckoutTools.confirm_order, CheckoutTools.db_saved.
  destruct (OrderTools.get_session_order w sid) as [| x c] eqn:Hcart;
    [discriminate |].
  destruct (negb (str_truthy name)); [discriminate |].
  destruct (negb (str_truthy phone)); [discriminate |].
  set (items := x :: c).
  set (sub := OrderTools.sum_line_total items).
  set (afee := if String.eqb otype "delivery" then fee else 0%Q).
  change (Store.database (Store.with_confirmed ?c w)) with (Store.database w).
  pose proof (save_order_atomic (Store.database w) (CheckoutTools.env_fault env)
                (CheckoutTools.env_order_db_id env) sid name phone district otype
                items sub afee discount (sub + afee - discount)%Q nts) as Hsave.
  cbv zeta in Hsave.
  destruct (CheckoutTools.save_order_to_database_sync _ _ _ _ _ _ _ _ _ _ _ _ _ _)
    as [saved db'].
  cbn [fst snd] in *. intros _.
  eexists. split.
  { unfold ConfirmedOrders.get_confirmed_order. simpl. apply lookup_insert_eq. }
  split; [reflexivity |].
  simpl. repeat split; try reflexivity.
  - intros ->. destruct Hsave as (_ & _ & Hs).
    destruct (Hs eq_refl) as (_ & _ & rows & Hins & Hhdr0 & Hrows & Hhdr).
    eexists _, rows. split; [exact Hhdr |]. split; [exact Hrows |].
    simpl. repeat split; try reflexivity.
    eapply insert_items_rows. exact Hins.
  - intros ->. destruct Hsave as (_ & Hf & _). by apply Hf.
Qed.

Lemma confirm_order_records_totals_witness :
  let env := {| CheckoutTools.env_order_id := "ORD-20240101120000-AB12";
                CheckoutTools.env_now_iso := "2024-01-01T12:00:00";
                CheckoutTools.env_order_db_id := 7;
                CheckoutTools.env_fault := CheckoutTools.NoFault |} in
  let w := Scenario.world_with_cart [Scenario.burger_line 2 ""] in
  exists r : Store.OrderRecord,
    ConfirmedOrders.get_confirmed_order
      (CheckoutTools.confirm_order w env "default" "محمد" "0551234567" "حي النرجس"
         15 5 "pickup" "").2 "ORD-20240101120000-AB12" = Some r /\
    Store.rec_delivery_fee r = 0%Q /\
    Store.rec_total r = (25 * inject_Z 2 + 0 - 5)%Q.
Proof.
  intros env w.
  destruct (confirm_order_records_totals w env "default" "محمد" "0551234567"
              "حي النرجس" 15 5 "pickup" "" eq_refl)
    as (r & Hr & _ & _ & _ & _ & Hsub & Hfee & Hdisc & Htot & _).
  exists r. split; [exact Hr |]. split; [exact Hfee |].
  rewrite Htot, Hsub, Hfee, Hdisc. reflexivity.
Defined.

Section PromoFacts2.
Import Store PromoRepository.
Local Open Scope Q_scope.




End PromoFacts2.

Local Open Scope Q_scope.


Local Close Scope Q_scope.

Section UsageFacts.
Import Store PromoRepository PromoUsage.




End UsageFacts.



(** ** Paths of the state machine and turns of the orchestrator *)

Section MachineFacts2.
Import Machine Paths.

Lemma reachable_trans (a b c : State) :
  reachable a b -> reachable b c -> reachable a c.
Proof.
  intros H1 H2. induction H1 as [| a b' c' t Ht H IH]; [assumption |].
  eapply reach_step; [exact Ht | by apply IH].
Qed.

Lemma reachable_from_init (s : State) : reachable S0_INIT s.
Proof.
  assert (H1 : reachable S0_INIT S1_INTENT)
    by (eapply (reach_step _ _ _ START); [reflexivity | constructor]).
  assert (H2 : reachable S0_INIT S2_GREETING)
    by (eapply reachable_trans; [exact H1 |];
        eapply (reach_step _ _ _ INTENT_ORDERING); [reflexivity | constructor]).
  assert (H3 : reachable S0_INIT S3_LOCATION)
    by (eapply reachable_trans; [exact H2 |];
        eapply (reach_step _ _ _ CONFIRM_ORDER); [reflexivity | constructor]).
  assert (H4 : reachable S0_INIT S4_ORDERING)
    by (eapply reachable_trans; [exact H3 |];
        eapply (reach_step _ _ _ ADDRESS_VALID); [reflexivity | constructor]).
  assert (H5 : reachable S0_INIT S5_CHECKOUT)
    by (eapply reachable_trans; [exact H4 |];
        eapply (reach_step _ _ _ CHECKOUT); [reflexivity | constructor]).
  destruct s; try assumption.
  - constructor.
  - eapply reachable_trans; [exact H5 |].
    eapply (reach_step _ _ _ ORDER_CONFIRMED); [reflexivity | constructor].
  - eapply reachable_trans; [exact H1 |].
    eapply (reach_step _ _ _ INTENT_COMPLAINT); [reflexivity | constructor].
  - eapply reachable_trans; [exact H1 |].
    eapply (reach_step _ _ _ INTENT_INQUIRY); [reflexivity | constructor].
Qed.

Lemma reachable_to_init (s : State) : reachable s S0_INIT.
Proof.
  assert (H3 : reachable S3_LOCATION S0_INIT)
    by (eapply (reach_step _ _ _ CANCEL); [reflexivity | constructor]).
  assert (H2 : reachable S2_GREETING S0_INIT)
    by (eapply (reach_step _ _ _ CONFIRM_ORDER); [reflexivity | exact H3]).
  assert (H1 : reachable S1_INTENT S0_INIT)
    by (eapply (reach_step _ _ _ INTENT_ORDERING); [reflexivity | exact H2]).
  destruct s; try assumption.
  - constructor.
  - eapply (reach_step _ _ _ CANCEL); [reflexivity | constructor].
  - eapply (reach_step _ _ _ CANCEL); [reflexivity | constructor].
  - eapply (reach_step _ _ _ START); [reflexivity | exact H1].
  - eapply (reach_step _ _ _ RESOLVED); [reflexivity | exact H2].
  - eapply (reach_step _ _ _ RETRY); [reflexivity | exact H1].
Qed.

Lemma seen_before_step (seen : list State) (s : State) (t : Trigger) :
  seen_before seen s ->
  seen_before (seen ++ [s]) (default s (get_next_state s t)).
Proof.
  unfold seen_before. intros (H4 & H5).
  destruct s, t; simpl; rewrite !elem_of_app, !list_elem_of_singleton;
    split; intros E; try discriminate E; intuition.
Qed.

Lemma trace_order (ts : list Trigger) (s : State) (seen pre post : list State) :
  seen_before seen s ->
  trace s ts = pre ++ S5_CHECKOUT :: post ->
  S3_LOCATION ∈ seen ++ pre /\ S4_ORDERING ∈ seen ++ pre.
Proof.
  revert s seen pre. induction ts as [| t ts IH]; intros s seen pre HI Htr.
  - simpl in Htr. destruct pre as [| x pre].
    + injection Htr as -> _. rewrite app_nil_r. by apply HI.
    + injection Htr as _ Htr. by destruct pre.
  - simpl in Htr. destruct pre as [| x pre].
    + injection Htr as -> _. rewrite app_nil_r. by apply HI.
    + injection Htr as <- Htr.
      destruct (IH _ _ _ (seen_before_step seen s t HI) Htr) as (H3 & H4).
      rewrite <- app_assoc in H3, H4. simpl in H3, H4. auto.
Qed.

End MachineFacts2.

(** X11. In the transition table every state can be reached from every state.
    The only transition into CHECKOUT is the checkout trigger in ORDERING, and
    order_confirmed is listed only in CHECKOUT, where it leads to FINALIZED.
    Hence, whatever triggers fire from INIT on, a session that is in CHECKOUT
    has been in LOCATION and in ORDERING before. *)
Theorem checkout_is_reached_through_location_and_ordering :
  (forall a b : Machine.State, Paths.reachable a b) /\
  (forall (s : Machine.State) (t : Machine.Trigger),
     Machine.get_next_state s t = Some Machine.S5_CHECKOUT <->
     s = Machine.S4_ORDERING /\ t = Machine.CHECKOUT) /\
  (forall (s s' : Machine.State),
     Machine.get_next_state s Machine.ORDER_CONFIRMED = Some s' <->
     s = Machine.S5_CHECKOUT /\ s' = Machine.S6_FINALIZED) /\
  (forall (ts : list Machine.Trigger) (pre post : list Machine.State),
     Paths.trace Machine.S0_INIT ts = pre ++ Machine.S5_CHECKOUT :: post ->
     Machine.S3_LOCATION ∈ pre /\ Machine.S4_ORDERING ∈ pre).
Proof.
  split; [| split; [| split]].
  - intros a b. eapply reachable_trans; [apply reachable_to_init | apply reachable_from_init].
  - intros s t. split.
    + destruct s, t; simpl; intros E; try discriminate E; auto.
    + intros (-> & ->). reflexivity.
  - intros s s'. split.
    + destruct s; simpl; intros E; try discriminate E. injection E as <-. auto.
    + intros (-> & ->). reflexivity.
  - intros ts pre post H.
    apply (trace_order ts Machine.S0_INIT [] pre post); [| exact H].
    split; intros E; discriminate E.
Qed.

(** Case analysis on the scrutinee of an innermost [match] of the goal. *)
Ltac break_match :=
  match goal with
  | |- context [match ?x with _ => _ end] =>
      lazymatch x with
      | context [match _ with _ => _ end] => fail
      | _ => destruct x
      end
  end.

Section TurnFacts.
Import Machine SessionModel Orchestrator Paths.

Lemma within_here (n : nat) (a : State) : within n a a.
Proof. destruct n; simpl; auto. Qed.

Lemma within_step (n : nat) (a b c : State) (t : Trigger) :
  get_next_state a t = Some b -> within n b c -> within (S n) a c.
Proof. intros H1 H2. simpl. right. eauto. Qed.

Lemma within_le (n : nat) (a b : State) : within n a b -> within (S n) a b.
Proof.
  revert a. induction n as [| n IH]; intros a; simpl.
  - auto.
  - intros [H | (t & c & H1 & H2)]; [auto |]. right. exists t, c. split; [assumption |].
    apply IH. exact H2.
Qed.

Lemma within_fire (n : nat) (a b : State) (t : option Trigger) :
  within n (fire a t) b -> within (S n) a b.
Proof.
  unfold fire. destruct t as [t |]; [| apply within_le].
  destruct (get_next_state a t) as [c |] eqn:E; simpl; [| apply within_le].
  intros H. right. eauto.
Qed.

End TurnFacts.

Section TurnFacts2.
Import Machine SessionModel Orchestrator Paths.

Lemma handle_message_fields (s : SessionState) (count : Z) (msg : string)
    (ir : AgentResult) (ar : State -> AgentResult) (summary : string) :
  let st1 := if decide (state s = S0_INIT) then S1_INTENT else state s in
  let st2 := if decide (st1 = S1_INTENT) then fire st1 (trigger ir) else st1 in
  let s' := (handle_message s count msg ir ar summary).1.1 in
  let from_intent (get : SessionUpdates -> option string) (old : option string) :=
    if decide (st1 = S1_INTENT) then truthy_or (get (session_updates ir)) old else old in
  state s' = fire st2 (trigger (ar st2)) /\
  (handle_message s count msg ir ar summary).2 = response_ar (ar st2) /\
  session_id s' = session_id s /\
  conversation_history s' =
    conversation_history s ++
    ("user", msg) ::
    (if str_truthy (response_ar (ar st2)) then [("assistant", response_ar (ar st2))]
     else []) /\
  customer_name s' =
    truthy_or (upd_customer_name (session_updates (ar st2)))
      (from_intent upd_customer_name (customer_name s)) /\
  customer_phone s' =
    truthy_or (upd_customer_phone (session_updates (ar st2)))
      (from_intent upd_customer_phone (customer_phone s)).
Proof.
  unfold handle_message, fire.
  destruct s as [sid st cn cp loc ot c pr hist sm].
  cbn -[significant_transition get_next_state].
  repeat (break_match; cbn -[significant_transition get_next_state];
          try congruence);
    rewrite <- ?app_assoc; repeat split; reflexivity.
Qed.

Lemma truthy_or_keeps (new old : option string) :
  (is_Some old -> is_Some (truthy_or new old)) /\
  (truthy_or new old = old \/
   exists v, v <> "" /\ new = Some v /\ truthy_or new old = Some v).
Proof.
  unfold truthy_or. destruct new as [v |]; [| auto].
  unfold str_truthy. destruct (String.eqb_spec v ""); simpl; [auto |].
  split; [eauto | right; eauto].
Qed.

Lemma fire_checkout (a : State) (t : option Trigger) :
  fire a t = S5_CHECKOUT -> a = S4_ORDERING \/ a = S5_CHECKOUT.
Proof.
  unfold fire. destruct t as [t |]; [| auto].
  destruct a, t; simpl; intros E; try discriminate E; auto.
Qed.

Lemma fire_intent (t : option Trigger) :
  fire S1_INTENT t <> S4_ORDERING /\ fire S1_INTENT t <> S5_CHECKOUT.
Proof.
  unfold fire. destruct t as [t |]; [| split; discriminate].
  destruct t; simpl; split; discriminate.
Qed.

End TurnFacts2.

(** X12. One turn of handle_message moves the session along at most three
    transitions of the table, whatever the agents answer.  Outside INIT and
    INTENT it is at most one transition, and none when the agent returns no
    trigger.  A turn ends in CHECKOUT only when it started in ORDERING or in
    CHECKOUT. *)
Theorem handle_message_moves_along_the_table
    (s : SessionModel.SessionState) (count : Z) (msg : string)
    (ir : Orchestrator.AgentResult)
    (ar : Machine.State -> Orchestrator.AgentResult) (summary : string) :
  let s' := (Orchestrator.handle_message s count msg ir ar summary).1.1 in
  Paths.within 3 (SessionModel.state s) (SessionModel.state s') /\
  (SessionModel.state s <> Machine.S0_INIT ->
   SessionModel.state s <> Machine.S1_INTENT ->
   Paths.within 1 (SessionModel.state s) (SessionModel.state s') /\
   (Orchestrator.trigger (ar (SessionModel.state s)) = None ->
    SessionModel.state s' = SessionModel.state s)) /\
  (SessionModel.state s' = Machine.S5_CHECKOUT ->
   SessionModel.state s = Machine.S4_ORDERING \/
   SessionModel.state s = Machine.S5_CHECKOUT).
Proof.
  cbv zeta.
  destruct (handle_message_fields s count msg ir ar summary) as (Hst & _).
  cbv zeta in Hst. rewrite Hst. clear Hst.
  split; [| split].
  - destruct (decide (SessionModel.state s = Machine.S0_INIT)) as [E | E].
    + rewrite E. eapply (within_step _ _ Machine.S1_INTENT _ Machine.START);
        [reflexivity |].
      destruct (decide _) as [_ | N]; [| done].
      apply (within_fire _ _ _ (Orchestrator.trigger ir)).
      eapply within_fire, within_here.
    + apply within_le. destruct (decide _) as [_ | N].
      * apply (within_fire _ _ _ (Orchestrator.trigger ir)).
        eapply within_fire, within_here.
      * apply within_le. eapply within_fire, within_here.
  - intros H0 H1.
    destruct (decide (SessionModel.state s = Machine.S0_INIT)); [done |].
    destruct (decide (SessionModel.state s = Machine.S1_INTENT)); [done |].
    split; [eapply within_fire, within_here |].
    intros ->. reflexivity.
  - intros H. apply fire_checkout in H.
    destruct (decide (SessionModel.state s = Machine.S0_INIT)) as [E | E].
    + destruct (decide _) as [_ | N]; [| done].
      pose proof (fire_intent (Orchestrator.trigger ir)). intuition.
    + destruct (decide _) as [E1 | N]; [| assumption].
      rewrite E1 in H.
      pose proof (fire_intent (Orchestrator.trigger ir)). intuition.
Qed.

(** X13. One turn of handle_message keeps the session id and only appends to the
    conversation history: the user's message and then, when the reply is not
    empty, the assistant's reply.  The reply is the response of the agent of
    a state at most two transitions from the state the turn started in. *)
Theorem handle_message_appends_to_history
    (s : SessionModel.SessionState) (count : Z) (msg : string)
    (ir : Orchestrator.AgentResult)
    (ar : Machine.State -> Orchestrator.AgentResult) (summary : string) :
  let out := Orchestrator.handle_message s count msg ir ar summary in
  let s' := out.1.1 in
  let reply := out.2 in
  SessionModel.session_id s' = SessionModel.session_id s /\
  SessionModel.conversation_history s' =
    SessionModel.conversation_history s ++
    ("user", msg) :: (if str_truthy reply then [("assistant", reply)] else []) /\
  (exists st : Machine.State,
     Paths.within 2 (SessionModel.state s) st /\
     reply = Orchestrator.response_ar (ar st)).
Proof.
  cbv zeta.
  destruct (handle_message_fields s count msg ir ar summary)
    as (_ & Hr & Hid & Hh & _).
  cbv zeta in *. rewrite Hr, Hid, Hh.
  split; [reflexivity |]. split; [reflexivity |].
  eexists. split; [| reflexivity].
  destruct (decide (SessionModel.state s = Machine.S0_INIT)) as [E | E].
  - rewrite E. eapply (within_step _ _ Machine.S1_INTENT _ Machine.START);
      [reflexivity |].
    destruct (decide _) as [_ | N]; [| done].
    eapply within_fire, within_here.
  - apply within_le. destruct (decide _) as [_ | N].
    + eapply within_fire, within_here.
    + apply within_here.
Qed.

(** X14. One turn of handle_message never clears the customer's name or phone: a
    value that was set is still set, and each of the two either stays as it
    was or becomes a value that is not empty. *)
Theorem handle_message_never_erases_customer_data
    (s : SessionModel.SessionState) (count : Z) (msg : string)
    (ir : Orchestrator.AgentResult)
    (ar : Machine.State -> Orchestrator.AgentResult) (summary : string) :
  let s' := (Orchestrator.handle_message s count msg ir ar summary).1.1 in
  (is_Some (SessionModel.customer_name s) -> is_Some (SessionModel.customer_name s')) /\
  (is_Some (SessionModel.customer_phone s) -> is_Some (SessionModel.customer_phone s')) /\
  (SessionModel.customer_name s' = SessionModel.customer_name s \/
   exists v, v <> "" /\ SessionModel.customer_name s' = Some v) /\
  (SessionModel.customer_phone s' = SessionModel.customer_phone s \/
   exists v, v <> "" /\ SessionModel.customer_phone s' = Some v).
Proof.
  cbv zeta.
  destruct (handle_message_fields s count msg ir ar summary)
    as (_ & _ & _ & _ & Hn & Hp).
  cbv zeta in *. rewrite Hn, Hp. clear Hn Hp.
  assert (H : forall new1 new2 old (b : bool),
            let mid := if b then Orchestrator.truthy_or new1 old else old in
            (is_Some old -> is_Some (Orchestrator.truthy_or new2 mid)) /\
            (Orchestrator.truthy_or new2 mid = old \/
             exists v, v <> "" /\ Orchestrator.truthy_or new2 mid = Some v)).
  { intros new1 new2 old b mid.
    destruct (truthy_or_keeps new2 mid) as (K1 & K2).
    assert (Hmid : (is_Some old -> is_Some mid) /\
                   (mid = old \/ exists v, v <> "" /\ mid = Some v)).
    { subst mid. destruct b; [| auto].
      destruct (truthy_or_keeps new1 old) as (J1 & J2). split; [assumption |].
      destruct J2 as [J2 | (v & Hv & _ & J2)]; [auto | right; eauto]. }
    destruct Hmid as (M1 & M2). split; [auto |].
    destruct K2 as [K2 | (v & Hv & _ & K2)]; [| right; eauto].
    rewrite K2. exact M2. }
  destruct (decide _) as [D | D].
  - destruct (H (Orchestrator.upd_customer_name (Orchestrator.session_updates ir))
                (Orchestrator.upd_customer_name
                   (Orchestrator.session_updates
                      (ar (Paths.fire (if decide (SessionModel.state s = Machine.S0_INIT)
                                 then Machine.S1_INTENT else SessionModel.state s)
                             (Orchestrator.trigger ir)))))
                (SessionModel.customer_name s) true) as (A1 & A2).
    destruct (H (Orchestrator.upd_customer_phone (Orchestrator.session_updates ir))
                (Orchestrator.upd_customer_phone
                   (Orchestrator.session_updates
                      (ar (Paths.fire (if decide (SessionModel.state s = Machine.S0_INIT)
                                 then Machine.S1_INTENT else SessionModel.state s)
                             (Orchestrator.trigger ir)))))
                (SessionModel.customer_phone s) true) as (B1 & B2).
    auto.
  - destruct (H None
                (Orchestrator.upd_customer_name
                   (Orchestrator.session_updates
                      (ar (if decide (SessionModel.state s = Machine.S0_INIT)
                           then Machine.S1_INTENT else SessionModel.state s))))
                (SessionModel.customer_name s) false) as (A1 & A2).
    destruct (H None
                (Orchestrator.upd_customer_phone
                   (Orchestrator.session_updates
                      (ar (if decide (SessionModel.state s = Machine.S0_INIT)
                           then Machine.S1_INTENT else SessionModel.state s))))
                (SessionModel.customer_phone s) false) as (B1 & B2).
    auto.
Qed.

(** ** Breadcrumbs of the graph *)

Section BreadcrumbFacts.
Import Store Workflow Conversation.

Lemma scan_order_keeps_routing (l : list Message) (u : Updates) :
  u_current_agent (fold_left scan_order_message l u) = u_current_agent u /\
  u_came_from_checkout (fold_left scan_order_message l u) = u_came_from_checkout u /\
  u_came_from_order (fold_left scan_order_message l u) = u_came_from_order u.
Proof.
  revert u. induction l as [| a l IH]; intros u; simpl; [auto |].
  destruct (IH (scan_order_message u a)) as (-> & -> & ->).
  unfold scan_order_message.
  destruct (parsed a) as [d |]; [| auto].
  destruct (j_current_total d); simpl; auto.
Qed.

Lemma scan_checkout_keeps_routing (l : list Message) (u : Updates) :
  u_current_agent (fold_left scan_checkout_message l u) = u_current_agent u /\
  u_came_from_checkout (fold_left scan_checkout_message l u) = u_came_from_checkout u /\
  u_came_from_order (fold_left scan_checkout_message l u) = u_came_from_order u.
Proof.
  revert u. induction l as [| a l IH]; intros u; simpl; [auto |].
  destruct (IH (scan_checkout_message u a)) as (-> & -> & ->).
  unfold scan_checkout_message.
  destruct (parsed a) as [d |]; [| auto].
  destruct (j_order_id d) as [oid |]; [| auto].
  destruct (str_truthy oid); simpl; auto.
Qed.

(** What each node does to the agent and the breadcrumbs. *)
Lemma greeting_routing (s : AgentState) (msgs : list Message) :
  let s' := apply_updates s (call_greeting_agent s msgs) in
  came_from_checkout s' = came_from_checkout s /\
  came_from_order s' = came_from_order s /\
  current_agent s' =
    match last msgs with
    | Some m => default (current_agent s) (extract_handoff (content m))
    | None => current_agent s
    end.
Proof.
  cbv zeta. unfold call_greeting_agent.
  destruct (last msgs) as [m |]; [| by simpl].
  destruct (extract_handoff (content m)) as [h |]; by simpl.
Qed.

Lemma order_routing (s : AgentState) (msgs : list Message) :
  let s' := apply_updates s (call_order_agent s msgs) in
  let h := last (drop_context msgs) ≫= (fun m => extract_handoff (content m)) in
  came_from_checkout s' = came_from_checkout s /\
  came_from_order s' =
    match h with
    | Some location => true
    | _ => came_from_order s
    end /\
  current_agent s' = default (current_agent s) h.
Proof.
  cbv zeta. unfold call_order_agent.
  destruct (scan_order_keeps_routing (drop_context msgs) empty_updates)
    as (H1 & H2 & H3). simpl in H1, H2, H3.
  destruct (last (drop_context msgs)) as [m |]; simpl.
  - destruct (extract_handoff (content m)) as [h |]; simpl.
    + destruct h; unfold apply_updates; simpl; rewrite ?H1, ?H2, ?H3; auto.
    + unfold apply_updates; simpl; rewrite ?H1, ?H2, ?H3; auto.
  - unfold apply_updates; simpl; rewrite ?H1, ?H2, ?H3; auto.
Qed.

Lemma checkout_routing (s : AgentState) (msgs : list Message) :
  let s' := apply_updates s (call_checkout_agent s msgs) in
  let h := last (drop_context msgs) ≫= (fun m => extract_handoff (content m)) in
  came_from_order s' = came_from_order s /\
  came_from_checkout s' =
    match h with
    | Some location => true
    | _ => came_from_checkout s
    end /\
  current_agent s' = default (current_agent s) h.
Proof.
  cbv zeta. unfold call_checkout_agent.
  destruct (scan_checkout_keeps_routing (drop_context msgs) empty_updates)
    as (H1 & H2 & H3). simpl in H1, H2, H3.
  destruct (last (drop_context msgs)) as [m |]; simpl.
  - destruct (extract_handoff (content m)) as [h |]; simpl.
    + destruct h; unfold apply_updates; simpl; rewrite ?H1, ?H2, ?H3; auto.
    + unfold apply_updates; simpl; rewrite ?H1, ?H2, ?H3; auto.
  - unfold apply_updates; simpl; rewrite ?H1, ?H2, ?H3; auto.
Qed.

Lemma location_routing (w : World) (s : AgentState) (msgs : list Message) :
  let s' := apply_updates s (call_location_agent w s msgs) in
  match last (drop_context msgs) ≫= (fun m => extract_handoff (content m)) with
  | Some h =>
      current_agent s' = redirect_location_handoff h (came_from_checkout s) /\
      came_from_checkout s' = false /\ came_from_order s' = false
  | None =>
      current_agent s' = current_agent s /\
      came_from_checkout s' = came_from_checkout s /\
      came_from_order s' = came_from_order s
  end.
Proof.
  cbv zeta.
  destruct (last (drop_context msgs)) as [m |] eqn:Hl; simpl.
  - destruct (extract_handoff (content m)) as [h |] eqn:Hh.
    + exact (location_handoff_step w s msgs m h Hl Hh).
    + apply (location_idle_step w s msgs). unfold no_handoff. by rewrite Hl.
  - apply (location_idle_step w s msgs). unfold no_handoff. by rewrite Hl.
Qed.

Lemma breadcrumbs_off (s : AgentState) :
  breadcrumbs_ok s -> current_agent s <> location ->
  came_from_checkout s = false /\ came_from_order s = false.
Proof.
  intros (H1 & H2 & _) Hn.
  destruct (came_from_checkout s), (came_from_order s); auto;
    exfalso; apply Hn; auto.
Qed.

Lemma run_node_keeps_breadcrumbs (n : Node) (w : World) (s : AgentState)
    (msgs : list Message) :
  route_by_current_agent s = Some n ->
  breadcrumbs_ok s ->
  breadcrumbs_ok (run_node n w s msgs).1 /\
  (forall n', (run_node n w s msgs).2 = Some n' ->
              route_by_current_agent (run_node n w s msgs).1 = Some n').
Proof.
  intros Hn Hok.
  assert (Hroute : forall s' n',
            route_after_greeting s' = Some n' \/ route_after_location s' = Some n' \/
            route_after_order s' = Some n' \/ route_after_checkout s' = Some n' ->
            route_by_current_agent s' = Some n').
  { intros s' n'. unfold route_after_greeting, route_after_location,
      route_after_order, route_after_checkout, route_by_current_agent.
    destruct (current_agent s'); intros [H | [H | [H | H]]];
      congruence. }
  destruct n; unfold run_node; cbn [fst snd].
  - split; [| intros n' H; apply Hroute; auto].
    assert (Ha : current_agent s = greeting).
    { unfold route_by_current_agent in Hn. by destruct (current_agent s). }
    destruct (breadcrumbs_off s Hok) as (C1 & C2); [congruence |].
    destruct (greeting_routing s msgs) as (G1 & G2 & _). cbv zeta in *.
    unfold breadcrumbs_ok. rewrite G1, G2, C1, C2. repeat split; auto; discriminate.
  - split; [| intros n' H; apply Hroute; auto].
    assert (Ha : current_agent s = location).
    { unfold route_by_current_agent in Hn. by destruct (current_agent s). }
    pose proof (location_routing w s msgs) as L. cbv zeta in L.
    destruct (_ ≫= _) as [h |].
    + destruct L as (_ & L2 & L3). unfold breadcrumbs_ok. rewrite L2, L3.
      repeat split; auto; discriminate.
    + destruct L as (L1 & L2 & L3). unfold breadcrumbs_ok. rewrite L1, L2, L3.
      destruct Hok as (_ & _ & H3). auto.
  - split; [| intros n' H; apply Hroute; auto].
    assert (Ha : current_agent s = order).
    { unfold route_by_current_agent in Hn. by destruct (current_agent s). }
    destruct (breadcrumbs_off s Hok) as (C1 & C2); [congruence |].
    destruct (order_routing s msgs) as (O1 & O2 & O3). cbv zeta in *.
    unfold breadcrumbs_ok. rewrite O1, O2, O3, C1, C2.
    destruct (_ ≫= _) as [[] |]; simpl; repeat split; auto; discriminate.
  - split; [| intros n' H; apply Hroute; auto].
    assert (Ha : current_agent s = checkout).
    { unfold route_by_current_agent in Hn. by destruct (current_agent s). }
    destruct (breadcrumbs_off s Hok) as (C1 & C2); [congruence |].
    destruct (checkout_routing s msgs) as (O1 & O2 & O3). cbv zeta in *.
    unfold breadcrumbs_ok. rewrite O1, O2, O3, C1, C2.
    destruct (_ ≫= _) as [[] |]; simpl; repeat split; auto; discriminate.
Qed.

Lemma run_from_keeps_breadcrumbs (limit : nat) (n : Node) (s s' : AgentState)
    (answers : list (World * list Message)) :
  route_by_current_agent s = Some n ->
  breadcrumbs_ok s ->
  run_from limit n s answers = Some s' ->
  breadcrumbs_ok s'.
Proof.
  revert n s answers. induction limit as [| limit IH]; intros n s answers Hn Hok;
    [discriminate |].
  destruct answers as [| [w msgs] rest]; [discriminate |]. simpl.
  destruct (run_node_keeps_breadcrumbs n w s msgs Hn Hok) as (H1 & H2).
  destruct (run_node n w s msgs) as [s1 [n1 |]]; cbn [fst snd] in *.
  - apply (IH n1 s1 rest); auto.
  - intros [= <-]. exact H1.
Qed.

Lemma turn_keeps_breadcrumbs (limit : nat) (s : AgentState)
    (answers : list (World * list Message)) :
  breadcrumbs_ok s -> breadcrumbs_ok (turn limit s answers).
Proof.
  intros Hok. unfold turn, invoke.
  destruct (route_by_current_agent s) as [n |] eqn:Hn; [| exact Hok].
  destruct (run_from limit n s answers) as [s' |] eqn:Hr; [| exact Hok].
  simpl. by eapply run_from_keeps_breadcrumbs.
Qed.

End BreadcrumbFacts.

(** X15. After any number of user turns from the initial state, whatever the
    agents answer and whether or not a run hits the recursion limit,
    came_from_checkout and came_from_order are set only while the current
    agent is the location agent, and never both. *)
Theorem breadcrumbs_only_while_locating
    (limit : nat) (turns : list (list (Store.World * list Workflow.Message))) :
  let s := Conversation.conversation limit turns in
  (Workflow.came_from_checkout s = true -> Workflow.current_agent s = Workflow.location) /\
  (Workflow.came_from_order s = true -> Workflow.current_agent s = Workflow.location) /\
  (Workflow.came_from_checkout s = false \/ Workflow.came_from_order s = false).
Proof.
  cbv zeta. change (Conversation.breadcrumbs_ok (Conversation.conversation limit turns)).
  unfold Conversation.conversation.
  assert (H0 : Conversation.breadcrumbs_ok Workflow.create_initial_state).
  { unfold Conversation.breadcrumbs_ok. simpl. repeat split; auto; discriminate. }
  revert H0. generalize Workflow.create_initial_state.
  induction turns as [| t turns IH]; intros s Hs; simpl; [exact Hs |].
  apply IH. by apply turn_keeps_breadcrumbs.
Qed.

(** X16. When the order agent hands back to location (and the session did not come
    from checkout), the location node runs next with came_from_order set.
    After any number of location turns without a hand-off, a forward hand-off
    of the location agent, be it to order or to checkout, goes to the order
    node, and both breadcrumbs are cleared. *)
Theorem location_handoff_returns_to_order
    (w1 w2 : Store.World) (s : Workflow.AgentState)
    (msgs_or msgs_loc : list Workflow.Message)
    (idle : list (Store.World * list Workflow.Message))
    (mo ml : Workflow.Message) :
  Workflow.came_from_checkout s = false ->
  last (Workflow.drop_context msgs_or) = Some mo ->
  Workflow.extract_handoff (Workflow.content mo) = Some Workflow.location ->
  Forall (fun a => Workflow.no_handoff a.2) idle ->
  last (Workflow.drop_context msgs_loc) = Some ml ->
  Workflow.extract_handoff (Workflow.content ml) = Some Workflow.order \/
  Workflow.extract_handoff (Workflow.content ml) = Some Workflow.checkout ->
  let back := Workflow.run_node Workflow.order_node w1 s msgs_or in
  let waiting := Workflow.location_turns back.1 idle in
  let forth := Workflow.run_node Workflow.location_node w2 waiting msgs_loc in
  back.2 = Some Workflow.location_node /\
  Workflow.came_from_order back.1 = true /\
  Workflow.came_from_checkout back.1 = false /\
  Workflow.current_agent waiting = Workflow.location /\
  Workflow.current_agent forth.1 = Workflow.order /\
  forth.2 = Some Workflow.order_node /\
  Workflow.came_from_checkout forth.1 = false /\
  Workflow.came_from_order forth.1 = false.
Proof.
  intros Hc Hl1 Hh1 Hidle Hl2 Hh2. cbv zeta.
  change (Workflow.run_node Workflow.order_node w1 s msgs_or).1
    with (Workflow.apply_updates s (Workflow.call_order_agent s msgs_or)).
  change (Workflow.run_node Workflow.order_node w1 s msgs_or).2
    with (Workflow.route_after_order
            (Workflow.apply_updates s (Workflow.call_order_agent s msgs_or))).
  pose proof (order_routing s msgs_or) as Ho. cbv zeta in Ho.
  set (back := Workflow.apply_updates s (Workflow.call_order_agent s msgs_or)) in *.
  rewrite Hl1 in Ho. cbn [mbind option_bind] in Ho. rewrite Hh1 in Ho.
  destruct Ho as (O1 & O2 & O3').
  assert (O3 : Workflow.current_agent back = Workflow.location) by exact O3'.
  clear O3'. unfold Workflow.route_after_order at 1. rewrite O3, O2, O1, Hc.
  destruct (location_idle_turns back idle Hidle) as (W1 & W2 & W3).
  rewrite O3 in W1. rewrite O1, Hc in W2.
  set (waiting := Workflow.location_turns back idle) in *.
  change (Workflow.run_node Workflow.location_node w2 waiting msgs_loc).1
    with (Workflow.apply_updates waiting
            (Workflow.call_location_agent w2 waiting msgs_loc)).
  change (Workflow.run_node Workflow.location_node w2 waiting msgs_loc).2
    with (Workflow.route_after_location
            (Workflow.apply_updates waiting
               (Workflow.call_location_agent w2 waiting msgs_loc))).
  pose proof (location_routing w2 waiting msgs_loc) as L. cbv zeta in L.
  set (forth := Workflow.apply_updates waiting
                  (Workflow.call_location_agent w2 waiting msgs_loc)) in *.
  rewrite Hl2 in L. cbn [mbind option_bind] in L.
  unfold Workflow.route_after_location.
  assert (L' : Workflow.current_agent forth = Workflow.order /\
               Workflow.came_from_checkout forth = false /\
               Workflow.came_from_order forth = false).
  { destruct Hh2 as [Hh2 | Hh2]; rewrite Hh2, W2 in L; exact L. }
  destruct L' as (L1 & L2 & L3). rewrite L1, L2, L3. repeat split; auto.
Qed.

Lemma location_handoff_returns_to_order_witness :
  let s := Conversation.conversation 25
             [[(Scenario.fresh_world, [Scenario.ai_message "هلا [HANDOFF:location]"]);
               (Scenario.fresh_world, [Scenario.ai_message "تمام [HANDOFF:order]"]);
               (Scenario.fresh_world, [Scenario.ai_message "وش تبي تطلب؟"])]] in
  Workflow.current_agent s = Workflow.order /\
  let back := Workflow.run_node Workflow.order_node Scenario.fresh_world s
                Scenario.back_to_location in
  let forth := Workflow.run_node Workflow.location_node Scenario.fresh_world
                 (Workflow.location_turns back.1
                    [(Scenario.fresh_world, Scenario.ask_district)])
                 [Scenario.ai_message "تمام [HANDOFF:checkout]"] in
  forth.2 = Some Workflow.order_node.
Proof.
  intros s. split; [reflexivity |].
  intros back forth.
  exact (proj1 (proj2 (proj2 (proj2 (proj2 (proj2
           (location_handoff_returns_to_order
              Scenario.fresh_world Scenario.fresh_world s
              Scenario.back_to_location
              [Scenario.ai_message "تمام [HANDOFF:checkout]"]
              [(Scenario.fresh_world, Scenario.ask_district)] _ _
              eq_refl eq_refl eq_refl
              ltac:(constructor; [vm_compute; reflexivity | constructor])
              eq_refl (or_intror eq_refl)))))))).
Defined.

(** ** Coverage look-ups *)

Section CoverageFacts2.
Import Coverage CoverageSpec.

Lemma name_test (r : AreaRow) (n : string) :
  (String.eqb (name_ar r) n
   || match name_en r with Some e => String.eqb e n | None => false end) = true
  <-> name_matches r n.
Proof.
  unfold name_matches. rewrite orb_true_iff, String.eqb_eq.
  destruct (name_en r) as [e |].
  - rewrite String.eqb_eq. split; intros [H | H]; auto; [right; congruence |].
    injection H as ->. auto.
  - split; intros [H | H]; auto; discriminate.
Qed.

Lemma alias_test (r : AreaRow) (n : string) :
  existsb (fun a => String.eqb a n) (aliases_ar r) = true <-> alias_matches r n.
Proof.
  unfold alias_matches. rewrite existsb_exists. split.
  - intros (a & Ha & He). apply String.eqb_eq in He. congruence.
  - intros H. exists n. split; [assumption | apply String.eqb_refl].
Qed.

Lemma find_area_sound (areas : list AreaRow) (n : string) (r : AreaRow) :
  find_area_by_name areas n = Some r ->
  In r areas /\ is_active r = true /\
  (name_matches r n \/
   alias_matches r n /\
   forall r', In r' areas -> is_active r' = true -> ~ name_matches r' n).
Proof.
  unfold find_area_by_name.
  destruct (List.find _ areas) as [r1 |] eqn:E1.
  - intros [= <-]. destruct (List.find_some _ _ E1) as (Hin & Hp).
    apply andb_true_iff in Hp. destruct Hp as (Ha & Hn).
    apply name_test in Hn. auto.
  - intros E2. destruct (List.find_some _ _ E2) as (Hin & Hp).
    apply andb_true_iff in Hp. destruct Hp as (Ha & Hn).
    apply alias_test in Hn. split; [assumption |]. split; [assumption |].
    right. split; [assumption |].
    intros r' Hr' Ha' Hm. pose proof (List.find_none _ _ E1 r' Hr') as Hf.
    simpl in Hf. rewrite Ha' in Hf. simpl in Hf.
    apply name_test in Hm. congruence.
Qed.

Lemma find_area_complete (areas : list AreaRow) (n : string) (r : AreaRow) :
  In r areas -> is_active r = true -> name_matches r n \/ alias_matches r n ->
  exists r', find_area_by_name areas n = Some r'.
Proof.
  intros Hin Ha Hm. unfold find_area_by_name.
  destruct (List.find _ areas) as [r1 |] eqn:E1; [eauto |].
  destruct (List.find (fun r => is_active r && existsb _ (aliases_ar r)) areas)
    as [r2 |] eqn:E2; [eauto |].
  exfalso. destruct Hm as [Hm | Hm].
  - pose proof (List.find_none _ _ E1 r Hin) as Hf. simpl in Hf.
    rewrite Ha in Hf. apply name_test in Hm. simpl in Hf. congruence.
  - pose proof (List.find_none _ _ E2 r Hin) as Hf. simpl in Hf.
    rewrite Ha in Hf. apply alias_test in Hm. simpl in Hf. congruence.
Qed.

End CoverageFacts2.

(** X17. coverage_check answers is_covered=true exactly when some active area has
    the normalised query as its Arabic or English name or among its aliases.
    The area it reports is such an active area, and it is one matched by
    alias only when no active area matches by name.  When it answers
    is_covered=false no active area matches, and the suggestions are the
    first three results of the search. *)
Theorem coverage_check_matches_active_areas_only
    (areas : list Coverage.AreaRow) (search : string -> list Coverage.AreaRow)
    (q : string) :
  let n := Unicode.py_strip (ArabicUtils.normalize_area_name q) in
  let r := Coverage.coverage_check areas search q in
  (Coverage.is_covered r = true <->
   exists row, In row areas /\ Coverage.is_active row = true /\
               (CoverageSpec.name_matches row n \/ CoverageSpec.alias_matches row n)) /\
  (forall id name_ar name_en msg,
     r = Coverage.IsCovered id name_ar name_en msg ->
     exists row,
       In row areas /\ Coverage.is_active row = true /\
       Coverage.area_id row = id /\ Coverage.name_ar row = name_ar /\
       Coverage.name_en row = name_en /\
       (CoverageSpec.name_matches row n \/
        CoverageSpec.alias_matches row n /\
        forall row', In row' areas -> Coverage.is_active row' = true ->
                     ~ CoverageSpec.name_matches row' n)) /\
  (forall sugg msg,
     r = Coverage.NotCovered sugg msg ->
     sugg = take 3 (search n) /\
     forall row, In row areas -> Coverage.is_active row = true ->
                 ~ CoverageSpec.name_matches row n /\
                 ~ CoverageSpec.alias_matches row n).
Proof.
  cbv zeta. unfold Coverage.coverage_check, Coverage.check_coverage.
  set (n := Unicode.py_strip (ArabicUtils.normalize_area_name q)).
  destruct (Coverage.find_area_by_name areas n) as [row |] eqn:E.
  - destruct (find_area_sound areas n row E) as (Hin & Ha & Hm).
    split; [| split].
    + split; [intros _ | reflexivity]. exists row. tauto.
    + intros id nm en msg [= <- <- <- _]. exists row. auto 10.
    + intros sugg msg H. discriminate H.
  - assert (Hnone : forall row, In row areas -> Coverage.is_active row = true ->
                      ~ CoverageSpec.name_matches row n /\
                      ~ CoverageSpec.alias_matches row n).
    { intros row Hin Ha. split; intros Hm;
        destruct (find_area_complete areas n row Hin Ha) as (r' & Hr'); auto;
        congruence. }
    assert (Hnc : Coverage.is_covered
                    match search n with
                    | [] => Coverage.NotCovered []
                              [Str "للأسف لا نغطي منطقة '"; Str q;
                               Str "' حالياً. يمكنك الاستلام من الفرع."]
                    | _ :: _ =>
                        Coverage.NotCovered (take 3 (search n))
                          ([Str "لم نجد '"; Str q; Str "'. هل تقصد: "] ++
                           text_join ", " (map Coverage.name_ar (take 3 (search n))) ++
                           [Str "؟"])
                    end = false) by (destruct (search n); reflexivity).
    split; [| split].
    + rewrite Hnc. split; [discriminate |].
      intros (row & Hin & Ha & Hm). destruct (Hnone row Hin Ha). tauto.
    + intros id nm en msg H. destruct (search n); discriminate H.
    + intros sugg msg H. split; [| exact Hnone].
      destruct (search n) eqn:Es; injection H as <- _; reflexivity.
Qed.

Section DistrictFacts.
Import LocationTools.
Local Open Scope Q_scope.

Lemma districts_get_In (k : string) (d : list (string * DistrictInfo)) (i : DistrictInfo) :
  districts_get k d = Some i -> In (k, i) d.
Proof.
  induction d as [| [k' v] d IH]; simpl; [discriminate |].
  destruct (String.eqb_spec k' k) as [-> | N].
  - intros [= <-]. by left.
  - intros H. right. by apply IH.
Qed.

Lemma districts_get_None (k : string) (d : list (string * DistrictInfo)) :
  districts_get k d = None <-> ~ In k (map fst d).
Proof.
  induction d as [| [k' v] d IH]; simpl; [tauto |].
  destruct (String.eqb_spec k' k) as [-> | N].
  - split; [discriminate | tauto].
  - rewrite IH. tauto.
Qed.

Lemma In_take {A : Type} (n : nat) (l : list A) (x : A) :
  In x (take n l) -> In x l.
Proof.
  revert n. induction l as [| y l IH]; intros [| n]; simpl; try tauto.
  intros [H | H]; [auto | right; eapply IH; eauto].
Qed.

Lemma covered_fees :
  Forall (fun e : string * DistrictInfo =>
            10 <= delivery_fee e.2 /\ delivery_fee e.2 <= 18 /\
            estimated_time e.2 <> "")
    COVERED_DISTRICTS.
Proof.
  unfold COVERED_DISTRICTS.
  repeat (constructor; [simpl; repeat split; discriminate |]). constructor.
Qed.

End DistrictFacts.

Local Open Scope Q_scope.

(** X18. check_delivery_district answers covered=true exactly when the trimmed
    query is a key of COVERED_DISTRICTS; then the fee is between 10 and 18,
    the estimated time is not empty and there are no suggestions.  Otherwise
    the fee is 0 and the time is empty; suggestions, when given, are between
    one and three keys of the table, each containing the query or contained
    in it. *)
Theorem check_delivery_district_answers (district : string) :
  let q := Unicode.py_strip district in
  let keys := map fst LocationTools.COVERED_DISTRICTS in
  let r := LocationTools.check_delivery_district district in
  (LocationTools.covered r = true <-> In q keys) /\
  (LocationTools.covered r = true ->
   10 <= LocationTools.res_delivery_fee r /\ LocationTools.res_delivery_fee r <= 18 /\
   LocationTools.res_estimated_time r <> "" /\
   LocationTools.suggestions r = None) /\
  (LocationTools.covered r = false ->
   LocationTools.res_delivery_fee r = 0 /\ LocationTools.res_estimated_time r = "") /\
  (forall sugg : list string,
     LocationTools.suggestions r = Some sugg ->
     sugg <> [] /\ (List.length sugg <= 3)%nat /\
     forall k, In k sugg ->
       In k keys /\ (str_contains q k = true \/ str_contains k q = true)).
Proof.
  cbv zeta. unfold LocationTools.check_delivery_district.
  set (q := Unicode.py_strip district).
  destruct (LocationTools.districts_get q LocationTools.COVERED_DISTRICTS)
    as [i |] eqn:E.
  - pose proof (districts_get_In _ _ _ E) as Hin.
    pose proof (proj1 (List.Forall_forall _ _) covered_fees _ Hin) as (F1 & F2 & F3).
    cbn [LocationTools.covered LocationTools.res_delivery_fee
         LocationTools.res_estimated_time LocationTools.suggestions].
    cbn [snd] in F1, F2, F3.
    split; [| split; [| split]]; try done.
    split; [intros _ | reflexivity].
    apply in_map_iff. exists (q, i). auto.
  - pose proof (proj1 (districts_get_None _ _) E) as Hnot.
    set (found := List.filter _ _).
    assert (Hfound : forall k, In k (take 3 found) ->
              In k (map fst LocationTools.COVERED_DISTRICTS) /\
              (str_contains q k = true \/ str_contains k q = true)).
    { intros k Hk.
      assert (Hk' : In k found) by (eapply In_take; eauto).
      apply List.filter_In in Hk'. destruct Hk' as (Hk1 & Hk2).
      split; [assumption |]. by apply orb_true_iff. }
    assert (Hlen : (List.length (take 3 found) <= 3)%nat)
      by (rewrite length_take; lia).
    destruct found as [| f0 rest] eqn:Ef;
      cbn [LocationTools.covered LocationTools.res_delivery_fee
           LocationTools.res_estimated_time LocationTools.suggestions].
    + split; [| split; [| split]]; try done.
    + split; [| split; [| split]]; try done.
      intros sugg [= <-]. split; [discriminate |]. split; [exact Hlen |].
      exact Hfound.
Qed.

(** ** The order type *)

Section OrderTypeFacts.
Import Store Workflow OrderTypeTools.

Lemma set_order_type_store (str_lower : string -> string) (w : World)
    (ot d : string) (fee : Q) (sid : string) :
  let out := set_order_type str_lower w ot d fee sid in
  OrderTypeTools.get_order_type_info out.2 sid =
    {| info_order_type := sot_order_type out.1;
       info_district := sot_district out.1;
       info_delivery_fee := sot_delivery_fee out.1 |} /\
  sot_success out.1 = true /\
  (sot_order_type out.1 = "pickup" /\ In (str_lower ot) pickup_words /\
   sot_district out.1 = branch_district /\ sot_delivery_fee out.1 = 0%Q
   \/
   sot_order_type out.1 = "delivery" /\ ~ In (str_lower ot) pickup_words /\
   sot_district out.1 = d /\ sot_delivery_fee out.1 = fee).
Proof.
  cbv zeta. unfold set_order_type, OrderTypeTools.get_order_type_info.
  cbn [fst snd order_type_store with_order_type_store].
  rewrite lookup_insert_eq.
  assert (Hw : existsb (String.eqb (str_lower ot)) pickup_words = true <->
               In (str_lower ot) pickup_words).
  { rewrite existsb_exists. split.
    - intros (x & Hx & He). apply String.eqb_eq in He. congruence.
    - intros H. exists (str_lower ot). split; [assumption | apply String.eqb_refl]. }
  destruct (existsb _ pickup_words) eqn:E; simpl.
  - split; [reflexivity |]. split; [reflexivity |]. left.
    repeat split; try reflexivity. by apply Hw.
  - split; [reflexivity |]. split; [reflexivity |]. right.
    repeat split; try reflexivity. intros H. apply Hw in H. discriminate.
Qed.

Lemma location_data_fields (w : World) (s : AgentState) (msgs : list Message) :
  let u0 := stored_fallback w
              (fold_left scan_location_message (drop_context msgs) empty_updates) in
  let u := call_location_agent w s msgs in
  u_order_type u = u_order_type u0 /\ u_district u = u_district u0 /\
  u_delivery_fee u = u_delivery_fee u0 /\
  u_district_validated u = u_district_validated u0.
Proof.
  cbv zeta. unfold call_location_agent.
  destruct (last (drop_context msgs)) as [m |]; [| auto].
  destruct (extract_handoff (content m)); auto.
Qed.

Lemma drop_context_app (l1 l2 : list Message) :
  drop_context (l1 ++ l2) = drop_context l1 ++ drop_context l2.
Proof. unfold drop_context. apply List.filter_app. Qed.

(** Messages that do not set the order type leave the order keys alone. *)
Lemma scan_location_keeps_order (l : list Message) (u : Updates) :
  Forall (fun m => sets_order_type m = false) l ->
  let u' := fold_left scan_location_message l u in
  u_order_type u' = u_order_type u /\ u_district u' = u_district u /\
  u_delivery_fee u' = u_delivery_fee u /\
  u_district_validated u' = u_district_validated u.
Proof.
  cbv zeta. intros H. revert u.
  induction H as [| m l Hm Hl IH]; intros u; [simpl; auto |].
  cbn [fold_left]. destruct (IH (scan_location_message u m)) as (-> & -> & -> & ->).
  unfold scan_location_message. unfold sets_order_type in Hm.
  destruct (parsed m) as [data |]; [| auto].
  destruct (j_order_type data) as [ot |].
  - destruct (j_success data); [discriminate |].
    destruct (j_covered data); auto.
  - destruct (j_covered data); auto.
Qed.

(** The scan marks the district validated exactly when it meets a delivery
    result. *)
Lemma scan_location_validated (l : list Message) (u : Updates) :
  u_district_validated (fold_left scan_location_message l u) =
  if existsb validates_district l then Some true else u_district_validated u.
Proof.
  revert u. induction l as [| m l IH]; intros u; [reflexivity |].
  cbn [fold_left existsb]. rewrite IH.
  destruct (existsb validates_district l); [by rewrite orb_true_r |].
  rewrite orb_false_r.
  unfold scan_location_message, validates_district.
  destruct (parsed m) as [data |]; [| reflexivity].
  destruct (j_order_type data) as [ot |].
  - destruct (j_success data); cbn [andb].
    + unfold set_order_info. cbn [u_district_validated].
      destruct (String.eqb ot "delivery"); reflexivity.
    + destruct (j_covered data); reflexivity.
  - rewrite andb_false_r. destruct (j_covered data); reflexivity.
Qed.

(** The scan of a thread that holds a [set_order_type] result, with no
    result after it that sets the order type. *)
Lemma scan_location_order_result (pre post : list Message) (content : string)
    (r : SetOrderTypeResult) :
  sot_success r = true ->
  Forall (fun m => sets_order_type m = false) (drop_context post) ->
  let u := fold_left scan_location_message
             (drop_context (pre ++ tool_message content r :: post)) empty_updates in
  u_order_type u = Some (sot_order_type r) /\
  u_district u = Some (sot_district r) /\
  u_delivery_fee u = Some (sot_delivery_fee r) /\
  u_district_validated u =
    if String.eqb (sot_order_type r) "delivery"
       || existsb validates_district (drop_context pre)
    then Some true else None.
Proof.
  intros Hsucc Hpost. cbv zeta.
  rewrite drop_context_app.
  change (drop_context (tool_message content r :: post))
    with (tool_message content r :: drop_context post).
  rewrite fold_left_app. cbn [fold_left].
  set (u0 := fold_left scan_location_message (drop_context pre) empty_updates).
  assert (Hv0 : u_district_validated u0 =
                if existsb validates_district (drop_context pre)
                then Some true else None)
    by (unfold u0; apply scan_location_validated).
  destruct (scan_location_keeps_order _
              (scan_location_message u0 (tool_message content r)) Hpost)
    as (K1 & K2 & K3 & K4).
  rewrite K1, K2, K3, K4.
  unfold scan_location_message.
  cbn [parsed tool_message j_order_type j_success j_district j_delivery_fee].
  rewrite Hsucc. unfold set_order_info.
  cbn [u_order_type u_district u_delivery_fee u_district_validated default].
  rewrite Hv0.
  destruct (String.eqb (sot_order_type r) "delivery");
    destruct (existsb validates_district (drop_context pre));
    repeat split; reflexivity.
Qed.

End OrderTypeFacts.

(** X19. set_order_type answers pickup (branch district, fee 0) exactly when the
    lower-cased order type is one of its four pickup words, and delivery with
    the district and fee as given for every other text; the same values are
    what get_order_type_info then returns.  A location node whose messages
    hold the tool's result, whatever tool results come before it and
    whatever comes after it that does not set the order type again, copies
    order type, district and fee into the graph state; the district is marked
    validated when the result, or an earlier result of the same run, is a
    delivery, and keeps its mark otherwise.  When no message sets the order
    type the node falls back to the stored values, except for a delivery with
    an empty district, which leaves the state as it was; the fall-back never
    changes the mark. *)
Theorem set_order_type_reaches_the_graph_state
    (str_lower : string -> string) (w : Store.World) (ot d : string) (fee : Q) :
  let out := OrderTypeTools.set_order_type str_lower w ot d fee "default" in
  let r := out.1 in
  (OrderTypeTools.sot_order_type r = "pickup" /\
   In (str_lower ot) OrderTypeTools.pickup_words /\
   OrderTypeTools.sot_district r = OrderTypeTools.branch_district /\
   OrderTypeTools.sot_delivery_fee r = 0%Q
   \/
   OrderTypeTools.sot_order_type r = "delivery" /\
   ~ In (str_lower ot) OrderTypeTools.pickup_words /\
   OrderTypeTools.sot_district r = d /\
   OrderTypeTools.sot_delivery_fee r = fee) /\
  Workflow.get_order_type_info out.2 =
    {| Store.info_order_type := OrderTypeTools.sot_order_type r;
       Store.info_district := OrderTypeTools.sot_district r;
       Store.info_delivery_fee := OrderTypeTools.sot_delivery_fee r |} /\
  (forall (s : Workflow.AgentState) (pre post : list Workflow.Message)
          (content : string),
     Forall (fun m => OrderTypeTools.sets_order_type m = false) (Workflow.drop_context post) ->
     let msgs := pre ++ OrderTypeTools.tool_message content r :: post in
     let s' := (Workflow.run_node Workflow.location_node out.2 s msgs).1 in
     Workflow.order_type s' = OrderTypeTools.sot_order_type r /\
     Workflow.district s' = Some (OrderTypeTools.sot_district r) /\
     Workflow.delivery_fee s' = OrderTypeTools.sot_delivery_fee r /\
     Workflow.district_validated s' =
       (if String.eqb (OrderTypeTools.sot_order_type r) "delivery"
           || existsb OrderTypeTools.validates_district (Workflow.drop_context pre)
        then true else Workflow.district_validated s)) /\
  (forall (s : Workflow.AgentState) (msgs : list Workflow.Message),
     Forall (fun m => OrderTypeTools.sets_order_type m = false) (Workflow.drop_context msgs) ->
     let s' := (Workflow.run_node Workflow.location_node out.2 s msgs).1 in
     (OrderTypeTools.sot_order_type r = "pickup" \/ d <> "" ->
      Workflow.order_type s' = OrderTypeTools.sot_order_type r /\
      Workflow.district s' = Some (OrderTypeTools.sot_district r) /\
      Workflow.delivery_fee s' = OrderTypeTools.sot_delivery_fee r) /\
     (OrderTypeTools.sot_order_type r = "delivery" -> d = "" ->
      Workflow.order_type s' = Workflow.order_type s /\
      Workflow.district s' = Workflow.district s /\
      Workflow.delivery_fee s' = Workflow.delivery_fee s) /\
     Workflow.district_validated s' = Workflow.district_validated s).
Proof.
  cbv zeta.
  destruct (set_order_type_store str_lower w ot d fee "default") as (Hst & Hsucc & Hcases).
  cbv zeta in *.
  set (out := OrderTypeTools.set_order_type str_lower w ot d fee "default") in *.
  assert (Hinfo : Workflow.get_order_type_info out.2 =
                  {| Store.info_order_type := OrderTypeTools.sot_order_type out.1;
                     Store.info_district := OrderTypeTools.sot_district out.1;
                     Store.info_delivery_fee := OrderTypeTools.sot_delivery_fee out.1 |})
    by exact Hst.
  split; [exact Hcases |]. split; [exact Hinfo |]. split.
  - intros s pre post content Hpost.
    change (Workflow.run_node Workflow.location_node out.2 s
              (pre ++ OrderTypeTools.tool_message content out.1 :: post)).1
      with (Workflow.apply_updates s
              (Workflow.call_location_agent out.2 s
                 (pre ++ OrderTypeTools.tool_message content out.1 :: post))).
    destruct (location_data_fields out.2 s
                (pre ++ OrderTypeTools.tool_message content out.1 :: post))
      as (F1 & F2 & F3 & F4).
    unfold Workflow.apply_updates.
    cbn [Workflow.order_type Workflow.district Workflow.delivery_fee
         Workflow.district_validated].
    rewrite F1, F2, F3, F4.
    destruct (scan_location_order_result pre post content out.1 Hsucc Hpost)
      as (U1 & U2 & U3 & U4).
    cbv zeta in U1, U2, U3, U4.
    unfold Workflow.stored_fallback. rewrite U1. cbv iota.
    rewrite U1, U2, U3, U4.
    destruct (String.eqb (OrderTypeTools.sot_order_type out.1) "delivery" || _);
      repeat split; reflexivity.
  - intros s msgs Hno.
    change (Workflow.run_node Workflow.location_node out.2 s msgs).1
      with (Workflow.apply_updates s (Workflow.call_location_agent out.2 s msgs)).
    destruct (location_data_fields out.2 s msgs) as (F1 & F2 & F3 & F4).
    unfold Workflow.apply_updates.
    cbn [Workflow.order_type Workflow.district Workflow.delivery_fee
         Workflow.district_validated].
    rewrite F1, F2, F3, F4.
    destruct (scan_location_keeps_order _ Workflow.empty_updates Hno)
      as (K1 & K2 & K3 & K4).
    set (u := fold_left Workflow.scan_location_message (Workflow.drop_context msgs)
                Workflow.empty_updates) in *.
    cbn [Workflow.u_order_type Workflow.u_district Workflow.u_delivery_fee
         Workflow.u_district_validated Workflow.empty_updates] in K1, K2, K3, K4.
    unfold Workflow.stored_fallback. rewrite K1.
    rewrite Hinfo. cbn [Store.info_order_type Store.info_district Store.info_delivery_fee].
    destruct Hcases as [(C1 & _ & C2 & C3) | (C1 & _ & C2 & C3)];
      rewrite C1, C2, ?C3.
    + cbn. rewrite K4. split; [auto |]. split; [| reflexivity]. intros E. discriminate E.
    + destruct (String.eqb_spec d "") as [-> | Hd]; cbn.
      * rewrite K1, K2, K3, K4. cbn. split; [| auto]. intros [E | E]; [discriminate E | done].
      * unfold str_truthy. destruct (String.eqb_spec d ""); [done |]. cbn.
        rewrite K4. split; [auto |]. split; [| reflexivity]. intros _ E. done.
Qed.

(** ** Opening and closing times *)

Section CalendarFacts.
Import Config TimeUtils Calendar.

Lemma replace_tomorrow (h : Z) (now : DateTime) :
  valid_datetime now -> (0 <= h <= 23)%Z ->
  (next_day ← replace_time h now; replace_day (dt_day now + 1) next_day) =
  if decide (last_day_of_month now) then None
  else Some {| dt_year := dt_year now; dt_month := dt_month now;
               dt_day := dt_day now + 1; dt_hour := h; dt_minute := 0;
               dt_second := 0; dt_microsecond := 0 |}.
Proof.
  intros (_ & Hd & _) Hh. unfold replace_time, last_day_of_month.
  destruct (Z.leb_spec 0 h); [| lia]. destruct (Z.leb_spec h 23); [| lia].
  simpl. unfold replace_day. simpl.
  destruct (Z.leb_spec 1 (dt_day now + 1)); [| lia].
  destruct (Z.leb_spec (dt_day now + 1) (days_in_month (dt_year now) (dt_month now)));
    simpl; destruct (decide _); try reflexivity; lia.
Qed.

End CalendarFacts.

(** X20. For a valid datetime and opening and closing hours in 0..23,
    get_closing_time raises (ValueError of replace(day=now.day + 1)) exactly
    when the hour has reached the opening hour on the last day of a month,
    and so does get_next_opening_time.  In every other case they return the
    closing (opening) hour at minute 0 of the same month and year, on the next
    day when the hour has reached the opening hour and on the same day
    before. *)
Theorem closing_time_fails_on_the_last_day_of_a_month
    (settings : Config.Settings) (now : Calendar.DateTime) :
  Calendar.valid_datetime now ->
  (0 <= Config.opening_hour settings <= 23)%Z ->
  (0 <= Config.closing_hour settings <= 23)%Z ->
  (Calendar.get_closing_time settings now = None <->
   (Config.opening_hour settings <= Calendar.dt_hour now)%Z /\
   Calendar.last_day_of_month now) /\
  (Calendar.get_next_opening_time settings now = None <->
   (Config.opening_hour settings <= Calendar.dt_hour now)%Z /\
   Calendar.last_day_of_month now) /\
  (forall dt, Calendar.get_closing_time settings now = Some dt ->
     Calendar.dt_hour dt = Config.closing_hour settings /\
     Calendar.dt_minute dt = 0%Z /\
     Calendar.dt_year dt = Calendar.dt_year now /\
     Calendar.dt_month dt = Calendar.dt_month now /\
     Calendar.dt_day dt =
       (if (Config.opening_hour settings <=? Calendar.dt_hour now)%Z
        then Calendar.dt_day now + 1 else Calendar.dt_day now)%Z) /\
  (forall dt, Calendar.get_next_opening_time settings now = Some dt ->
     Calendar.dt_hour dt = Config.opening_hour settings /\
     Calendar.dt_minute dt = 0%Z /\
     Calendar.dt_year dt = Calendar.dt_year now /\
     Calendar.dt_month dt = Calendar.dt_month now /\
     Calendar.dt_day dt =
       (if (Calendar.dt_hour now <? Config.opening_hour settings)%Z
        then Calendar.dt_day now else Calendar.dt_day now + 1)%Z).
Proof.
  intros Hv Ho Hc.
  pose proof (replace_tomorrow (Config.closing_hour settings) now Hv Hc) as Tc.
  pose proof (replace_tomorrow (Config.opening_hour settings) now Hv Ho) as To.
  assert (Rc : Calendar.replace_time (Config.closing_hour settings) now =
               Some {| Calendar.dt_year := Calendar.dt_year now;
                       Calendar.dt_month := Calendar.dt_month now;
                       Calendar.dt_day := Calendar.dt_day now;
                       Calendar.dt_hour := Config.closing_hour settings;
                       Calendar.dt_minute := 0; Calendar.dt_second := 0;
                       Calendar.dt_microsecond := 0 |}).
  { unfold Calendar.replace_time.
    destruct (Z.leb_spec 0 (Config.closing_hour settings)); [| lia].
    destruct (Z.leb_spec (Config.closing_hour settings) 23); [reflexivity | lia]. }
  assert (Ro : Calendar.replace_time (Config.opening_hour settings) now =
               Some {| Calendar.dt_year := Calendar.dt_year now;
                       Calendar.dt_month := Calendar.dt_month now;
                       Calendar.dt_day := Calendar.dt_day now;
                       Calendar.dt_hour := Config.opening_hour settings;
                       Calendar.dt_minute := 0; Calendar.dt_second := 0;
                       Calendar.dt_microsecond := 0 |}).
  { unfold Calendar.replace_time.
    destruct (Z.leb_spec 0 (Config.opening_hour settings)); [| lia].
    destruct (Z.leb_spec (Config.opening_hour settings) 23); [reflexivity | lia]. }
  unfold Calendar.get_closing_time, Calendar.get_next_opening_time.
  cbv zeta. rewrite Tc, To, Rc, Ro. clear Tc To Rc Ro.
  destruct (Z.leb_spec (Config.opening_hour settings) (Calendar.dt_hour now));
    destruct (Z.ltb_spec (Calendar.dt_hour now) (Config.opening_hour settings));
    try lia; destruct (decide (Calendar.last_day_of_month now));
    (split; [| split; [| split]]);
    try (split; [discriminate | tauto || lia]);
    try (split; [tauto | reflexivity]);
    try (split; [discriminate | intros (? & ?); tauto || lia]);
    try (intros dt E; first [discriminate E | injection E as <-; simpl; auto]).
Qed.

Lemma closing_time_fails_on_the_last_day_of_a_month_witness :
  Calendar.get_closing_time Config.default_settings
    {| Calendar.dt_year := 2024; Calendar.dt_month := 1; Calendar.dt_day := 31;
       Calendar.dt_hour := 21; Calendar.dt_minute := 30; Calendar.dt_second := 0;
       Calendar.dt_microsecond := 0 |} = None.
Proof.
  apply (proj1 (closing_time_fails_on_the_last_day_of_a_month
                  Config.default_settings
                  {| Calendar.dt_year := 2024; Calendar.dt_month := 1;
                     Calendar.dt_day := 31; Calendar.dt_hour := 21;
                     Calendar.dt_minute := 30; Calendar.dt_second := 0;
                     Calendar.dt_microsecond := 0 |}
                  ltac:(repeat split; vm_compute; discriminate)
                  ltac:(simpl; lia) ltac:(simpl; lia))).
  split; [simpl; lia | reflexivity].
Defined.

(** X21. With the default hours (9 to 3) and both clock reads at the same valid
    datetime, get_restaurant_status_message_ar says open until 3 before 03:00,
    closed and opening at 9 from 03:00 to 08:59, and open until 3 from 09:00
    on; but from 09:00 on the last day of a month it raises instead of
    answering. *)
Theorem restaurant_status_message_by_hour (now : Calendar.DateTime) :
  Calendar.valid_datetime now ->
  let m := Calendar.get_restaurant_status_message_ar Config.default_settings now now in
  ((Calendar.dt_hour now < 3)%Z ->
   m = Some [Str "المطعم مفتوح حتى "; Int 3; Str " "; Str "صباحاً"]) /\
  ((3 <= Calendar.dt_hour now < 9)%Z ->
   m = Some [Str "المطعم مغلق حالياً. يفتح الساعة "; Int 9; Str " "; Str "صباحاً"]) /\
  ((9 <= Calendar.dt_hour now)%Z -> ~ Calendar.last_day_of_month now ->
   m = Some [Str "المطعم مفتوح حتى "; Int 3; Str " "; Str "صباحاً"]) /\
  ((9 <= Calendar.dt_hour now)%Z -> Calendar.last_day_of_month now -> m = None).
Proof.
  intros Hv. cbv zeta.
  pose proof (replace_tomorrow 3 now Hv ltac:(lia)) as T3.
  unfold Calendar.get_restaurant_status_message_ar, TimeUtils.is_restaurant_open,
    Calendar.get_closing_time, Calendar.get_next_opening_time.
  cbn [Config.opening_hour Config.closing_hour Config.default_settings
       Calendar.clock_of TimeUtils.hour].
  rewrite T3. clear T3.
  change (3 <? 9)%Z with true. cbv iota.
  destruct (Z.leb_spec 9 (Calendar.dt_hour now));
    destruct (Z.ltb_spec (Calendar.dt_hour now) 3);
    destruct (Z.ltb_spec (Calendar.dt_hour now) 9); try lia;
    cbn [orb]; repeat split; intros; try lia;
    destruct (decide (Calendar.last_day_of_month now)); try tauto; reflexivity.
Qed.

Lemma restaurant_status_message_by_hour_witness :
  Calendar.get_restaurant_status_message_ar Config.default_settings
    {| Calendar.dt_year := 2024; Calendar.dt_month := 2; Calendar.dt_day := 29;
       Calendar.dt_hour := 12; Calendar.dt_minute := 0; Calendar.dt_second := 0;
       Calendar.dt_microsecond := 0 |}
    {| Calendar.dt_year := 2024; Calendar.dt_month := 2; Calendar.dt_day := 29;
       Calendar.dt_hour := 12; Calendar.dt_minute := 0; Calendar.dt_second := 0;
       Calendar.dt_microsecond := 0 |} = None.
Proof.
  apply (proj2 (proj2 (proj2 (restaurant_status_message_by_hour
                  {| Calendar.dt_year := 2024; Calendar.dt_month := 2;
                     Calendar.dt_day := 29; Calendar.dt_hour := 12;
                     Calendar.dt_minute := 0; Calendar.dt_second := 0;
                     Calendar.dt_microsecond := 0 |}
                  ltac:(repeat split; vm_compute; discriminate))))).
  - simpl. lia.
  - reflexivity.
Defined.

(** ** The cart of a session *)

Section SessionCartFacts.
Import SessionModel SessionCart.

Lemma fold_sum_Q {A : Type} (f : A -> Q) (l : list A) (a : Q) :
  (fold_left (fun acc x => acc + f x) l a
   == a + fold_left (fun acc x => acc + f x) l 0)%Q.
Proof.
  revert a. induction l as [| x l IH]; intros a; simpl.
  - ring.
  - rewrite (IH (a + f x)%Q), (IH (0 + f x)%Q). ring.
Qed.

Lemma fold_sum_Z {A : Type} (f : A -> Z) (l : list A) (a : Z) :
  fold_left (fun acc x => acc + f x)%Z l a
  = (a + fold_left (fun acc x => acc + f x)%Z l 0)%Z.
Proof.
  revert a. induction l as [| x l IH]; intros a; simpl.
  - lia.
  - rewrite (IH (a + f x)%Z), (IH (0 + f x)%Z). lia.
Qed.

Lemma subtotal_cons (x : CartItem) (c : list CartItem) :
  (subtotal_of (x :: c) == total_price x + subtotal_of c)%Q.
Proof.
  unfold subtotal_of. simpl. rewrite (fold_sum_Q total_price). ring.
Qed.

Lemma count_cons (x : CartItem) (c : list CartItem) :
  count_of (x :: c) = (quantity x + count_of c)%Z.
Proof.
  unfold count_of. simpl. rewrite (fold_sum_Z quantity). lia.
Qed.

Lemma subtotal_app (c1 c2 : list CartItem) :
  (subtotal_of (c1 ++ c2) == subtotal_of c1 + subtotal_of c2)%Q.
Proof.
  induction c1 as [| x c1 IH].
  - simpl. unfold subtotal_of at 2. simpl. ring.
  - change ((x :: c1) ++ c2) with (x :: (c1 ++ c2)).
    rewrite !subtotal_cons, IH. ring.
Qed.

Lemma count_app (c1 c2 : list CartItem) :
  count_of (c1 ++ c2) = (count_of c1 + count_of c2)%Z.
Proof.
  induction c1 as [| x c1 IH].
  - reflexivity.
  - change ((x :: c1) ++ c2) with (x :: (c1 ++ c2)).
    rewrite !count_cons, IH. lia.
Qed.

Lemma subtotal_alter (f : CartItem -> CartItem) (c : list CartItem) (i : nat)
    (x : CartItem) :
  c !! i = Some x ->
  (subtotal_of (alter f i c) == subtotal_of c - total_price x + total_price (f x))%Q.
Proof.
  revert i. induction c as [| y c IH]; intros i H; [done |].
  destruct i as [| i]; simpl in H.
  - injection H as ->. simpl. rewrite !subtotal_cons. ring.
  - change (alter f (S i) (y :: c)) with (y :: alter f i c).
    rewrite !subtotal_cons, (IH i H). ring.
Qed.

Lemma count_alter (f : CartItem -> CartItem) (c : list CartItem) (i : nat)
    (x : CartItem) :
  c !! i = Some x ->
  count_of (alter f i c) = (count_of c - quantity x + quantity (f x))%Z.
Proof.
  revert i. induction c as [| y c IH]; intros i H; [done |].
  destruct i as [| i]; simpl in H.
  - injection H as ->. simpl. rewrite !count_cons. lia.
  - change (alter f (S i) (y :: c)) with (y :: alter f i c).
    rewrite !count_cons, (IH i H). lia.
Qed.

Lemma subtotal_delete (c : list CartItem) (i : nat) (x : CartItem) :
  c !! i = Some x ->
  (subtotal_of (delete i c) == subtotal_of c - total_price x)%Q /\
  count_of (delete i c) = (count_of c - quantity x)%Z /\
  S (List.length (delete i c)) = List.length c.
Proof.
  revert i. induction c as [| y c IH]; intros i H; [done |].
  destruct i as [| i]; simpl in H.
  - injection H as ->. simpl. rewrite subtotal_cons, count_cons.
    repeat split; [ring | lia].
  - change (delete (S i) (y :: c)) with (y :: delete i c).
    destruct (IH i H) as (H1 & H2 & H3).
    rewrite !subtotal_cons, !count_cons, H1, H2. simpl.
    repeat split; [ring | lia | lia].
Qed.

End SessionCartFacts.

(** X22. SessionState.add_to_cart raises get_cart_subtotal by the item's
    total_price and get_cart_item_count by its quantity, whether the item is
    merged into the first equal line (same item, modifiers and instructions;
    the cart keeps its length) or appended.  remove_from_cart with an index
    inside the cart returns the item at that index, shortens the cart by one
    and lowers the two sums by that item's total_price and quantity; with any
    other index, negative ones included, it returns None and changes
    nothing. *)
Theorem session_cart_totals_are_additive
    (s : SessionModel.SessionState) (item : SessionModel.CartItem) (index : Z) :
  (let s' := SessionCart.add_to_cart item s in
   (SessionModel.get_cart_subtotal s' ==
      SessionModel.get_cart_subtotal s + SessionModel.total_price item)%Q /\
   SessionModel.get_cart_item_count s' =
     (SessionModel.get_cart_item_count s + SessionModel.quantity item)%Z /\
   (match OrderTools.find_idx (SessionCart.same_cart_item item) (SessionModel.cart s) with
    | Some idx =>
        List.length (SessionModel.cart s') = List.length (SessionModel.cart s) /\
        exists existing,
          SessionModel.cart s !! idx = Some existing /\
          SessionModel.menu_item_id existing = SessionModel.menu_item_id item /\
          SessionModel.cart s' !! idx = Some (SessionCart.merge_item item existing)
    | None => SessionModel.cart s' = SessionModel.cart s ++ [item]
    end)) /\
  (let out := SessionCart.remove_from_cart index s in
   match out.1 with
   | Some removed =>
       (0 <= index < Z.of_nat (List.length (SessionModel.cart s)))%Z /\
       SessionModel.cart s !! Z.to_nat index = Some removed /\
       (SessionModel.get_cart_subtotal out.2 ==
          SessionModel.get_cart_subtotal s - SessionModel.total_price removed)%Q /\
       SessionModel.get_cart_item_count out.2 =
         (SessionModel.get_cart_item_count s - SessionModel.quantity removed)%Z /\
       S (List.length (SessionModel.cart out.2)) = List.length (SessionModel.cart s)
   | None =>
       (index < 0 \/ Z.of_nat (List.length (SessionModel.cart s)) <= index)%Z /\
       out.2 = s
   end).
Proof.
  split.
  - cbv zeta. unfold SessionCart.add_to_cart.
    change (SessionModel.get_cart_subtotal (SessionCart.with_cart ?c s))
      with (SessionCart.subtotal_of c).
    change (SessionModel.get_cart_item_count (SessionCart.with_cart ?c s))
      with (SessionCart.count_of c).
    change (SessionModel.get_cart_subtotal s) with (SessionCart.subtotal_of (SessionModel.cart s)).
    change (SessionModel.get_cart_item_count s) with (SessionCart.count_of (SessionModel.cart s)).
    change (SessionModel.cart (SessionCart.with_cart ?c s)) with c.
    destruct (OrderTools.find_idx _ _) as [idx |] eqn:E.
    + destruct (find_idx_Some_lookup _ _ _ E) as (x & Hx & Hp & _).
      rewrite (subtotal_alter _ _ _ _ Hx), (count_alter _ _ _ _ Hx). simpl.
      split; [ring |]. split; [lia |]. split; [apply length_alter |].
      exists x. split; [exact Hx |]. split.
      * unfold SessionCart.same_cart_item in Hp.
        apply andb_true_iff in Hp. destruct Hp as (Hp & _).
        apply andb_true_iff in Hp. destruct Hp as (Hp & _).
        by apply Z.eqb_eq.
      * rewrite list_lookup_alter_eq, Hx. reflexivity.
    + rewrite subtotal_app, count_app.
      unfold SessionCart.subtotal_of at 2, SessionCart.count_of at 2. simpl.
      split; [ring |]. split; [lia | reflexivity].
  - cbv zeta. unfold SessionCart.remove_from_cart.
    destruct (Z.leb_spec 0 index); destruct (Z.ltb_spec index
      (Z.of_nat (List.length (SessionModel.cart s)))); cbn [andb fst snd];
      try (split; [lia | reflexivity]).
    destruct (SessionModel.cart s !! Z.to_nat index) as [x |] eqn:Hx.
    + destruct (subtotal_delete _ _ _ Hx) as (D1 & D2 & D3).
      split; [lia |]. split; [reflexivity |].
      split; [exact D1 |]. split; [exact D2 | exact D3].
    + apply lookup_ge_None in Hx. lia.
Qed.

(** ** Numerals and phone numbers *)

Section NumeralFacts.
Import Unicode NumeralConverter.

Lemma fold_replace_char (t : list (N * N)) (l : list N) :
  fold_left replace_char t l = map (fun c => fold_left replace_one t c) l.
Proof.
  revert l. induction t as [| ab t IH]; intros l; simpl.
  - symmetry. apply map_id.
  - rewrite IH. unfold replace_char at 1. rewrite map_map. reflexivity.
Qed.

Lemma fold_replace_one_other (t : list (N * N)) (c : N) :
  Forall (fun ab => ab.1 <> c) t -> fold_left replace_one t c = c.
Proof.
  induction 1 as [| ab t Hab Ht IH]; simpl; [reflexivity |].
  unfold replace_one at 2. destruct (N.eqb_spec c ab.1); [congruence | exact IH].
Qed.

Lemma western_digit_fold (c : N) :
  fold_left replace_one EXTENDED_ARABIC_TO_WESTERN
    (fold_left replace_one ARABIC_INDIC_TO_WESTERN c) = western_digit c.
Proof.
  unfold western_digit.
  destruct (((1632 <=? c) && (c <=? 1641))%N) eqn:E1.
  - apply andb_true_iff in E1. destruct E1 as (H1 & H2).
    apply N.leb_le in H1. apply N.leb_le in H2.
    assert (Hc : In c [1632; 1633; 1634; 1635; 1636; 1637; 1638; 1639; 1640; 1641]%N).
    { simpl. lia. }
    simpl in Hc.
    repeat (destruct Hc as [<- | Hc]; [reflexivity |]). destruct Hc.
  - destruct (((1776 <=? c) && (c <=? 1785))%N) eqn:E2.
    + apply andb_true_iff in E2. destruct E2 as (H1 & H2).
      apply N.leb_le in H1. apply N.leb_le in H2.
      assert (Hc : In c [1776; 1777; 1778; 1779; 1780; 1781; 1782; 1783; 1784; 1785]%N).
      { simpl. lia. }
      simpl in Hc.
      repeat (destruct Hc as [<- | Hc]; [reflexivity |]). destruct Hc.
    + assert (H1 : (c < 1632 \/ 1641 < c)%N).
      { apply andb_false_iff in E1. destruct E1 as [E | E];
          apply N.leb_gt in E; lia. }
      assert (H2 : (c < 1776 \/ 1785 < c)%N).
      { apply andb_false_iff in E2. destruct E2 as [E | E];
          apply N.leb_gt in E; lia. }
      rewrite (fold_replace_one_other ARABIC_INDIC_TO_WESTERN c)
        by (repeat (constructor; [cbn [fst]; lia |]); constructor).
      apply fold_replace_one_other.
      repeat (constructor; [cbn [fst]; lia |]); constructor.
Qed.

Lemma normalize_numerals_map (l : list N) :
  normalize_numerals_cp l = map western_digit l.
Proof.
  unfold normalize_numerals_cp. rewrite !fold_replace_char, map_map.
  apply map_ext. intros c. apply western_digit_fold.
Qed.

Lemma western_digit_not_arabic (c : N) : is_arabic_digit (western_digit c) = false.
Proof.
  unfold western_digit, is_arabic_digit.
  destruct (N.leb_spec 1632 c); destruct (N.leb_spec c 1641); simpl;
    destruct (N.leb_spec 1776 c); destruct (N.leb_spec c 1785); simpl;
    repeat match goal with
           | |- context [(?a <=? ?b)%N] => destruct (N.leb_spec a b)
           end; simpl; try reflexivity; lia.
Qed.

Lemma western_digit_fixed (c : N) :
  is_arabic_digit c = false -> western_digit c = c.
Proof.
  unfold western_digit, is_arabic_digit. intros H.
  apply orb_false_iff in H. destruct H as (-> & ->). reflexivity.
Qed.

End NumeralFacts.

(** X23. normalize_numerals maps each character on its own: an Arabic-Indic or
    extended Arabic-Indic digit to its Western digit, any other character to
    itself.  The text keeps its length, the result holds none of the twenty
    digits, normalising twice is normalising once, and a text without such
    digits is returned as it is. *)
Theorem normalize_numerals_is_idempotent (text : list N) :
  let out := NumeralConverter.normalize_numerals_cp text in
  out = map NumeralConverter.western_digit text /\
  List.length out = List.length text /\
  Forall (fun c => NumeralConverter.is_arabic_digit c = false) out /\
  NumeralConverter.normalize_numerals_cp out = out /\
  (Forall (fun c => NumeralConverter.is_arabic_digit c = false) text -> out = text).
Proof.
  cbv zeta. rewrite !normalize_numerals_map.
  split; [reflexivity |]. split; [apply length_map |]. split; [| split].
  - apply List.Forall_forall. intros c Hc. apply in_map_iff in Hc.
    destruct Hc as (x & <- & _). apply western_digit_not_arabic.
  - rewrite map_map. apply map_ext. intros c.
    apply western_digit_fixed, western_digit_not_arabic.
  - intros H. rewrite <- (map_id text) at 2. apply map_ext_in.
    intros c Hc. apply western_digit_fixed.
    exact (proj1 (List.Forall_forall _ _) H c Hc).
Qed.

Section PhoneFacts.
Import Unicode NumeralConverter PhoneValidator.
Variable is_decimal : N -> bool.

Lemma cleaned_fixed (l : list N) :
  cleaned l ->
  List.filter (fun c => negb (is_separator c)) (normalize_numerals_cp l) = l.
Proof.
  intros H. rewrite normalize_numerals_map.
  induction H as [| c l (Ha & Hs) Hl IH]; simpl; [reflexivity |].
  rewrite (western_digit_fixed c Ha), Hs. simpl. f_equal. exact IH.
Qed.

Lemma cleaned_pipeline (l : list N) :
  cleaned (List.filter (fun c => negb (is_separator c)) (normalize_numerals_cp l)).
Proof.
  rewrite normalize_numerals_map. apply List.Forall_forall. intros c Hc.
  apply List.filter_In in Hc. destruct Hc as (Hc & Hs).
  apply in_map_iff in Hc. destruct Hc as (x & <- & _).
  split; [apply western_digit_not_arabic | by apply negb_true_iff].
Qed.

Lemma cleaned_drop (n : nat) (l : list N) : cleaned l -> cleaned (drop n l).
Proof.
  intros H. revert n. induction H as [| c l Hc Hl IH]; intros [| n]; simpl;
    try (by constructor). apply IH.
Qed.

Lemma cleaned_zero (l : list N) : cleaned l -> cleaned (48%N :: l).
Proof. intros H. constructor; [split; reflexivity | exact H]. Qed.

Lemma is_saudi_mobile_shape (p : list N) :
  is_saudi_mobile is_decimal p = true <->
  exists ds, p = 48%N :: 53%N :: ds /\ List.length ds = 8%nat /\
             forallb is_decimal ds = true.
Proof.
  unfold is_saudi_mobile. destruct p as [| a [| b rest]].
  - split; [discriminate | intros (ds & H & _); discriminate].
  - split; [discriminate | intros (ds & H & _); discriminate].
  - rewrite !andb_true_iff, !N.eqb_eq, Nat.eqb_eq. split.
    + intros (((-> & ->) & Hl) & Hd). eauto.
    + intros (ds & [= -> -> ->] & Hl & Hd). auto.
Qed.

Lemma validate_cleaned (p : list N) :
  cleaned p -> is_saudi_mobile is_decimal p = true ->
  validate_saudi_phone is_decimal p = Some p.
Proof.
  intros Hc Hm. unfold validate_saudi_phone. rewrite (cleaned_fixed p Hc).
  apply is_saudi_mobile_shape in Hm. destruct Hm as (ds & -> & Hl & Hd).
  cbn [starts_with N.eqb Pos.eqb andb].
  replace (is_saudi_mobile is_decimal (48%N :: 53%N :: ds)) with true; [reflexivity |].
  symmetry. apply is_saudi_mobile_shape. eauto.
Qed.

End PhoneFacts.

Section PhoneFacts2.
Import Unicode NumeralConverter PhoneValidator.

Lemma ascii_digit_cleaned (c : N) :
  is_ascii_digit c = true -> is_arabic_digit c = false /\ is_separator c = false.
Proof.
  unfold is_ascii_digit. intros H. apply andb_true_iff in H.
  destruct H as (H1 & H2). apply N.leb_le in H1. apply N.leb_le in H2.
  assert (Hc : In c [48; 49; 50; 51; 52; 53; 54; 55; 56; 57]%N) by (simpl; lia).
  simpl in Hc.
  repeat (destruct Hc as [<- | Hc]; [split; reflexivity |]). destruct Hc.
Qed.

Lemma ascii_digits_cleaned (ds : list N) :
  forallb is_ascii_digit ds = true -> cleaned ds.
Proof.
  intros H. apply List.Forall_forall. intros c Hc.
  apply ascii_digit_cleaned. exact (proj1 (forallb_forall _ _) H c Hc).
Qed.

Lemma take_digits_spec (n : nat) (l ds : list N) :
  take_digits n l = Some ds ->
  List.length ds = n /\ forallb is_ascii_digit ds = true.
Proof.
  revert l ds. induction n as [| n IH]; intros l ds; simpl.
  - intros [= <-]. auto.
  - destruct l as [| c rest]; [discriminate |].
    destruct (is_ascii_digit c) eqn:E; [| discriminate].
    destruct (take_digits n rest) as [ds' |] eqn:E'; [| discriminate].
    simpl. intros [= <-]. destruct (IH _ _ E') as (H1 & H2).
    simpl. rewrite E, H1, H2. auto.
Qed.

Lemma re_search_found (m : list N -> option (list N)) (l found : list N) :
  re_search m l = Some found -> exists k, m (drop k l) = Some found.
Proof.
  induction l as [| c l IH]; simpl.
  - destruct (m []) eqn:E; [| discriminate]. intros [= <-]. by exists 0%nat.
  - destruct (m (c :: l)) eqn:E.
    + intros [= <-]. by exists 0%nat.
    + intros H. destruct (IH H) as (k & Hk). by exists (S k).
Qed.

Lemma extract_phone_shape (text p : list N) :
  extract_phone_number_cp text = Some p ->
  exists ds, p = 48%N :: ds /\ List.length ds = 9%nat /\
             forallb is_ascii_digit ds = true.
Proof.
  unfold extract_phone_number_cp.
  set (normalized := List.filter _ _).
  destruct (re_search match_international normalized) as [f |] eqn:E1.
  - intros [= <-]. destruct (re_search_found _ _ _ E1) as (k & Hk).
    unfold match_international in Hk.
    destruct (starts_with [43; 57; 54; 54]%N (drop k normalized)).
    + destruct (take_digits 9 _) as [ds |] eqn:Ed; [| discriminate].
      simpl in Hk. injection Hk as <-.
      destruct (take_digits_spec _ _ _ Ed) as (H1 & H2).
      exists ds. auto.
    + destruct (starts_with [57; 54; 54]%N (drop k normalized)); [| discriminate].
      destruct (take_digits 9 _) as [ds |] eqn:Ed; [| discriminate].
      simpl in Hk. injection Hk as <-.
      destruct (take_digits_spec _ _ _ Ed) as (H1 & H2).
      exists ds. auto.
  - destruct (re_search match_local normalized) as [f |] eqn:E2; [| discriminate].
    intros [= <-]. destruct (re_search_found _ _ _ E2) as (k & Hk).
    unfold match_local in Hk.
    destruct (starts_with [48]%N (drop k normalized)); [| discriminate].
    destruct (take_digits 9 _) as [ds |] eqn:Ed; [| discriminate].
    simpl in Hk. injection Hk as <-.
    destruct (take_digits_spec _ _ _ Ed) as (H1 & H2).
    exists ds. auto.
Qed.

End PhoneFacts2.

(** X24. A number validate_saudi_phone accepts is returned as 05 followed by eight
    decimal digits, without Arabic-Indic digits or separators, and validating
    the returned number again returns it unchanged. *)
Theorem validate_saudi_phone_normal_form
    (is_decimal : N -> bool) (phone p : list N) :
  PhoneValidator.validate_saudi_phone is_decimal phone = Some p ->
  (exists ds, p = 48%N :: 53%N :: ds /\ List.length ds = 8%nat /\
              forallb is_decimal ds = true) /\
  Forall (fun c => NumeralConverter.is_arabic_digit c = false /\
                   PhoneValidator.is_separator c = false) p /\
  PhoneValidator.validate_saudi_phone is_decimal p = Some p.
Proof.
  unfold PhoneValidator.validate_saudi_phone at 1.
  pose proof (cleaned_pipeline phone) as Hc.
  set (l := List.filter _ _) in *.
  set (l' := if NumeralConverter.starts_with _ l then _ else _).
  assert (Hc' : PhoneValidator.cleaned l').
  { subst l'. destruct (NumeralConverter.starts_with _ l);
      [apply cleaned_zero, cleaned_drop, Hc |].
    destruct (NumeralConverter.starts_with _ l);
      [apply cleaned_zero, cleaned_drop, Hc | exact Hc]. }
  destruct (PhoneValidator.is_saudi_mobile is_decimal l') eqn:Hm; [| discriminate].
  intros [= <-]. split; [by apply is_saudi_mobile_shape |].
  split; [exact Hc' | by apply validate_cleaned].
Qed.

Lemma validate_saudi_phone_normal_form_witness :
  let is_digit := NumeralConverter.is_ascii_digit in
  let typed := Unicode.utf8_decode "+966 55-123 ٤٥٦٧" in
  let p := Unicode.utf8_decode "0551234567" in
  PhoneValidator.validate_saudi_phone is_digit typed = Some p /\
  PhoneValidator.validate_saudi_phone is_digit p = Some p.
Proof.
  intros is_digit typed p.
  assert (H : PhoneValidator.validate_saudi_phone is_digit typed = Some p)
    by reflexivity.
  split; [exact H |].
  exact (proj2 (proj2 (validate_saudi_phone_normal_form is_digit typed p H))).
Defined.

(** X25. A number extract_phone_number finds is 0 followed by nine ASCII digits.
    It need not be a mobile number: validate_saudi_phone accepts it, and
    returns it unchanged, exactly when its second digit is 5. *)
Theorem extracted_phone_is_ten_digits
    (is_decimal : N -> bool) (text p : list N) :
  (forall c, NumeralConverter.is_ascii_digit c = true -> is_decimal c = true) ->
  NumeralConverter.extract_phone_number_cp text = Some p ->
  (exists ds, p = 48%N :: ds /\ List.length ds = 9%nat /\
              forallb NumeralConverter.is_ascii_digit ds = true) /\
  (p !! 1%nat = Some 53%N ->
   PhoneValidator.validate_saudi_phone is_decimal p = Some p) /\
  (p !! 1%nat <> Some 53%N ->
   PhoneValidator.validate_saudi_phone is_decimal p = None).
Proof.
  intros Hdec He. destruct (extract_phone_shape text p He) as (ds & -> & Hl & Hd).
  split; [eauto |].
  assert (Hc : PhoneValidator.cleaned (48%N :: ds)) by (apply cleaned_zero, ascii_digits_cleaned, Hd).
  assert (Hdd : forallb is_decimal ds = true).
  { apply forallb_forall. intros c Hc'. apply Hdec.
    exact (proj1 (forallb_forall _ _) Hd c Hc'). }
  destruct ds as [| b rest]; [discriminate |]. simpl in Hl, Hdd.
  apply andb_true_iff in Hdd. destruct Hdd as (_ & Hrest).
  split.
  - intros [= ->]. apply validate_cleaned; [exact Hc |].
    apply is_saudi_mobile_shape. exists rest. repeat split; [lia | exact Hrest].
  - intros Hb. unfold PhoneValidator.validate_saudi_phone.
    rewrite (cleaned_fixed _ Hc). cbn [NumeralConverter.starts_with N.eqb Pos.eqb andb].
    destruct (PhoneValidator.is_saudi_mobile is_decimal (48%N :: b :: rest)) eqn:Hm;
      [| reflexivity].
    apply is_saudi_mobile_shape in Hm. destruct Hm as (ds' & [= -> _] & _).
    by destruct Hb.
Qed.

Lemma extracted_phone_is_ten_digits_witness :
  let text := Unicode.utf8_decode "رقمي ٠٥٥١٢٣٤٥٦٧ شكرا" in
  let p := Unicode.utf8_decode "0551234567" in
  NumeralConverter.extract_phone_number_cp text = Some p /\
  PhoneValidator.validate_saudi_phone NumeralConverter.is_ascii_digit p = Some p.
Proof.
  intros text p.
  assert (H : NumeralConverter.extract_phone_number_cp text = Some p) by reflexivity.
  split; [exact H |].
  exact (proj1 (proj2 (extracted_phone_is_ten_digits NumeralConverter.is_ascii_digit
                         text p (fun c Hc => Hc) H)) eq_refl).
Defined.

(** ** Cleaned text *)

Section CleanFacts.
Import Unicode ArabicUtils CleanText.

Lemma clean_arabic_cp_split (l : list N) :
  clean_arabic_cp l = strip_cp (join_cp (split_cp [] (clean_chars l))).
Proof. reflexivity. Qed.

Lemma clean_chars_settled (l : list N) : Forall settled (clean_chars l).
Proof.
  unfold clean_chars. apply List.Forall_forall. intros c Hc.
  apply List.filter_In in Hc. destruct Hc as (Hc & H1600).
  apply negb_true_iff, N.eqb_neq in H1600.
  apply in_map_iff in Hc. destruct Hc as (c1 & <- & Hc).
  apply in_map_iff in Hc. destruct Hc as (c0 & <- & Hc).
  apply List.filter_In in Hc. destruct Hc as (_ & Hd). apply negb_true_iff in Hd.
  unfold settled.
  destruct (is_alef_variant c0) eqn:Ha.
  - simpl. repeat split; auto; discriminate.
  - destruct (N.eqb_spec c0 1577) as [-> | Hne].
    + repeat split; auto; discriminate.
    + repeat split; auto. intros Ha'. congruence.
Qed.

Lemma clean_chars_fixed (l : list N) : Forall settled l -> clean_chars l = l.
Proof.
  unfold clean_chars. intros H.
  induction H as [| c l (Hd & Ha & H77 & H00) Hl IH]; [reflexivity |].
  simpl. rewrite Hd. simpl.
  assert (E1 : (if is_alef_variant c then 1575%N else c) = c).
  { destruct (is_alef_variant c); [symmetry; by apply Ha | reflexivity]. }
  rewrite E1.
  destruct (N.eqb_spec c 1577); [done |].
  destruct (N.eqb_spec c 1600); [done |]. simpl. f_equal. exact IH.
Qed.

Lemma settled_space : settled 32%N.
Proof. unfold settled. repeat split; try discriminate. Qed.

Lemma split_cp_words (l cur : list N) :
  Forall (fun c => is_space c = false) cur ->
  Forall is_word (split_cp cur l).
Proof.
  revert cur. induction l as [| c l IH]; intros cur Hcur; simpl.
  - destruct cur as [| x cur]; [constructor |].
    constructor; [| constructor]. split.
    + simpl. intros E. by apply app_eq_nil in E as [_ E].
    + apply List.Forall_rev. exact Hcur.
  - destruct (is_space c) eqn:Hs.
    + destruct cur as [| x cur]; [by apply IH |].
      constructor; [| by apply IH]. split.
      * simpl. intros E. by apply app_eq_nil in E as [_ E].
      * apply List.Forall_rev. exact Hcur.
    + apply IH. by constructor.
Qed.

Lemma split_cp_all (P : N -> Prop) (l cur : list N) :
  Forall P cur -> Forall P l -> Forall (Forall P) (split_cp cur l).
Proof.
  revert cur. induction l as [| c l IH]; intros cur Hcur Hl; simpl.
  - destruct cur as [| x cur]; [constructor |].
    constructor; [| constructor]. apply List.Forall_rev. exact Hcur.
  - inversion Hl as [| ? ? Hc Hl']; subst.
    destruct (is_space c).
    + destruct cur as [| x cur]; [by apply IH |].
      constructor; [| by apply IH]. apply List.Forall_rev. exact Hcur.
    + apply IH; [by constructor | assumption].
Qed.

Lemma split_cp_word (w rest cur : list N) :
  Forall (fun c => is_space c = false) w ->
  split_cp cur (w ++ rest) = split_cp (rev w ++ cur) rest.
Proof.
  intros H. revert cur. induction H as [| c w Hc Hw IH]; intros cur; [reflexivity |].
  simpl. rewrite Hc, IH, <- app_assoc. reflexivity.
Qed.

Lemma split_join (ws : list (list N)) :
  Forall is_word ws -> split_cp [] (join_cp ws) = ws.
Proof.
  induction 1 as [| w ws (Hne & Hw) Hws IH]; [reflexivity |].
  destruct ws as [| w2 ws].
  - simpl. rewrite <- (app_nil_r w) at 1. rewrite (split_cp_word w [] [] Hw).
    rewrite app_nil_r. simpl.
    destruct (rev w) as [| x r] eqn:E.
    + apply (f_equal (@rev N)) in E. rewrite rev_involutive in E. done.
    + rewrite <- E, rev_involutive. reflexivity.
  - change (join_cp (w :: w2 :: ws)) with (w ++ 32%N :: join_cp (w2 :: ws)).
    rewrite (split_cp_word w _ [] Hw), app_nil_r.
    simpl split_cp at 1.
    destruct (rev w) as [| x r] eqn:E.
    + apply (f_equal (@rev N)) in E. rewrite rev_involutive in E. done.
    + rewrite <- E, rev_involutive. f_equal. exact IH.
Qed.

Lemma join_all (P : N -> Prop) (ws : list (list N)) :
  P 32%N -> Forall (Forall P) ws -> Forall P (join_cp ws).
Proof.
  intros Hsp. induction 1 as [| w ws Hw Hws IH]; [constructor |].
  destruct ws as [| w2 ws]; [exact Hw |].
  change (join_cp (w :: w2 :: ws)) with (w ++ 32%N :: join_cp (w2 :: ws)).
  apply Forall_app. split; [exact Hw |]. constructor; [exact Hsp | exact IH].
Qed.

Lemma join_ends (ws : list (list N)) :
  Forall is_word ws -> ws <> [] ->
  (exists c t, join_cp ws = c :: t /\ is_space c = false) /\
  (exists t c, join_cp ws = t ++ [c] /\ is_space c = false).
Proof.
  induction 1 as [| w ws (Hne & Hw) Hws IH]; [done |]. intros _.
  assert (Hfirst : exists c t, w = c :: t /\ is_space c = false).
  { destruct w as [| c t]; [done |]. inversion Hw; subst. eauto. }
  assert (Hlast : exists t c, w = t ++ [c] /\ is_space c = false).
  { destruct (rev w) as [| c r] eqn:E.
    - apply (f_equal (@rev N)) in E. rewrite rev_involutive in E. done.
    - exists (rev r), c. split.
      + apply (f_equal (@rev N)) in E. rewrite rev_involutive in E. exact E.
      + apply List.Forall_rev in Hw. rewrite E in Hw. by inversion Hw. }
  destruct ws as [| w2 ws]; [simpl; auto |].
  change (join_cp (w :: w2 :: ws)) with (w ++ 32%N :: join_cp (w2 :: ws)).
  split.
  - destruct Hfirst as (c & t & -> & Hc). simpl. eauto.
  - destruct IH as (_ & (t & c & Ht & Hc)); [done |].
    rewrite Ht. exists (w ++ 32%N :: t), c. split; [| exact Hc].
    rewrite <- app_assoc. reflexivity.
Qed.

Lemma strip_join (ws : list (list N)) :
  Forall is_word ws -> strip_cp (join_cp ws) = join_cp ws.
Proof.
  intros H. destruct ws as [| w ws]; [reflexivity |].
  destruct (join_ends (w :: ws) H) as ((c & t & E1 & Hc) & (t' & c' & E2 & Hc'));
    [done |].
  unfold strip_cp.
  assert (L1 : lstrip_cp (join_cp (w :: ws)) = join_cp (w :: ws)).
  { rewrite E1. simpl. by rewrite Hc. }
  rewrite L1.
  assert (L2 : lstrip_cp (rev (join_cp (w :: ws))) = rev (join_cp (w :: ws))).
  { rewrite E2, rev_app_distr. simpl. by rewrite Hc'. }
  rewrite L2. apply rev_involutive.
Qed.

End CleanFacts.

(** X26. The text clean_arabic_text returns holds no diacritic, no tatweel, no teh
    marbuta, no alef variant other than the bare alef and no white space
    other than single spaces between words; it has no leading or trailing
    white space, and cleaning it again returns it unchanged. *)
Theorem clean_arabic_text_is_idempotent (text : list N) :
  let out := ArabicUtils.clean_arabic_cp text in
  ArabicUtils.clean_arabic_cp out = out /\
  Forall (fun c => ArabicUtils.is_diacritic c = false /\ c <> 1577%N /\
                   c <> 1600%N /\ (ArabicUtils.is_alef_variant c = true -> c = 1575%N) /\
                   (Unicode.is_space c = true -> c = 32%N)) out /\
  Unicode.strip_cp out = out /\
  Unicode.join_cp (Unicode.split_cp [] out) = out.
Proof.
  cbv zeta. rewrite (clean_arabic_cp_split text).
  set (ws := Unicode.split_cp [] (CleanText.clean_chars text)).
  assert (Hw : Forall CleanText.is_word ws) by (apply split_cp_words; constructor).
  assert (Hs : Forall (Forall CleanText.settled) ws).
  { apply split_cp_all; [constructor | apply clean_chars_settled]. }
  rewrite (strip_join ws Hw).
  assert (Hj : Forall CleanText.settled (Unicode.join_cp ws))
    by (apply join_all; [apply settled_space | exact Hs]).
  split; [| split; [| split]].
  - rewrite clean_arabic_cp_split, (clean_chars_fixed _ Hj), (split_join ws Hw).
    apply strip_join, Hw.
  - assert (Hsp : Forall (fun c => Unicode.is_space c = true -> c = 32%N)
                    (Unicode.join_cp ws)).
    { apply join_all; [reflexivity |].
      eapply List.Forall_impl; [| exact Hw].
      intros w (_ & Hns). eapply List.Forall_impl; [| exact Hns].
      intros c Hc Hc'. congruence. }
    apply List.Forall_forall. intros c Hc.
    pose proof (proj1 (List.Forall_forall _ _) Hj c Hc) as (S1 & S2 & S3 & S4).
    pose proof (proj1 (List.Forall_forall _ _) Hsp c Hc) as S5.
    auto 10.
  - apply strip_join, Hw.
  - by rewrite (split_join ws Hw).
Qed.

(** ** Cart lines of the menu service *)

Section CartValidationFacts.
Import MenuRepository CartValidation SessionModel.

Lemma flat_map_empty {A B : Type} (f : A -> list B) (l : list A) :
  flat_map f l = [] -> forall x, In x l -> f x = [].
Proof.
  induction l as [| y l IH]; simpl; [tauto |].
  intros H x [-> | Hx]; apply app_eq_nil in H; destruct H as (H1 & H2); auto.
Qed.

Lemma validate_quantity_ok (q : Z) :
  (Validators.validate_quantity q).1 = true <-> (1 <= q <= 99)%Z.
Proof.
  unfold Validators.validate_quantity.
  destruct (Z.ltb_spec q 1); [simpl; split; [discriminate | lia] |].
  destruct (q >? 99)%Z eqn:E; simpl.
  - split; [discriminate | lia].
  - split; [lia | reflexivity].
Qed.

Lemma modifiers_total_map (rows : list ModifierRow) :
  modifiers_total
    (map (fun m => {| modifier_id := md_id m; name_ar := md_name_ar m;
                      price_adjustment := md_price_adjustment m |}) rows)
  = fold_left (fun acc m => (acc + md_price_adjustment m)%Q) rows 0%Q.
Proof.
  unfold modifiers_total. generalize 0%Q.
  induction rows as [| r rows IH]; intros a; simpl; [reflexivity | apply IH].
Qed.

Lemma any_of_In (ids : list Z) (i : Z) : any_of ids i = true <-> In i ids.
Proof.
  unfold any_of. rewrite existsb_exists. split.
  - intros (x & Hx & E). apply Z.eqb_eq in E. congruence.
  - intros H. exists i. split; [assumption | apply Z.eqb_refl].
Qed.

(** What an empty error list of [validate_modifiers_for_item] means for the
    modifiers that were asked for. *)
Lemma validate_modifiers_ok (db : MenuDatabase) (item_id : Z) (ids : list Z) :
  (validate_modifiers_for_item db item_id ids).1 = true ->
  ids <> [] ->
  forall m, In m (tbl_modifiers db) -> In (md_id m) ids ->
    md_is_available m = true /\
    exists g, In g (groups_of_item db item_id) /\ mg_id g = md_group_id m.
Proof.
  unfold validate_modifiers_for_item. destruct ids as [| i ids]; [done |].
  set (ids' := i :: ids). cbv zeta.
  set (e1 := flat_map _ (List.filter _ (tbl_modifiers db))).
  set (e2 := flat_map _ (groups_of_item db item_id)).
  destruct (e1 ++ e2) eqn:E; [| discriminate]. intros _ _ m Hm Hid.
  apply app_eq_nil in E. destruct E as (E1 & _). subst e1.
  assert (Hin : In m (List.filter (fun m => any_of ids' (md_id m)) (tbl_modifiers db))).
  { apply List.filter_In. split; [assumption | by apply any_of_In]. }
  pose proof (flat_map_empty _ _ E1 m Hin) as Hm0. cbv beta in Hm0.
  apply app_eq_nil in Hm0. destruct Hm0 as (G & A).
  split.
  - destruct (md_is_available m); [reflexivity | discriminate A].
  - destruct (existsb _ (groups_of_item db item_id)) eqn:Ex; [| discriminate G].
    apply existsb_exists in Ex. destruct Ex as (g & Hg & Eg).
    apply Z.eqb_eq in Eg. eauto.
Qed.

Lemma validate_modifiers_flag (db : MenuDatabase) (item_id : Z) (ids : list Z) :
  (validate_modifiers_for_item db item_id ids).1 =
  match (validate_modifiers_for_item db item_id ids).2 with
  | [] => true
  | _ => false
  end.
Proof. unfold validate_modifiers_for_item. by destruct ids. Qed.

End CartValidationFacts.

(** X27. A cart item build_cart_item returns has a quantity between 1 and 99 and
    the id, quantity and instructions asked for; its item is an available row
    of the menu, whose name it carries; its unit price is the item's price
    plus the price adjustments of its modifiers, and its total is the unit
    price times the quantity.  Each of its modifiers was asked for, is
    available and belongs to a modifier group of the item. *)
Theorem build_cart_item_is_validated
    (db : MenuRepository.MenuDatabase) (item_id quantity : Z)
    (modifier_ids : list Z) (instructions : option string)
    (ci : SessionModel.CartItem) :
  CartValidation.build_cart_item db item_id quantity modifier_ids instructions
    = CartValidation.BuildSuccess ci ->
  (1 <= quantity <= 99)%Z /\
  SessionModel.menu_item_id ci = item_id /\
  SessionModel.quantity ci = quantity /\
  SessionModel.special_instructions ci = instructions /\
  (exists row : MenuRepository.MenuItemRow,
     In row (MenuRepository.tbl_menu_items db) /\
     MenuRepository.mi_id row = item_id /\
     MenuRepository.mi_is_available row = true /\
     SessionModel.item_name_ar ci = MenuRepository.mi_name_ar row /\
     SessionModel.unit_price ci =
       (MenuRepository.mi_price row
        + CartValidation.modifiers_total (SessionModel.modifiers ci))%Q) /\
  SessionModel.total_price ci = (SessionModel.unit_price ci * inject_Z quantity)%Q /\
  Forall (fun m : SessionModel.CartItemModifier =>
            In (SessionModel.modifier_id m) modifier_ids /\
            exists row : MenuRepository.ModifierRow,
              In row (MenuRepository.tbl_modifiers db) /\
              MenuRepository.md_id row = SessionModel.modifier_id m /\
              MenuRepository.md_price_adjustment row = SessionModel.price_adjustment m /\
              MenuRepository.md_is_available row = true /\
              exists g, In g (MenuRepository.groups_of_item db item_id) /\
                        MenuRepository.mg_id g = MenuRepository.md_group_id row)
    (SessionModel.modifiers ci).
Proof.
  unfold CartValidation.build_cart_item, CartValidation.validate_cart_line.
  pose proof (validate_quantity_ok quantity) as Hq.
  destruct (Validators.validate_quantity quantity) as [qv qe]. cbn [fst] in Hq.
  destruct (MenuRepository.get_item_by_id db item_id) as [item |] eqn:Hitem;
    [| discriminate].
  pose proof (List.find_some _ _ Hitem) as (Hin & Hp).
  apply andb_true_iff in Hp. destruct Hp as (Hid & Hav). apply Z.eqb_eq in Hid.
  rewrite Hav. cbn [negb]. rewrite app_nil_r.
  destruct qv; cbn [negb].
  2:{ destruct modifier_ids as [| i ids]; [discriminate |].
      destruct (MenuRepository.validate_modifiers_for_item db item_id (i :: ids))
        as [mv me]. destruct (negb mv); discriminate. }
  assert (Hq' : (1 <= quantity <= 99)%Z) by (by apply Hq).
  destruct modifier_ids as [| i ids].
  - cbn [negb]. intros [= <-]. cbn.
    split; [assumption |]. split; [reflexivity |]. split; [reflexivity |].
    split; [reflexivity |]. split; [| split; [reflexivity | constructor]].
    exists item. repeat split; assumption || reflexivity.
  - pose proof (validate_modifiers_ok db item_id (i :: ids)) as Hm.
    pose proof (validate_modifiers_flag db item_id (i :: ids)) as Hf.
    destruct (MenuRepository.validate_modifiers_for_item db item_id (i :: ids))
      as [mv me]. cbn [fst snd] in Hm, Hf.
    destruct mv; cbn [negb].
    2:{ destruct me; [discriminate Hf | discriminate]. }
    intros [= <-]. cbn [SessionModel.menu_item_id SessionModel.quantity
                        SessionModel.special_instructions SessionModel.item_name_ar
                        SessionModel.unit_price SessionModel.total_price
                        SessionModel.modifiers].
    split; [assumption |]. split; [reflexivity |]. split; [reflexivity |].
    split; [reflexivity |]. split; [| split; [reflexivity |]].
    + exists item. repeat split; try assumption.
      by rewrite modifiers_total_map.
    + apply List.Forall_forall. intros m Hmm. apply in_map_iff in Hmm.
      destruct Hmm as (row & <- & Hrow). apply List.filter_In in Hrow.
      destruct Hrow as (Hrow & Hsel). apply andb_true_iff in Hsel.
      destruct Hsel as (Hsel & _). apply any_of_In in Hsel.
      destruct (Hm eq_refl ltac:(discriminate) row Hrow Hsel) as (Ha & Hg).
      cbn. split; [assumption |]. exists row. auto 10.
Qed.

Lemma build_cart_item_is_validated_witness :
  let db :=
    {| MenuRepository.tbl_menu_items :=
         [{| MenuRepository.mi_id := 1; MenuRepository.mi_name_ar := "برجر لحم";
             MenuRepository.mi_price := 25; MenuRepository.mi_is_available := true |}];
       MenuRepository.tbl_modifier_groups :=
         [{| MenuRepository.mg_id := 10; MenuRepository.mg_name_ar := "الحجم";
             MenuRepository.mg_is_required := true;
             MenuRepository.mg_min_selections := 1;
             MenuRepository.mg_max_selections := 1 |}];
       MenuRepository.tbl_item_modifier_groups := [(1, 10)%Z];
       MenuRepository.tbl_modifiers :=
         [{| MenuRepository.md_id := 100; MenuRepository.md_group_id := 10;
             MenuRepository.md_name_ar := "كبير";
             MenuRepository.md_price_adjustment := 3;
             MenuRepository.md_is_available := true |}] |} in
  exists ci : SessionModel.CartItem,
    CartValidation.build_cart_item db 1 2 [100%Z] None = CartValidation.BuildSuccess ci /\
    SessionModel.total_price ci = (SessionModel.unit_price ci * inject_Z 2)%Q.
Proof.
  intros db. eexists. split; [reflexivity |].
  exact (proj1 (proj2 (proj2 (proj2 (proj2 (proj2
           (build_cart_item_is_validated db 1 2 [100%Z] None _ eq_refl))))))).
Defined.

Section CartValidationFacts2.
Import MenuRepository CartValidation SessionModel.

Lemma get_item_by_id_none (db : MenuDatabase) (item_id : Z) :
  (forall row, In row (tbl_menu_items db) -> mi_id row = item_id ->
               mi_is_available row = false) ->
  get_item_by_id db item_id = None.
Proof.
  intros H. unfold get_item_by_id.
  destruct (List.find _ (tbl_menu_items db)) as [row |] eqn:E; [| reflexivity].
  destruct (List.find_some _ _ E) as (Hin & Hp).
  apply andb_true_iff in Hp. destruct Hp as (Hid & Hav). apply Z.eqb_eq in Hid.
  rewrite (H row Hin Hid) in Hav. discriminate.
Qed.

End CartValidationFacts2.

(** X28. An item that is unknown or marked unavailable makes validate_cart_line
    and build_cart_item answer that the item does not exist, since
    get_item_by_id selects available rows only; the error that the item is
    currently unavailable is never among the errors of validate_cart_line.
    With no modifier ids, build_cart_item succeeds for every available item
    and quantity between 1 and 99, whatever modifier groups the item
    requires. *)
Theorem unavailable_item_is_reported_as_not_found
    (db : MenuRepository.MenuDatabase) (item_id quantity : Z) :
  ((forall row, In row (MenuRepository.tbl_menu_items db) ->
                MenuRepository.mi_id row = item_id ->
                MenuRepository.mi_is_available row = false) ->
   forall (modifier_ids : list Z) (instructions : option string),
     CartValidation.validate_cart_line db item_id quantity modifier_ids
       = CartValidation.LineNotFound [[Str "الصنف غير موجود"]] /\
     CartValidation.build_cart_item db item_id quantity modifier_ids instructions
       = CartValidation.BuildFailure [[Str "الصنف غير موجود"]]) /\
  (forall modifier_ids : list Z,
     ~ In [Str "الصنف غير متوفر حالياً"]
         (CartValidation.line_errors
            (CartValidation.validate_cart_line db item_id quantity modifier_ids))) /\
  (forall (item : MenuRepository.MenuItemRow) (instructions : option string),
     MenuRepository.get_item_by_id db item_id = Some item ->
     (1 <= quantity <= 99)%Z ->
     CartValidation.build_cart_item db item_id quantity [] instructions =
       CartValidation.BuildSuccess
         {| SessionModel.menu_item_id := item_id;
            SessionModel.item_name_ar := MenuRepository.mi_name_ar item;
            SessionModel.quantity := quantity;
            SessionModel.unit_price := (MenuRepository.mi_price item + 0)%Q;
            SessionModel.total_price :=
              ((MenuRepository.mi_price item + 0) * inject_Z quantity)%Q;
            SessionModel.modifiers := [];
            SessionModel.special_instructions := instructions |}).
Proof.
  split; [| split].
  - intros H mods instr.
    unfold CartValidation.build_cart_item, CartValidation.validate_cart_line.
    rewrite (get_item_by_id_none db item_id H).
    by destruct (Validators.validate_quantity quantity).
  - intros mods. unfold CartValidation.validate_cart_line.
    assert (Hqe : forall e, In e (if negb (Validators.validate_quantity quantity).1
                                  then [[Str (Validators.validate_quantity quantity).2]]
                                  else []) ->
                            e <> [Str "الصنف غير متوفر حالياً"]).
    { unfold Validators.validate_quantity.
      destruct (quantity <? 1)%Z; [| destruct (quantity >? 99)%Z]; simpl;
        intros e He Ee; subst e; intuition discriminate. }
    destruct (Validators.validate_quantity quantity) as [qv qe]. cbn [fst snd] in Hqe.
    destruct (MenuRepository.get_item_by_id db item_id) as [item |] eqn:Hitem.
    2:{ simpl. intros [E | []]. discriminate E. }
    pose proof (List.find_some _ _ Hitem) as (_ & Hp).
    apply andb_true_iff in Hp. destruct Hp as (_ & Hav).
    rewrite Hav. cbn [negb CartValidation.line_errors]. rewrite app_nil_r.
    destruct mods as [| i ids]; [intros Hin; exact (Hqe _ Hin eq_refl) |].
    assert (Hme : forall e,
              In e (MenuRepository.validate_modifiers_for_item db item_id (i :: ids)).2 ->
              e <> [Str "الصنف غير متوفر حالياً"]).
    { unfold MenuRepository.validate_modifiers_for_item. cbn [snd].
      intros e He. apply in_app_iff in He. destruct He as [He | He];
        apply in_flat_map in He; destruct He as (x & _ & He);
        apply in_app_iff in He; destruct He as [He | He];
        match type of He with
        | In _ (if ?b then _ else _) => destruct b
        end; simpl in He; intros Ee; subst e; intuition discriminate. }
    destruct (MenuRepository.validate_modifiers_for_item db item_id (i :: ids))
      as [mv me]. cbn [snd] in Hme.
    destruct (negb mv).
    + intros Hin. apply in_app_iff in Hin. destruct Hin as [Hin | Hin];
        [exact (Hqe _ Hin eq_refl) | exact (Hme _ Hin eq_refl)].
    + intros Hin. exact (Hqe _ Hin eq_refl).
  - intros item instr Hitem Hq.
    unfold CartValidation.build_cart_item, CartValidation.validate_cart_line.
    pose proof (proj2 (validate_quantity_ok quantity) Hq) as Hv.
    destruct (Validators.validate_quantity quantity) as [qv qe]. cbn [fst] in Hv.
    subst qv. rewrite Hitem.
    pose proof (List.find_some _ _ Hitem) as (_ & Hp).
    apply andb_true_iff in Hp. destruct Hp as (_ & Hav).
    rewrite Hav. reflexivity.
Qed.

(** ** The customer's name *)

Section NameFacts.
Import Unicode CleanText NameValidator.

Lemma lstrip_head (l : list N) (c : N) (t : list N) :
  lstrip_cp l = c :: t -> is_space c = false.
Proof.
  induction l as [| x l IH]; simpl; [discriminate |].
  destruct (is_space x) eqn:E; [exact IH |].
  intros [= <- _]. exact E.
Qed.

Lemma lstrip_suffix (l : list N) : exists p, l = p ++ lstrip_cp l.
Proof.
  induction l as [| x l (p & IH)]; simpl; [by exists [] |].
  destruct (is_space x).
  - exists (x :: p). simpl. by rewrite <- IH.
  - by exists [].
Qed.

Lemma strip_last (l t : list N) (c : N) :
  strip_cp l = t ++ [c] -> is_space c = false.
Proof.
  unfold strip_cp. intros H.
  apply (f_equal (@rev N)) in H. rewrite rev_involutive, rev_app_distr in H.
  simpl in H. by apply lstrip_head in H.
Qed.

Lemma strip_first (l t : list N) (c : N) :
  strip_cp l = c :: t -> is_space c = false.
Proof.
  unfold strip_cp. intros H.
  apply (f_equal (@rev N)) in H. rewrite rev_involutive in H. simpl in H.
  destruct (lstrip_suffix (rev (lstrip_cp l))) as (p & Hp).
  rewrite H in Hp. apply (f_equal (@rev N)) in Hp.
  rewrite rev_involutive, rev_app_distr, rev_app_distr, rev_involutive in Hp.
  simpl in Hp. by apply lstrip_head in Hp.
Qed.

Lemma nonspace_app (l1 l2 : list N) :
  nonspace (l1 ++ l2) = nonspace l1 ++ nonspace l2.
Proof. apply List.filter_app. Qed.

Lemma nonspace_word (w : list N) :
  Forall (fun c => is_space c = false) w -> nonspace w = w.
Proof.
  induction 1 as [| c w Hc Hw IH]; [reflexivity |].
  unfold nonspace. simpl. rewrite Hc. simpl. f_equal. exact IH.
Qed.

Lemma nonspace_join (w : list N) (ws : list (list N)) :
  nonspace (join_cp (w :: ws)) = nonspace w ++ nonspace (join_cp ws).
Proof.
  destruct ws as [| w2 ws].
  - simpl. by rewrite app_nil_r.
  - change (join_cp (w :: w2 :: ws)) with (w ++ 32%N :: join_cp (w2 :: ws)).
    rewrite nonspace_app. reflexivity.
Qed.

Lemma nonspace_split (l cur : list N) :
  Forall (fun c => is_space c = false) cur ->
  nonspace (join_cp (split_cp cur l)) = rev cur ++ nonspace l.
Proof.
  revert cur. induction l as [| c l IH]; intros cur Hcur.
  - simpl. destruct cur as [| x cur]; [reflexivity |].
    rewrite app_nil_r. change (join_cp [rev (x :: cur)]) with (rev (x :: cur)).
    apply nonspace_word. by apply List.Forall_rev.
  - simpl split_cp. destruct (is_space c) eqn:E.
    + assert (Hn : nonspace (c :: l) = nonspace l).
      { unfold nonspace. simpl. by rewrite E. }
      rewrite Hn. destruct cur as [| x cur].
      * apply (IH [] Hcur).
      * rewrite nonspace_join, (IH [] ltac:(constructor)).
        rewrite nonspace_word by (by apply List.Forall_rev). reflexivity.
    + rewrite (IH (c :: cur)) by (by constructor).
      unfold nonspace at 2. simpl. rewrite E. simpl.
      rewrite <- app_assoc. reflexivity.
Qed.

Lemma nonspace_length (l : list N) : (List.length (nonspace l) <= List.length l)%nat.
Proof. apply List.filter_length_le. Qed.

(** A stripped text of two characters or more has two that are not white
    space. *)
Lemma strip_two (l : list N) :
  (2 <= List.length (strip_cp l))%nat ->
  (2 <= List.length (nonspace (strip_cp l)))%nat.
Proof.
  intros H. destruct (strip_cp l) as [| a t] eqn:E; [simpl in H; lia |].
  pose proof (strip_first l t a E) as Ha.
  destruct (rev t) as [| b r] eqn:Er.
  - apply (f_equal (@rev N)) in Er. rewrite rev_involutive in Er. subst t.
    simpl in H. lia.
  - apply (f_equal (@rev N)) in Er. rewrite rev_involutive in Er. simpl in Er.
    subst t.
    assert (Hb : is_space b = false).
    { apply (strip_last l (a :: rev r) b). exact E. }
    unfold nonspace. simpl. rewrite Ha. simpl.
    rewrite List.filter_app, length_app. simpl. rewrite Hb. simpl. lia.
Qed.

Lemma only_name_chars_Forall (s : list N) :
  only_name_chars s = true -> Forall (fun c => is_name_char c = true) s.
Proof.
  destruct s as [| c s]; [discriminate |].
  unfold only_name_chars. intros H. apply List.Forall_forall.
  by apply forallb_forall.
Qed.

Lemma nonspace_lstrip (l : list N) : nonspace (lstrip_cp l) = nonspace l.
Proof.
  induction l as [| c l IH]; [reflexivity |]. cbn [lstrip_cp].
  destruct (is_space c) eqn:E; [| reflexivity].
  rewrite IH. unfold nonspace. simpl. by rewrite E.
Qed.

Lemma nonspace_rev (l : list N) : nonspace (rev l) = rev (nonspace l).
Proof.
  induction l as [| c l IH]; [reflexivity |]. simpl.
  rewrite nonspace_app, IH. unfold nonspace at 2 3. simpl.
  destruct (is_space c); simpl; [by rewrite app_nil_r | reflexivity].
Qed.

Lemma nonspace_strip (l : list N) : nonspace (strip_cp l) = nonspace l.
Proof.
  unfold strip_cp.
  rewrite nonspace_rev, nonspace_lstrip, nonspace_rev, nonspace_lstrip.
  apply rev_involutive.
Qed.

(** A word of two or more allowed characters is accepted as it is. *)
Lemma name_word_accepted (name : list N) :
  (2 <= List.length name)%nat ->
  Forall (fun c => is_name_char c = true /\ is_space c = false) name ->
  validate_customer_name name = NameValid name.
Proof.
  intros Hlen Hall.
  assert (Hw : Forall is_word [name]).
  { constructor; [| constructor]. split.
    - intros ->. simpl in Hlen. lia.
    - eapply List.Forall_impl; [| exact Hall]. by intros c (_ & Hc). }
  pose proof (strip_join [name] Hw) as Hst.
  pose proof (split_join [name] Hw) as Hsj.
  change (join_cp [name]) with name in Hst, Hsj.
  unfold validate_customer_name. rewrite Hst, Hsj.
  change (join_cp [name]) with name.
  destruct name as [| a t]; [simpl in Hlen; lia |].
  assert (Hlt : (List.length (a :: t) <? 2)%nat = false) by (by apply Nat.ltb_ge).
  rewrite Hlt. cbn [orb].
  assert (Hre : only_name_chars (a :: t) = true).
  { unfold only_name_chars. apply forallb_forall. intros c Hc.
    exact (proj1 (proj1 (List.Forall_forall _ _) Hall c Hc)). }
  rewrite Hre. reflexivity.
Qed.

(** The characters U+0600..U+06FF are allowed, and none is white space. *)
Lemma arabic_block_char (c : N) :
  (1536 <= c <= 1791)%N -> is_name_char c = true /\ is_space c = false.
Proof.
  intros H. split.
  - unfold is_name_char.
    destruct (N.leb_spec 1536 c); [| lia]. destruct (N.leb_spec c 1791); [| lia].
    reflexivity.
  - unfold is_space.
    repeat match goal with
           | |- context [(?a <=? ?b)%N] => destruct (N.leb_spec a b); try lia
           | |- context [(?a =? ?b)%N] => destruct (N.eqb_spec a b); try lia
           end; reflexivity.
Qed.

End NameFacts.

(** X29. A name validate_customer_name accepts is returned with two characters or
    more, all of them Arabic or Latin letters of the pattern or single
    spaces, without white space at its ends or doubled; it has the
    characters of the name typed, white space apart, and validating it again
    returns it unchanged.  Every word of two or more characters of the
    pattern is accepted as it is; since the pattern takes the whole block
    U+0600..U+06FF, so is every text of two or more Arabic-Indic digits. *)
Theorem validate_customer_name_normal_form :
  (forall name cleaned : list N,
     NameValidator.validate_customer_name name = NameValidator.NameValid cleaned ->
     (2 <= List.length cleaned)%nat /\
     Forall (fun c => NameValidator.is_name_char c = true /\
                      (Unicode.is_space c = true -> c = 32%N)) cleaned /\
     Unicode.strip_cp cleaned = cleaned /\
     Unicode.join_cp (Unicode.split_cp [] cleaned) = cleaned /\
     NameValidator.nonspace cleaned = NameValidator.nonspace name /\
     NameValidator.validate_customer_name cleaned = NameValidator.NameValid cleaned) /\
  (forall name : list N,
     (2 <= List.length name)%nat ->
     Forall (fun c => NameValidator.is_name_char c = true /\
                      Unicode.is_space c = false) name ->
     NameValidator.validate_customer_name name = NameValidator.NameValid name) /\
  (forall name : list N,
     (2 <= List.length name)%nat ->
     Forall (fun c => NumeralConverter.is_arabic_digit c = true) name ->
     NameValidator.validate_customer_name name = NameValidator.NameValid name).
Proof.
  split; [| split].
  - intros name cleaned. unfold NameValidator.validate_customer_name.
    destruct (_ || _) eqn:E1; [discriminate |].
    apply orb_false_iff in E1. destruct E1 as (_ & Hlen).
    apply Nat.ltb_ge in Hlen.
    set (ws := Unicode.split_cp [] (Unicode.strip_cp name)).
    destruct (NameValidator.only_name_chars (Unicode.join_cp ws)) eqn:E2;
      [| discriminate].
    cbn [negb]. intros [= <-].
    assert (Hw : Forall CleanText.is_word ws) by (apply split_cp_words; constructor).
    assert (Hns : NameValidator.nonspace (Unicode.join_cp ws)
                  = NameValidator.nonspace (Unicode.strip_cp name)).
    { unfold ws. rewrite nonspace_split by constructor. reflexivity. }
    assert (Hl : (2 <= List.length (Unicode.join_cp ws))%nat).
    { pose proof (strip_two name Hlen) as H2. rewrite <- Hns in H2.
      pose proof (nonspace_length (Unicode.join_cp ws)). lia. }
    assert (Hst : Unicode.strip_cp (Unicode.join_cp ws) = Unicode.join_cp ws)
      by (apply strip_join, Hw).
    assert (Hsj : Unicode.split_cp [] (Unicode.join_cp ws) = ws)
      by (apply split_join, Hw).
    split; [exact Hl |]. split; [| split; [exact Hst | split; [by rewrite Hsj |]]].
    + assert (Hsp : Forall (fun c => Unicode.is_space c = true -> c = 32%N)
                      (Unicode.join_cp ws)).
      { apply join_all; [reflexivity |].
        eapply List.Forall_impl; [| exact Hw].
        intros w (_ & Hn). eapply List.Forall_impl; [| exact Hn].
        intros c Hc Hc'. congruence. }
      apply only_name_chars_Forall in E2.
      apply List.Forall_forall. intros c Hc. split.
      * exact (proj1 (List.Forall_forall _ _) E2 c Hc).
      * exact (proj1 (List.Forall_forall _ _) Hsp c Hc).
    + split; [rewrite Hns; apply nonspace_strip |].
      rewrite Hst, Hsj.
      destruct (Unicode.join_cp ws) as [| a t] eqn:Ej; [simpl in Hl; lia |].
      assert (Hlt : (List.length (a :: t) <? 2)%nat = false) by (apply Nat.ltb_ge; exact Hl).
      rewrite Hlt, E2. reflexivity.
  - intros name Hlen Hall. apply name_word_accepted; assumption.
  - intros name Hlen Hall. apply name_word_accepted; [assumption |].
    eapply List.Forall_impl; [| exact Hall].
    intros c Hc. apply arabic_block_char.
    unfold NumeralConverter.is_arabic_digit in Hc.
    apply orb_true_iff in Hc. destruct Hc as [Hc | Hc];
      apply andb_true_iff in Hc; destruct Hc as (H1 & H2);
      apply N.leb_le in H1, H2; lia.
Qed.

(** ** The summary of the cart *)

Section OrderSummaryFacts.
Import Store OrderTools OrderSummary.

Lemma get_current_order_sums (w : World) (sid : string) :
  let cur := get_current_order w sid in
  cur_items cur = get_session_order w sid /\
  cur_subtotal cur = sum_line_total (get_session_order w sid) /\
  cur_item_count cur = sum_quantity (get_session_order w sid).
Proof.
  cbv zeta. unfold get_current_order.
  destruct (get_session_order w sid); repeat split; reflexivity.
Qed.

Lemma get_current_order_cleared (w : World) (sid : string) :
  get_current_order (clear_session_order sid w) sid =
  {| cur_items := []; cur_subtotal := 0; cur_item_count := 0;
     cur_summary_ar := [[Str "السلة فارغة"]] |}.
Proof.
  unfold get_current_order, get_session_order, clear_session_order. simpl.
  rewrite lookup_delete_eq. reflexivity.
Qed.

End OrderSummaryFacts.

(** X30. get_current_order returns the session's cart with a summary of one line
    per item, an empty line and the total, or the empty-cart summary.  Its
    subtotal and item count are the current_total and items_count a
    successful add_to_order has just returned and the new_subtotal a
    successful remove_from_order has just returned.  calculate_total fails
    exactly when get_current_order has no items and otherwise works on the
    same subtotal; a successful confirm_order records the items and the
    subtotal get_current_order showed, after which get_current_order shows an
    empty cart. *)
Theorem tools_agree_on_the_subtotal (w : Store.World) (sid : string) :
  let cur := OrderSummary.get_current_order w sid in
  (OrderSummary.cur_items cur = OrderTools.get_session_order w sid /\
   (OrderSummary.cur_items cur = [] ->
    OrderSummary.cur_summary_ar cur = [[Str "السلة فارغة"]]) /\
   (OrderSummary.cur_items cur <> [] ->
    List.length (OrderSummary.cur_summary_ar cur)
    = (List.length (OrderSummary.cur_items cur) + 2)%nat /\
    last (OrderSummary.cur_summary_ar cur)
    = Some [Str "المجموع: "; Num (OrderSummary.cur_subtotal cur); Str " ريال"])) /\
  (forall (id nts : string) (qty : Z) line total count msg,
     (OrderTools.add_to_order w id qty nts sid).1
       = OrderTools.AddSuccess line total count msg ->
     let cur' := OrderSummary.get_current_order
                   (OrderTools.add_to_order w id qty nts sid).2 sid in
     OrderSummary.cur_subtotal cur' = total /\
     OrderSummary.cur_item_count cur' = count /\
     OrderSummary.cur_items cur' <> []) /\
  (forall (id : string) new_subtotal msg,
     (OrderTools.remove_from_order w id sid).1
       = OrderTools.RemoveSuccess new_subtotal msg ->
     OrderSummary.cur_subtotal
       (OrderSummary.get_current_order (OrderTools.remove_from_order w id sid).2 sid)
     = new_subtotal) /\
  (forall (fee : Q) (promo : option string),
     match CheckoutTools.calculate_total w sid fee promo with
     | CheckoutTools.CalcSuccess t =>
         OrderSummary.cur_items cur <> [] /\
         CheckoutTools.tot_subtotal t = OrderSummary.cur_subtotal cur
     | CheckoutTools.CalcFailure _ => OrderSummary.cur_items cur = []
     end) /\
  (forall (env : CheckoutTools.Env) (name phone district : string)
          (fee discount : Q) (otype nts : string),
     let out := CheckoutTools.confirm_order w env sid name phone district fee
                  discount otype nts in
     CheckoutTools.confirm_success out.1 = true ->
     (exists r : Store.OrderRecord,
        ConfirmedOrders.get_confirmed_order out.2 (CheckoutTools.env_order_id env)
          = Some r /\
        Store.rec_items r = OrderSummary.cur_items cur /\
        Store.rec_subtotal r = OrderSummary.cur_subtotal cur) /\
     OrderSummary.cur_items (OrderSummary.get_current_order out.2 sid) = [] /\
     OrderSummary.cur_subtotal (OrderSummary.get_current_order out.2 sid) = 0%Q).
Proof.
  cbv zeta.
  destruct (get_current_order_sums w sid) as (Hi & Hs & Hc). cbv zeta in Hi, Hs, Hc.
  split; [| split; [| split; [| split]]].
  - split; [exact Hi |]. unfold OrderSummary.get_current_order.
    destruct (OrderTools.get_session_order w sid) as [| x c]; simpl.
    + split; [reflexivity | done].
    + split; [discriminate |]. intros _. split.
      * rewrite length_app, length_map. simpl. lia.
      * set (total_line := [Str "المجموع: "; Num _; Str " ريال"]).
        rewrite app_comm_cons.
        change [[]; total_line] with ([[]] ++ [total_line]).
        rewrite app_assoc. apply last_snoc.
  - intros id nts qty line total count msg Hadd.
    destruct (get_current_order_sums (OrderTools.add_to_order w id qty nts sid).2 sid)
      as (Hi' & Hs' & Hc').
    cbv zeta in Hi', Hs', Hc'. rewrite Hi', Hs', Hc'. clear Hi' Hs' Hc'.
    revert Hadd. unfold OrderTools.add_to_order.
    destruct (Store.menu_cache w !! id) as [item |]; [| discriminate].
    destruct (negb _); [discriminate |].
    cbn [fst snd]. intros [= _ <- <- _].
    rewrite get_set_session_order.
    split; [reflexivity |]. split; [reflexivity |].
    destruct (OrderTools.find_idx _ _) as [idx |] eqn:E.
    + destruct (find_idx_Some_lookup _ _ _ E) as (x & Hx & _).
      intros Hnil.
      assert (Hl : List.length (alter (OrderTools.merge_quantity qty) idx
                                  (OrderTools.get_session_order w sid)) = 0%nat)
        by (by rewrite Hnil).
      rewrite length_alter in Hl.
      destruct (OrderTools.get_session_order w sid); [done | simpl in Hl; lia].
    + intros Hnil. by destruct (OrderTools.get_session_order w sid).
  - intros id new_subtotal msg Hrem.
    destruct (get_current_order_sums (OrderTools.remove_from_order w id sid).2 sid)
      as (_ & Hs' & _).
    cbv zeta in Hs'. rewrite Hs'. clear Hs'.
    rewrite remove_from_order_cart.
    revert Hrem. unfold OrderTools.remove_from_order.
    destruct (_ =? _)%nat; [discriminate |]. cbn [fst]. by intros [= <- _].
  - intros fee promo. rewrite Hi, Hs. unfold CheckoutTools.calculate_total.
    destruct (OrderTools.get_session_order w sid) as [| x c]; [reflexivity |].
    set (items := x :: c). destruct promo as [code |]; [| by split].
    repeat match goal with
           | |- context [if ?b then _ else _] => destruct b
           end; by split.
  - intros env name phone district fee discount otype nts.
    rewrite Hi, Hs. unfold CheckoutTools.confirm_order.
    destruct (OrderTools.get_session_order w sid) as [| x c]; [discriminate |].
    destruct (negb (str_truthy name)); [discriminate |].
    destruct (negb (str_truthy phone)); [discriminate |].
    destruct (CheckoutTools.save_order_to_database_sync _ _ _ _ _ _ _ _ _ _ _ _ _ _)
      as [saved db'].
    cbn [fst snd]. intros _. split.
    + eexists. split.
      { unfold ConfirmedOrders.get_confirmed_order. simpl. apply lookup_insert_eq. }
      split; reflexivity.
    + rewrite get_current_order_cleared. split; reflexivity.
Qed.
